(** * Mission State Engine of space-mission-agent: a shallow embedding

    The Python sources are embedded as Rocq functions over an explicit
    object heap:

    - [state_manager.py]  : module [state_manager]
    - [agent_graph.py]    : module [agent_graph]
    - [main_agent.py]     : module [main_agent]
    - [local_tools.py]    : module [local_tools]

    Python dicts are finite maps from strings to values, Python lists are
    lists of values, and both live on a heap addressed by locations, so
    that two names for one list (a shallow [dict.copy()], the satellite
    list handed to the agent graph) really share it.  Exceptions are an
    explicit outcome; a raised exception keeps the heap effects made so
    far.  [datetime.now()], [uuid.uuid4()] and [numpy.random] are read from
    oracles indexed by a counter kept in the world.  Python floats are
    modelled by rationals in the store and by real numbers in the threat
    scanner (which needs [sqrt], [cos] and [sin]). *)

From Stdlib Require Import ZArith QArith Reals Lra Lia.
From stdpp Require Import base tactics option list gmap strings pretty.

Close Scope Q_scope.
Close Scope R_scope.

(** ** Enumerations of [state_manager.py] *)

Inductive MissionPhase :=
  | INITIALIZATION
  | ORBITAL_CALCULATION
  | CONSTELLATION_MANAGEMENT
  | COLLISION_MONITORING
  | MISSION_PLANNING
  | GROUND_COORDINATION
  | MAINTENANCE_ANALYSIS
  | DEBRIS_MONITORING
  | COMPLETED
  | ERROR.

Inductive AlertLevel := INFO | WARNING | HIGH | CRITICAL.

Inductive SatelliteStatus := ACTIVE | STANDBY | MAINTENANCE | OFFLINE | EMERGENCY.

(** A member of one of the three [Enum] classes. *)
Inductive enum_member :=
  | Phase (p : MissionPhase)
  | Level (l : AlertLevel)
  | Status (s : SatelliteStatus).

(** [member.value] *)
Definition enum_value (e : enum_member) : string :=
  match e with
  | Phase INITIALIZATION => "initialization"
  | Phase ORBITAL_CALCULATION => "orbital_calculation"
  | Phase CONSTELLATION_MANAGEMENT => "constellation_management"
  | Phase COLLISION_MONITORING => "collision_monitoring"
  | Phase MISSION_PLANNING => "mission_planning"
  | Phase GROUND_COORDINATION => "ground_coordination"
  | Phase MAINTENANCE_ANALYSIS => "maintenance_analysis"
  | Phase DEBRIS_MONITORING => "debris_monitoring"
  | Phase COMPLETED => "completed"
  | Phase ERROR => "error"
  | Level INFO => "info"
  | Level WARNING => "warning"
  | Level HIGH => "high"
  | Level CRITICAL => "critical"
  | Status ACTIVE => "active"
  | Status STANDBY => "standby"
  | Status MAINTENANCE => "maintenance"
  | Status OFFLINE => "offline"
  | Status EMERGENCY => "emergency"
  end.

(** [str(member)], which is what [json.dumps(..., default=str)] writes for
    an enum member it meets. *)
Definition enum_str (e : enum_member) : string :=
  match e with
  | Phase INITIALIZATION => "MissionPhase.INITIALIZATION"
  | Phase ORBITAL_CALCULATION => "MissionPhase.ORBITAL_CALCULATION"
  | Phase CONSTELLATION_MANAGEMENT => "MissionPhase.CONSTELLATION_MANAGEMENT"
  | Phase COLLISION_MONITORING => "MissionPhase.COLLISION_MONITORING"
  | Phase MISSION_PLANNING => "MissionPhase.MISSION_PLANNING"
  | Phase GROUND_COORDINATION => "MissionPhase.GROUND_COORDINATION"
  | Phase MAINTENANCE_ANALYSIS => "MissionPhase.MAINTENANCE_ANALYSIS"
  | Phase DEBRIS_MONITORING => "MissionPhase.DEBRIS_MONITORING"
  | Phase COMPLETED => "MissionPhase.COMPLETED"
  | Phase ERROR => "MissionPhase.ERROR"
  | Level INFO => "AlertLevel.INFO"
  | Level WARNING => "AlertLevel.WARNING"
  | Level HIGH => "AlertLevel.HIGH"
  | Level CRITICAL => "AlertLevel.CRITICAL"
  | Status ACTIVE => "SatelliteStatus.ACTIVE"
  | Status STANDBY => "SatelliteStatus.STANDBY"
  | Status MAINTENANCE => "SatelliteStatus.MAINTENANCE"
  | Status OFFLINE => "SatelliteStatus.OFFLINE"
  | Status EMERGENCY => "SatelliteStatus.EMERGENCY"
  end.

(** ** Python values and the object heap *)

(** A location is an index into the heap. *)
Abbreviation loc := nat.

(** Immutable values are held inline; lists and dicts are references. *)
Inductive pyval :=
  | VNone
  | VBool (b : bool)
  | VInt (z : Z)
  | VFloat (q : Q)
  | VStr (s : string)
  | VEnum (e : enum_member)
  | VRef (l : loc).

Inductive pyobj :=
  | OList (xs : list pyval)
  | ODict (d : gmap string pyval).

(** The heap is the list of the objects allocated so far; allocation
    appends. *)
Abbreviation heap := (list pyobj).

(** The fields of the one [StateManager] instance. *)
Record StateManager := {
  state : loc;
  state_history : list pyval;
  max_history_size : nat
}.

Record world := {
  objects : heap;
  self : StateManager;
  ticks : nat;   (* number of clock readings so far *)
  draws : nat    (* number of random draws so far *)
}.

Definition with_objects (h : heap) (w : world) : world :=
  {| objects := h; self := self w; ticks := ticks w; draws := draws w |}.

Definition with_self (m : StateManager) (w : world) : world :=
  {| objects := objects w; self := m; ticks := ticks w; draws := draws w |}.

Definition empty_world : world :=
  {| objects := [];
     self := {| state := 0; state_history := []; max_history_size := 0 |};
     ticks := 0; draws := 0 |}.

(** ** Exceptions and the computation monad *)

Inductive exn :=
  | KeyError (k : string)
  | AttributeError (attr : string)
  | TypeError (msg : string)
  | ValueError (msg : string)
  | RecursionError
  | SystemError (msg : string).

(** [str(e)]; of the text of an [AttributeError] only the part after the
    name of the type of the object. *)
Definition exn_str (e : exn) : string :=
  match e with
  | KeyError k => "'" +:+ k +:+ "'"
  | AttributeError a => "object has no attribute '" +:+ a +:+ "'"
  | TypeError m => m
  | ValueError m => m
  | RecursionError => "maximum recursion depth exceeded"
  | SystemError m => m
  end.

Inductive outcome (A : Type) :=
  | Ret (a : A)
  | Raise (e : exn).
Arguments Ret {A} a.
Arguments Raise {A} e.

Definition M (A : Type) : Type := world → outcome A * world.

Definition ret {A} (a : A) : M A := λ w, (Ret a, w).

Definition raise {A} (e : exn) : M A := λ w, (Raise e, w).

Definition bind {A B} (m : M A) (k : A → M B) : M B :=
  λ w, match m w with
       | (Ret a, w') => k a w'
       | (Raise e, w') => (Raise e, w')
       end.

Notation "'let!' x ':=' m 'in' k" := (bind m (λ x, k))
  (at level 10, x name, m at level 100, k at level 200).

(** [try: m except Exception as e: handler e] *)
Definition try_except {A} (m : M A) (handler : exn → M A) : M A :=
  λ w, match m w with
       | (Ret a, w') => (Ret a, w')
       | (Raise e, w') => handler e w'
       end.

(** ** Primitive operations on objects *)

Definition alloc (o : pyobj) : M pyval :=
  λ w, (Ret (VRef (length (objects w))), with_objects (objects w ++ [o]) w).

Definition new_list (xs : list pyval) : M pyval := alloc (OList xs).

Definition new_dict (d : gmap string pyval) : M pyval := alloc (ODict d).

Definition store (l : loc) (o : pyobj) : M () :=
  λ w, (Ret (), with_objects (<[l:=o]> (objects w)) w).

(** [v[k]] for a string key *)
Definition getitem (v : pyval) (k : string) : M pyval :=
  λ w, match v with
       | VRef l =>
           match objects w !! l with
           | Some (ODict d) =>
               match d !! k with
               | Some x => (Ret x, w)
               | None => (Raise (KeyError k), w)
               end
           | Some (OList _) => (Raise (TypeError "list indices must be integers or slices, not str"), w)
           | None => (Raise (SystemError "dangling reference"), w)
           end
       | VStr _ => (Raise (TypeError "string indices must be integers"), w)
       | _ => (Raise (TypeError "object is not subscriptable"), w)
       end.

(** [v[k] = x] *)
Definition setitem (v : pyval) (k : string) (x : pyval) : M () :=
  λ w, match v with
       | VRef l =>
           match objects w !! l with
           | Some (ODict d) => store l (ODict (<[k:=x]> d)) w
           | Some (OList _) => (Raise (TypeError "list indices must be integers or slices, not str"), w)
           | None => (Raise (SystemError "dangling reference"), w)
           end
       | _ => (Raise (TypeError "object does not support item assignment"), w)
       end.

(** [v.get(k, dflt)] *)
Definition dict_get (v : pyval) (k : string) (dflt : pyval) : M pyval :=
  λ w, match v with
       | VRef l =>
           match objects w !! l with
           | Some (ODict d) => (Ret (default dflt (d !! k)), w)
           | Some (OList _) => (Raise (AttributeError "get"), w)
           | None => (Raise (SystemError "dangling reference"), w)
           end
       | _ => (Raise (AttributeError "get"), w)
       end.

(** [v.update(u)] for a dict [u] given by its content: the entries of [u]
    override those of [v]. *)
Definition dict_update (v : pyval) (u : gmap string pyval) : M () :=
  λ w, match v with
       | VRef l =>
           match objects w !! l with
           | Some (ODict d) => store l (ODict (u ∪ d)) w
           | Some (OList _) => (Raise (AttributeError "update"), w)
           | None => (Raise (SystemError "dangling reference"), w)
           end
       | _ => (Raise (AttributeError "update"), w)
       end.

(** [v.copy()] on a dict: a new dict object with the same entries (the
    entries themselves are not copied). *)
Definition dict_copy (v : pyval) : M pyval :=
  λ w, match v with
       | VRef l =>
           match objects w !! l with
           | Some (ODict d) => new_dict d w
           | Some (OList xs) => new_list xs w
           | None => (Raise (SystemError "dangling reference"), w)
           end
       | _ => (Raise (AttributeError "copy"), w)
       end.

(** [v.append(x)] *)
Definition list_append (v : pyval) (x : pyval) : M () :=
  λ w, match v with
       | VRef l =>
           match objects w !! l with
           | Some (OList xs) => store l (OList (xs ++ [x])) w
           | Some (ODict _) => (Raise (AttributeError "append"), w)
           | None => (Raise (SystemError "dangling reference"), w)
           end
       | _ => (Raise (AttributeError "append"), w)
       end.

(** [len(v)] *)
Definition py_len (v : pyval) : M nat :=
  λ w, match v with
       | VRef l =>
           match objects w !! l with
           | Some (OList xs) => (Ret (length xs), w)
           | Some (ODict d) => (Ret (size d), w)
           | None => (Raise (SystemError "dangling reference"), w)
           end
       | VStr s => (Ret (String.length s), w)
       | _ => (Raise (TypeError "object has no len()"), w)
       end.

(** The elements a [for x in v] loop visits. *)
Definition py_iter (v : pyval) : M (list pyval) :=
  λ w, match v with
       | VRef l =>
           match objects w !! l with
           | Some (OList xs) => (Ret xs, w)
           | Some (ODict d) => (Ret (VStr <$> (map_to_list d).*1), w)
           | None => (Raise (SystemError "dangling reference"), w)
           end
       | VStr s => (Ret ((λ c, VStr (String c EmptyString)) <$> String.list_ascii_of_string s), w)
       | _ => (Raise (TypeError "object is not iterable"), w)
       end.

(** [bool(v)]: the truth value of [v]. *)
Definition py_truthy (v : pyval) : M bool :=
  λ w, match v with
       | VNone => (Ret false, w)
       | VBool b => (Ret b, w)
       | VInt z => (Ret (negb (z =? 0)%Z), w)
       | VFloat q => (Ret (negb (Qeq_bool q 0)), w)
       | VStr s => (Ret (negb (String.eqb s "")), w)
       | VEnum _ => (Ret true, w)
       | VRef l =>
           match objects w !! l with
           | Some (OList xs) => (Ret (negb (Nat.eqb (length xs) 0)), w)
           | Some (ODict d) => (Ret (negb (Nat.eqb (size d) 0)), w)
           | None => (Raise (SystemError "dangling reference"), w)
           end
       end.

(** [v == s] for a string [s]: only a string compares equal to a string. *)
Definition py_eq_str (v : pyval) (s : string) : bool :=
  match v with
  | VStr s' => String.eqb s' s
  | _ => false
  end.

(** [v.value] *)
Definition attr_value (v : pyval) : M pyval :=
  match v with
  | VEnum e => ret (VStr (enum_value e))
  | _ => raise (AttributeError "value")
  end.

(** Monadic map over a list, left to right (a list comprehension). *)
Fixpoint traverse {A B} (f : A → M B) (xs : list A) : M (list B) :=
  match xs with
  | [] => ret []
  | x :: xs' =>
      let! y := f x in
      let! ys := traverse f xs' in
      ret (y :: ys)
  end.

(** A list comprehension with a condition. *)
Fixpoint filterM {A} (f : A → M bool) (xs : list A) : M (list A) :=
  match xs with
  | [] => ret []
  | x :: xs' =>
      let! b := f x in
      let! ys := filterM f xs' in
      ret (if b then x :: ys else ys)
  end.

(** The n-th reading of an oracle, with the counter of clock readings
    (resp. random draws) advanced. *)
Definition read_clock {A} (clock : nat → A) : M A :=
  λ w, (Ret (clock (ticks w)),
        {| objects := objects w; self := self w; ticks := S (ticks w); draws := draws w |}).

Definition draw {A} (oracle : nat → A) : M A :=
  λ w, (Ret (oracle (draws w)),
        {| objects := objects w; self := self w; ticks := ticks w; draws := S (draws w) |}).

(** ** JSON documents

    The text produced by [json.dumps] and read by [json.loads] is
    represented by the document tree it denotes; objects keep their
    members as a list. *)

#[warnings="-register-all"]
Inductive json :=
  | JNull
  | JBool (b : bool)
  | JInt (z : Z)
  | JFloat (q : Q)
  | JStr (s : string)
  | JArr (js : list json)
  | JObj (kvs : list (string * json)).

(** [json.dumps(v, default=str)] on the object graph below [v].  [fuel]
    bounds the nesting depth (the interpreter's recursion limit); a cyclic
    or too deep graph gives [None]. *)
Fixpoint render (fuel : nat) (h : heap) (v : pyval) : option json :=
  match v with
  | VNone => Some JNull
  | VBool b => Some (JBool b)
  | VInt z => Some (JInt z)
  | VFloat q => Some (JFloat q)
  | VStr s => Some (JStr s)
  | VEnum e => Some (JStr (enum_str e))
  | VRef l =>
      match fuel with
      | O => None
      | S n =>
          match h !! l with
          | Some (OList xs) => JArr <$> mapM (render n h) xs
          | Some (ODict d) =>
              JObj <$> mapM (λ kv, pair kv.1 <$> render n h kv.2) (map_to_list d)
          | None => None
          end
      end
  end.

Definition json_dumps (fuel : nat) (v : pyval) : M json :=
  λ w, match render fuel (objects w) v with
       | Some j => (Ret j, w)
       | None => (Raise (ValueError "Circular reference detected"), w)
       end.

(** [json.loads]: every array and object of the document becomes a new
    list or dict; of two members with one key the later one stays. *)
Fixpoint load (j : json) (h : heap) : pyval * heap :=
  match j with
  | JNull => (VNone, h)
  | JBool b => (VBool b, h)
  | JInt z => (VInt z, h)
  | JFloat q => (VFloat q, h)
  | JStr s => (VStr s, h)
  | JArr js =>
      let '(vs, h') :=
        (fix load_items (js : list json) (h : heap) : list pyval * heap :=
           match js with
           | [] => ([], h)
           | j :: js' =>
               let '(v, h1) := load j h in
               let '(vs, h2) := load_items js' h1 in
               (v :: vs, h2)
           end) js h in
      (VRef (length h'), h' ++ [OList vs])
  | JObj kvs =>
      let '(d, h') :=
        (fix load_members (kvs : list (string * json)) (h : heap)
           : list (string * pyval) * heap :=
           match kvs with
           | [] => ([], h)
           | (k, j) :: kvs' =>
               let '(v, h1) := load j h in
               let '(d, h2) := load_members kvs' h1 in
               ((k, v) :: d, h2)
           end) kvs h in
      (VRef (length h'), h' ++ [ODict (list_to_map (reverse d))])
  end.

Definition json_loads (doc : json) : M pyval :=
  λ w, let '(v, h') := load doc (objects w) in (Ret v, with_objects h' w).

(** [v.update(u)] for a value [u]: a dict gives its entries; a list gives
    one entry per element, each a two-element list of a string key and a
    value; the empty string gives none. *)
Fixpoint pairs_of (h : heap) (xs : list pyval) : option (list (string * pyval)) :=
  match xs with
  | [] => Some []
  | VRef l :: xs' =>
      match h !! l with
      | Some (OList [VStr k; v]) => cons (k, v) <$> pairs_of h xs'
      | _ => None
      end
  | _ => None
  end.

Definition py_update (v : pyval) (u : pyval) : M () :=
  λ w, match u with
       | VRef l =>
           match objects w !! l with
           | Some (ODict d) => dict_update v d w
           | Some (OList xs) =>
               match pairs_of (objects w) xs with
               | Some kvs => dict_update v (list_to_map (reverse kvs)) w
               | None => (Raise (ValueError "dictionary update sequence element has wrong length"), w)
               end
           | None => (Raise (SystemError "dangling reference"), w)
           end
       | VStr "" => dict_update v ∅ w
       | VStr _ => (Raise (ValueError "dictionary update sequence element has wrong length"), w)
       | _ => (Raise (TypeError "object is not iterable"), w)
       end.

(** * state_manager.py *)

Module state_manager.

(** ** The dataclasses.  A field annotated [float] is a rational. *)

Record Satellite := {
  Satellite_id : string;
  Satellite_name : string;
  Satellite_type : string;
  Satellite_status : SatelliteStatus;
  Satellite_altitude : Q;
  Satellite_inclination : Q;
  Satellite_longitude : Q;
  Satellite_latitude : Q;
  Satellite_velocity : Q;
  Satellite_battery_level : Q;
  Satellite_signal_strength : Q;
  Satellite_temperature : Q;
  Satellite_power_consumption : Q;
  Satellite_data_throughput : Q;
  Satellite_last_contact : string;
  Satellite_health_score : Q;
  Satellite_maintenance_due : bool;
  Satellite_collision_risk : Q
}.

Record OrbitalData := {
  OrbitalData_satellite_id : string;
  OrbitalData_position : list Q;
  OrbitalData_velocity : list Q;
  OrbitalData_acceleration : list Q;
  OrbitalData_orbital_period : Q;
  OrbitalData_eccentricity : Q;
  OrbitalData_inclination : Q;
  OrbitalData_right_ascension : Q;
  OrbitalData_argument_of_perigee : Q;
  OrbitalData_mean_anomaly : Q;
  OrbitalData_timestamp : string
}.

Record CollisionThreat := {
  CollisionThreat_threat_id : string;
  CollisionThreat_satellite_1 : string;
  CollisionThreat_satellite_2 : string;
  CollisionThreat_distance : Q;
  CollisionThreat_time_to_collision : Q;
  CollisionThreat_risk_level : string;
  CollisionThreat_avoidance_maneuver : string;
  CollisionThreat_confidence : Q;
  CollisionThreat_timestamp : string
}.

Record GroundStation := {
  GroundStation_id : string;
  GroundStation_name : string;
  GroundStation_location : string;
  GroundStation_coordinates : list Q;
  GroundStation_status : string;
  GroundStation_satellites_connected : list string;
  GroundStation_data_rate : Q;
  GroundStation_antenna_diameter : Q;
  GroundStation_frequency_band : string;
  GroundStation_last_contact : string
}.

Record SpaceDebris := {
  SpaceDebris_id : string;
  SpaceDebris_name : string;
  SpaceDebris_size : string;
  SpaceDebris_mass : Q;
  SpaceDebris_velocity : Q;
  SpaceDebris_orbit_altitude : Q;
  SpaceDebris_threat_level : string;
  SpaceDebris_tracking_accuracy : Q;
  SpaceDebris_last_updated : string
}.

Record MaintenanceTask := {
  MaintenanceTask_task_id : string;
  MaintenanceTask_satellite_id : string;
  MaintenanceTask_task_type : string;
  MaintenanceTask_priority : string;
  MaintenanceTask_estimated_duration : Q;
  MaintenanceTask_required_resources : list string;
  MaintenanceTask_scheduled_time : string;
  MaintenanceTask_status : string;
  MaintenanceTask_confidence : Q
}.

Record Alert := {
  Alert_alert_id : string;
  Alert_type : string;
  Alert_level : AlertLevel;
  Alert_message : string;
  Alert_satellite_id : option string;
  Alert_timestamp : string;
  Alert_acknowledged : bool;
  Alert_resolved : bool
}.

Record Decision := {
  Decision_decision_id : string;
  Decision_agent : string;
  Decision_decision : string;
  Decision_reasoning : string;
  Decision_confidence : Q;
  Decision_timestamp : string;
  Decision_impact : string
}.

(** ** [dataclasses.asdict]: a new dict of the fields, in which every list
    field is a new list and an enum field is the member itself. *)

Definition Satellite_fields (s : Satellite) : gmap string pyval :=
  list_to_map [
    ("id", VStr (Satellite_id s));
    ("name", VStr (Satellite_name s));
    ("type", VStr (Satellite_type s));
    ("status", VEnum (Status (Satellite_status s)));
    ("altitude", VFloat (Satellite_altitude s));
    ("inclination", VFloat (Satellite_inclination s));
    ("longitude", VFloat (Satellite_longitude s));
    ("latitude", VFloat (Satellite_latitude s));
    ("velocity", VFloat (Satellite_velocity s));
    ("battery_level", VFloat (Satellite_battery_level s));
    ("signal_strength", VFloat (Satellite_signal_strength s));
    ("temperature", VFloat (Satellite_temperature s));
    ("power_consumption", VFloat (Satellite_power_consumption s));
    ("data_throughput", VFloat (Satellite_data_throughput s));
    ("last_contact", VStr (Satellite_last_contact s));
    ("health_score", VFloat (Satellite_health_score s));
    ("maintenance_due", VBool (Satellite_maintenance_due s));
    ("collision_risk", VFloat (Satellite_collision_risk s))].

Definition asdict_Satellite (s : Satellite) : M pyval :=
  new_dict (Satellite_fields s).

Definition asdict_OrbitalData (o : OrbitalData) : M pyval :=
  let! position := new_list (VFloat <$> OrbitalData_position o) in
  let! velocity := new_list (VFloat <$> OrbitalData_velocity o) in
  let! acceleration := new_list (VFloat <$> OrbitalData_acceleration o) in
  new_dict (list_to_map [
    ("satellite_id", VStr (OrbitalData_satellite_id o));
    ("position", position);
    ("velocity", velocity);
    ("acceleration", acceleration);
    ("orbital_period", VFloat (OrbitalData_orbital_period o));
    ("eccentricity", VFloat (OrbitalData_eccentricity o));
    ("inclination", VFloat (OrbitalData_inclination o));
    ("right_ascension", VFloat (OrbitalData_right_ascension o));
    ("argument_of_perigee", VFloat (OrbitalData_argument_of_perigee o));
    ("mean_anomaly", VFloat (OrbitalData_mean_anomaly o));
    ("timestamp", VStr (OrbitalData_timestamp o))]).

Definition CollisionThreat_fields (t : CollisionThreat) : gmap string pyval :=
  list_to_map [
    ("threat_id", VStr (CollisionThreat_threat_id t));
    ("satellite_1", VStr (CollisionThreat_satellite_1 t));
    ("satellite_2", VStr (CollisionThreat_satellite_2 t));
    ("distance", VFloat (CollisionThreat_distance t));
    ("time_to_collision", VFloat (CollisionThreat_time_to_collision t));
    ("risk_level", VStr (CollisionThreat_risk_level t));
    ("avoidance_maneuver", VStr (CollisionThreat_avoidance_maneuver t));
    ("confidence", VFloat (CollisionThreat_confidence t));
    ("timestamp", VStr (CollisionThreat_timestamp t))].

Definition asdict_CollisionThreat (t : CollisionThreat) : M pyval :=
  new_dict (CollisionThreat_fields t).

Definition asdict_GroundStation (g : GroundStation) : M pyval :=
  let! coordinates := new_list (VFloat <$> GroundStation_coordinates g) in
  let! satellites_connected := new_list (VStr <$> GroundStation_satellites_connected g) in
  new_dict (list_to_map [
    ("id", VStr (GroundStation_id g));
    ("name", VStr (GroundStation_name g));
    ("location", VStr (GroundStation_location g));
    ("coordinates", coordinates);
    ("status", VStr (GroundStation_status g));
    ("satellites_connected", satellites_connected);
    ("data_rate", VFloat (GroundStation_data_rate g));
    ("antenna_diameter", VFloat (GroundStation_antenna_diameter g));
    ("frequency_band", VStr (GroundStation_frequency_band g));
    ("last_contact", VStr (GroundStation_last_contact g))]).

Definition SpaceDebris_fields (d : SpaceDebris) : gmap string pyval :=
  list_to_map [
    ("id", VStr (SpaceDebris_id d));
    ("name", VStr (SpaceDebris_name d));
    ("size", VStr (SpaceDebris_size d));
    ("mass", VFloat (SpaceDebris_mass d));
    ("velocity", VFloat (SpaceDebris_velocity d));
    ("orbit_altitude", VFloat (SpaceDebris_orbit_altitude d));
    ("threat_level", VStr (SpaceDebris_threat_level d));
    ("tracking_accuracy", VFloat (SpaceDebris_tracking_accuracy d));
    ("last_updated", VStr (SpaceDebris_last_updated d))].

Definition asdict_SpaceDebris (d : SpaceDebris) : M pyval :=
  new_dict (SpaceDebris_fields d).

Definition asdict_MaintenanceTask (t : MaintenanceTask) : M pyval :=
  let! required_resources := new_list (VStr <$> MaintenanceTask_required_resources t) in
  new_dict (list_to_map [
    ("task_id", VStr (MaintenanceTask_task_id t));
    ("satellite_id", VStr (MaintenanceTask_satellite_id t));
    ("task_type", VStr (MaintenanceTask_task_type t));
    ("priority", VStr (MaintenanceTask_priority t));
    ("estimated_duration", VFloat (MaintenanceTask_estimated_duration t));
    ("required_resources", required_resources);
    ("scheduled_time", VStr (MaintenanceTask_scheduled_time t));
    ("status", VStr (MaintenanceTask_status t));
    ("confidence", VFloat (MaintenanceTask_confidence t))]).

Definition Alert_fields (a : Alert) : gmap string pyval :=
  list_to_map [
    ("alert_id", VStr (Alert_alert_id a));
    ("type", VStr (Alert_type a));
    ("level", VEnum (Level (Alert_level a)));
    ("message", VStr (Alert_message a));
    ("satellite_id", from_option VStr VNone (Alert_satellite_id a));
    ("timestamp", VStr (Alert_timestamp a));
    ("acknowledged", VBool (Alert_acknowledged a));
    ("resolved", VBool (Alert_resolved a))].

Definition asdict_Alert (a : Alert) : M pyval :=
  new_dict (Alert_fields a).

Definition Decision_fields (d : Decision) : gmap string pyval :=
  list_to_map [
    ("decision_id", VStr (Decision_decision_id d));
    ("agent", VStr (Decision_agent d));
    ("decision", VStr (Decision_decision d));
    ("reasoning", VStr (Decision_reasoning d));
    ("confidence", VFloat (Decision_confidence d));
    ("timestamp", VStr (Decision_timestamp d));
    ("impact", VStr (Decision_impact d))].

Definition asdict_Decision (d : Decision) : M pyval :=
  new_dict (Decision_fields d).

(** ** class StateManager *)

Section StateManager.

(** [clock n] is the text of the n-th [datetime.now().isoformat()],
    [uuid4 n] the text of the n-th random draw read as a UUID,
    [is_isoformat s] tells whether [datetime.fromisoformat(s)] accepts
    [s], and [elapsed s n] is the text of the time from [s] to the n-th
    clock reading. *)
Variable clock : nat → string.
Variable uuid4 : nat → string.
Variable is_isoformat : string → bool.
Variable elapsed : string → nat → string.

Definition now : M string := read_clock clock.

Definition self_state : M pyval := λ w, (Ret (VRef (state (self w))), w).

Definition self_state_history : M (list pyval) :=
  λ w, (Ret (state_history (self w)), w).

Definition set_self_state (v : pyval) : M () :=
  λ w, match v with
       | VRef l =>
           (Ret (), with_self {| state := l;
                                 state_history := state_history (self w);
                                 max_history_size := max_history_size (self w) |} w)
       | _ => (Raise (TypeError "state must be a dict"), w)
       end.

Definition set_self_state_history (hist : list pyval) : M () :=
  λ w, (Ret (), with_self {| state := state (self w);
                             state_history := hist;
                             max_history_size := max_history_size (self w) |} w).

Definition _initialize_state : M pyval :=
  let! mission_id := draw uuid4 in
  let! start_time := now in
  let! last_update := now in
  let! satellites := new_list [] in
  let! orbital_data := new_list [] in
  let! trajectory_predictions := new_list [] in
  let! collision_threats := new_list [] in
  let! avoidance_maneuvers := new_list [] in
  let! mission_plan := new_dict ∅ in
  let! objectives := new_list [] in
  let! timeline := new_dict ∅ in
  let! resources := new_dict ∅ in
  let! ground_stations := new_list [] in
  let! communication_links := new_list [] in
  let! maintenance_schedule := new_dict ∅ in
  let! maintenance_tasks := new_list [] in
  let! health_monitoring := new_dict ∅ in
  let! space_debris := new_list [] in
  let! debris_threats := new_list [] in
  let! alerts := new_list [] in
  let! decisions := new_list [] in
  let! performance_metrics := new_dict ∅ in
  let! system_health := new_dict ∅ in
  let! errors := new_list [] in
  let! recovery_actions := new_list [] in
  new_dict (list_to_map [
    ("mission_id", VStr mission_id);
    ("mission_name", VStr "Autonomous Space Mission");
    ("mission_phase", VEnum (Phase INITIALIZATION));
    ("start_time", VStr start_time);
    ("last_update", VStr last_update);
    ("satellites", satellites);
    ("satellite_count", VInt 0);
    ("orbital_data", orbital_data);
    ("trajectory_predictions", trajectory_predictions);
    ("collision_threats", collision_threats);
    ("avoidance_maneuvers", avoidance_maneuvers);
    ("mission_plan", mission_plan);
    ("objectives", objectives);
    ("timeline", timeline);
    ("resources", resources);
    ("ground_stations", ground_stations);
    ("communication_links", communication_links);
    ("maintenance_schedule", maintenance_schedule);
    ("maintenance_tasks", maintenance_tasks);
    ("health_monitoring", health_monitoring);
    ("space_debris", space_debris);
    ("debris_threats", debris_threats);
    ("alerts", alerts);
    ("decisions", decisions);
    ("performance_metrics", performance_metrics);
    ("system_health", system_health);
    ("errors", errors);
    ("recovery_actions", recovery_actions)]).

Definition __init__ : M () :=
  let! st := _initialize_state in
  λ w, match st with
       | VRef l =>
           (Ret (), with_self {| state := l; state_history := [];
                                 max_history_size := 100 |} w)
       | _ => (Raise (TypeError "state must be a dict"), w)
       end.

(** Every mutator ends with [self.state["last_update"] = now]. *)
Definition touch : M () :=
  let! st := self_state in
  let! t := now in
  setitem st "last_update" (VStr t).

Definition update_mission_phase (phase : MissionPhase) : M () :=
  let! st := self_state in
  let! _ := setitem st "mission_phase" (VEnum (Phase phase)) in
  touch.

Definition add_satellite (satellite : Satellite) : M () :=
  let! satellite_dict := asdict_Satellite satellite in
  let! _ := setitem satellite_dict "status"
              (VStr (enum_value (Status (Satellite_status satellite)))) in
  let! st := self_state in
  let! satellites := getitem st "satellites" in
  let! _ := list_append satellites satellite_dict in
  let! st := self_state in
  let! satellites := getitem st "satellites" in
  let! n := py_len satellites in
  let! _ := setitem st "satellite_count" (VInt (Z.of_nat n)) in
  touch.

(** The [for ... break] loop of [update_satellite]. *)
Fixpoint update_satellite_loop (sats : list pyval) (satellite_id : string)
    (updates : gmap string pyval) : M () :=
  match sats with
  | [] => ret ()
  | satellite :: rest =>
      let! sid := getitem satellite "id" in
      if py_eq_str sid satellite_id then
        let! _ := dict_update satellite updates in
        let! t := now in
        setitem satellite "last_contact" (VStr t)
      else update_satellite_loop rest satellite_id updates
  end.

Definition update_satellite (satellite_id : string) (updates : gmap string pyval) : M () :=
  let! st := self_state in
  let! satellites := getitem st "satellites" in
  let! sats := py_iter satellites in
  let! _ := update_satellite_loop sats satellite_id updates in
  touch.

(** The body shared by the [add_*] methods once the record is a dict:
    [self.state[key].append(d)] and the timestamp. *)
Definition append_to (key : string) (d : pyval) : M () :=
  let! st := self_state in
  let! coll := getitem st key in
  let! _ := list_append coll d in
  touch.

Definition add_orbital_data (orbital_data : OrbitalData) : M () :=
  let! orbital_dict := asdict_OrbitalData orbital_data in
  append_to "orbital_data" orbital_dict.

Definition add_collision_threat (threat : CollisionThreat) : M () :=
  let! threat_dict := asdict_CollisionThreat threat in
  append_to "collision_threats" threat_dict.

Definition add_ground_station (station : GroundStation) : M () :=
  let! station_dict := asdict_GroundStation station in
  append_to "ground_stations" station_dict.

Definition add_space_debris (debris : SpaceDebris) : M () :=
  let! debris_dict := asdict_SpaceDebris debris in
  append_to "space_debris" debris_dict.

Definition add_maintenance_task (task : MaintenanceTask) : M () :=
  let! task_dict := asdict_MaintenanceTask task in
  append_to "maintenance_tasks" task_dict.

Definition add_alert (alert : Alert) : M () :=
  let! alert_dict := asdict_Alert alert in
  let! _ := setitem alert_dict "level" (VStr (enum_value (Level (Alert_level alert)))) in
  append_to "alerts" alert_dict.

Definition add_decision (decision : Decision) : M () :=
  let! decision_dict := asdict_Decision decision in
  append_to "decisions" decision_dict.

(** A dict argument annotated [Dict[str, Any]] is passed by its
    content. *)
Definition update_performance_metrics (metrics : gmap string pyval) : M () :=
  let! st := self_state in
  let! pm := getitem st "performance_metrics" in
  let! _ := dict_update pm metrics in
  touch.

Definition update_system_health (health : gmap string pyval) : M () :=
  let! st := self_state in
  let! sh := getitem st "system_health" in
  let! _ := dict_update sh health in
  touch.

Definition save_state_snapshot : M () :=
  let! st := self_state in
  let! snapshot := dict_copy st in
  let! hist := self_state_history in
  let! _ := set_self_state_history (hist ++ [snapshot]) in
  λ w, if decide (max_history_size (self w) < length (state_history (self w)))
       then set_self_state_history (drop 1 (state_history (self w))) w
       else (Ret (), w).

Definition get_state_summary : M pyval :=
  let! st := self_state in
  let! mission_id := getitem st "mission_id" in
  let! phase := getitem st "mission_phase" in
  let! phase_value := attr_value phase in
  let! satellite_count := getitem st "satellite_count" in
  let! threats := getitem st "collision_threats" in
  let! n_threats := py_len threats in
  let! stations := getitem st "ground_stations" in
  let! n_stations := py_len stations in
  let! debris := getitem st "space_debris" in
  let! n_debris := py_len debris in
  let! tasks := getitem st "maintenance_tasks" in
  let! n_tasks := py_len tasks in
  let! alerts := getitem st "alerts" in
  let! n_alerts := py_len alerts in
  let! decisions := getitem st "decisions" in
  let! n_decisions := py_len decisions in
  let! last_update := getitem st "last_update" in
  let! system_health := getitem st "system_health" in
  let! performance_metrics := getitem st "performance_metrics" in
  new_dict (list_to_map [
    ("mission_id", mission_id);
    ("mission_phase", phase_value);
    ("satellite_count", satellite_count);
    ("collision_threats", VInt (Z.of_nat n_threats));
    ("ground_stations", VInt (Z.of_nat n_stations));
    ("space_debris", VInt (Z.of_nat n_debris));
    ("maintenance_tasks", VInt (Z.of_nat n_tasks));
    ("alerts", VInt (Z.of_nat n_alerts));
    ("decisions", VInt (Z.of_nat n_decisions));
    ("last_update", last_update);
    ("system_health", system_health);
    ("performance_metrics", performance_metrics)]).

Fixpoint get_satellite_by_id_loop (sats : list pyval) (satellite_id : string) : M pyval :=
  match sats with
  | [] => ret VNone
  | satellite :: rest =>
      let! sid := getitem satellite "id" in
      if py_eq_str sid satellite_id then ret satellite
      else get_satellite_by_id_loop rest satellite_id
  end.

Definition get_satellite_by_id (satellite_id : string) : M pyval :=
  let! st := self_state in
  let! satellites := getitem st "satellites" in
  let! sats := py_iter satellites in
  get_satellite_by_id_loop sats satellite_id.

(** [not alert.get("resolved", False)] *)
Definition unresolved (alert : pyval) : M bool :=
  let! r := dict_get alert "resolved" (VBool false) in
  let! t := py_truthy r in
  ret (negb t).

Definition get_active_alerts : M pyval :=
  let! st := self_state in
  let! alerts := getitem st "alerts" in
  let! xs := py_iter alerts in
  let! ys := filterM unresolved xs in
  new_list ys.

Definition get_high_priority_tasks : M pyval :=
  let! st := self_state in
  let! tasks := getitem st "maintenance_tasks" in
  let! xs := py_iter tasks in
  let! ys := filterM (λ task,
               let! priority := dict_get task "priority" VNone in
               if py_eq_str priority "HIGH" then
                 let! status := dict_get task "status" VNone in
                 ret (negb (py_eq_str status "completed"))
               else ret false) xs in
  new_list ys.

Definition get_collision_risks : M pyval :=
  let! st := self_state in
  let! threats := getitem st "collision_threats" in
  let! xs := py_iter threats in
  let! ys := filterM (λ threat,
               let! risk := dict_get threat "risk_level" VNone in
               ret (py_eq_str risk "HIGH" || py_eq_str risk "CRITICAL")) xs in
  new_list ys.

Definition export_state (fuel : nat) : M json :=
  let! st := self_state in
  let! export_data := dict_copy st in
  let! phase := getitem st "mission_phase" in
  let! phase_value := attr_value phase in
  let! _ := setitem export_data "mission_phase" phase_value in
  json_dumps fuel export_data.

Definition import_state (state_data : json) : M () :=
  let! imported_state := json_loads state_data in
  let! st := self_state in
  let! _ := py_update st imported_state in
  touch.

Definition reset_state : M () :=
  let! st := _initialize_state in
  let! _ := set_self_state st in
  set_self_state_history [].

Definition get_state_history : M (list pyval) :=
  let! hist := self_state_history in
  traverse dict_copy hist.

Definition _calculate_mission_duration : M string :=
  let! st := self_state in
  let! start_time := getitem st "start_time" in
  match start_time with
  | VStr s =>
      if is_isoformat s then read_clock (elapsed s)
      else raise (ValueError "Invalid isoformat string")
  | _ => raise (TypeError "fromisoformat: argument must be str")
  end.

Definition get_mission_timeline : M pyval :=
  let! st := self_state in
  let! start_time := getitem st "start_time" in
  let! phase := getitem st "mission_phase" in
  let! current_phase := attr_value phase in
  let! last_update := getitem st "last_update" in
  let! duration := _calculate_mission_duration in
  let! phase := getitem st "mission_phase" in
  new_dict (list_to_map [
    ("start_time", start_time);
    ("current_phase", current_phase);
    ("last_update", last_update);
    ("duration", VStr duration);
    ("phases_completed", VInt (match phase with VEnum (Phase _) => 9 | _ => 10 end));
    ("total_phases", VInt 10)]).

End StateManager.

End state_manager.

(** * agent_graph.py *)

Module agent_graph.

(** The content of a dict argument. *)
Definition dict_content (v : pyval) : M (gmap string pyval) :=
  λ w, match v with
       | VRef l =>
           match objects w !! l with
           | Some (ODict d) => (Ret d, w)
           | Some (OList _) => (Raise (TypeError "expected a dict"), w)
           | None => (Raise (SystemError "dangling reference"), w)
           end
       | _ => (Raise (TypeError "expected a dict"), w)
       end.

(** [v[n:]] on a list (the slice is only iterated, it is not kept as an
    object). *)
Definition slice_from (v : pyval) (n : nat) : M (list pyval) :=
  λ w, match v with
       | VRef l =>
           match objects w !! l with
           | Some (OList xs) => (Ret (drop n xs), w)
           | Some (ODict _) => (Raise (TypeError "unhashable type: 'slice'"), w)
           | None => (Raise (SystemError "dangling reference"), w)
           end
       | VStr s =>
           (Ret ((λ c, VStr (String c EmptyString)) <$> drop n (String.list_ascii_of_string s)), w)
       | _ => (Raise (TypeError "object is not subscriptable"), w)
       end.

(** [for i, x in enumerate(xs, i0): body i x] *)
Fixpoint for_enumerate {A} (body : nat → A → M ()) (i0 : nat) (xs : list A) : M () :=
  match xs with
  | [] => ret ()
  | x :: xs' => let! _ := body i0 x in for_enumerate body (S i0) xs'
  end.

Definition Qi (i : nat) : Q := inject_Z (Z.of_nat i).

(** [a < b] on floats. *)
Definition Qlt_bool (a b : Q) : bool := negb (Qle_bool b a).

Section SpaceMissionAgent.

(** [clock n]: the n-th [datetime.now().isoformat()]; [later n k]: the
    n-th clock reading moved [k] hours ahead, as text; [uniform n a b]
    and [randint n a b]: the n-th random draw read as
    [np.random.uniform(a, b)] resp. [np.random.randint(a, b)]. *)
Variable clock : nat → string.
Variable later : nat → Z → string.
Variable uniform : nat → Q → Q → Q.
Variable randint : nat → Z → Z → Z.

Definition now : M string := read_clock clock.

Definition np_random_uniform (a b : Q) : M Q := draw (λ n, uniform n a b).

Definition np_random_randint (a b : Z) : M Z := draw (λ n, randint n a b).

(** [state["decisions"].append({agent, timestamp, decision, confidence})] *)
Definition add_decision (state : pyval) (agent decision : string) (confidence : Q) : M () :=
  let! decisions := getitem state "decisions" in
  let! t := now in
  let! d := new_dict (list_to_map [
    ("agent", VStr agent);
    ("timestamp", VStr t);
    ("decision", VStr decision);
    ("confidence", VFloat confidence)]) in
  list_append decisions d.

Definition orbital_mechanics_agent (state : pyval) : M pyval :=
  let! t := now in
  let! l_satellites := new_list [] in
  let! l_trajectories := new_list [] in
  let! l_orbital_periods := new_list [] in
  let! l_velocity_vectors := new_list [] in
  let! orbital_data := new_dict (list_to_map [
    ("timestamp", VStr t);
    ("satellites", l_satellites);
    ("trajectories", l_trajectories);
    ("orbital_periods", l_orbital_periods);
    ("velocity_vectors", l_velocity_vectors)]) in
  let! dflt := new_list [] in
  let! satellites := dict_get state "satellites" dflt in
  let! sats := py_iter satellites in
  let! _ := for_enumerate (λ i satellite,
    let altitude := (400 + Z.of_nat i * 50)%Z in
    let velocity := (7.5 + Qi i * 0.1)%Q in
    let period := (90 + Z.of_nat i * 5)%Z in
    let! out := getitem orbital_data "satellites" in
    let! sid := dict_get satellite "id" (VStr ("SAT-" +:+ pretty (i + 1))) in
    let! rec := new_dict (list_to_map [
      ("id", sid);
      ("altitude", VInt altitude);
      ("velocity", VFloat velocity);
      ("period", VInt period);
      ("inclination", VFloat (51.6 + Qi i * 2)%Q);
      ("longitude", VInt (-180 + Z.of_nat i * 20)%Z);
      ("latitude", VInt (0 + Z.of_nat i * 5)%Z)]) in
    let! _ := list_append out rec in
    let! out := getitem orbital_data "trajectories" in
    let! sid := dict_get satellite "id" (VStr ("SAT-" +:+ pretty (i + 1))) in
    let! position := new_list [VInt altitude; VInt 0; VInt 0] in
    let! vel := new_list [VFloat velocity; VInt 0; VInt 0] in
    let! acceleration := new_list [VInt 0; VInt 0; VInt 0] in
    let! traj := new_dict (list_to_map [
      ("satellite_id", sid);
      ("position", position);
      ("velocity", vel);
      ("acceleration", acceleration)]) in
    list_append out traj) 0 sats in
  let! _ := setitem state "orbital_data" orbital_data in
  let! _ := setitem state "current_phase" (VStr "orbital_calculation") in
  let! _ := add_decision state "orbital_mechanics"
              "Calculated optimal orbital trajectories for all satellites" 0.95%Q in
  ret state.

Definition satellite_management_agent (state : pyval) : M pyval :=
  let! dflt := new_list [] in
  let! satellites := dict_get state "satellites" dflt in
  let! dflt' := new_dict ∅ in
  let! orbital_data := dict_get state "orbital_data" dflt' in
  let! n := py_len satellites in
  let! constellation_plan := new_dict (list_to_map [
    ("total_satellites", VInt (Z.of_nat n));
    ("coverage_area", VStr "Global");
    ("coverage_percentage", VFloat 99.8%Q);
    ("redundancy_level", VStr "High");
    ("communication_latency", VStr "< 50ms");
    ("data_throughput", VStr "10 Gbps")]) in
  let! sats := py_iter satellites in
  let! _ := for_enumerate (λ _ satellite,
    let! _ := setitem satellite "status" (VStr "Operational") in
    let! r := np_random_randint (-10) 10 in
    let! _ := setitem satellite "battery_level" (VInt (85 + r)) in
    let! r := np_random_randint (-5) 5 in
    let! _ := setitem satellite "signal_strength" (VInt (95 + r)) in
    let! t := now in
    setitem satellite "last_contact" (VStr t)) 0 sats in
  let! _ := setitem state "satellites" satellites in
  let! _ := setitem state "mission_plan" constellation_plan in
  let! _ := add_decision state "satellite_manager"
              "Optimized constellation for maximum global coverage" 0.92%Q in
  ret state.

Definition collision_avoidance_agent (state : pyval) : M pyval :=
  let! collision_threats := new_list [] in
  let! dflt := new_list [] in
  let! satellites := dict_get state "satellites" dflt in
  let! sats := py_iter satellites in
  let! _ := for_enumerate (λ i sat1,
    let! rest := slice_from satellites (i + 1) in
    for_enumerate (λ j sat2,
      let! distance := np_random_uniform 100 1000 in
      if Qlt_bool distance 200 then
        let! id1 := getitem sat1 "id" in
        let! id2 := getitem sat2 "id" in
        let! pair_ids := new_list [id1; id2] in
        let! ttc := np_random_uniform 1 24 in
        let! threat := new_dict (list_to_map [
          ("threat_id", VStr ("COLL-" +:+ pretty i +:+ "-" +:+ pretty j));
          ("satellites", pair_ids);
          ("distance", VFloat distance);
          ("risk_level", VStr (if Qlt_bool distance 100 then "HIGH" else "MEDIUM"));
          ("time_to_collision", VFloat ttc);
          ("avoidance_maneuver", VStr "Required")]) in
        list_append collision_threats threat
      else ret ()) (i + 1) rest) 0 sats in
  let! _ := setitem state "collision_threats" collision_threats in
  let! n := py_len collision_threats in
  let! _ :=
    if negb (Nat.eqb n 0) then
      let! alerts := getitem state "alerts" in
      let! t := now in
      let! alert := new_dict (list_to_map [
        ("type", VStr "COLLISION_RISK");
        ("severity", VStr "HIGH");
        ("message", VStr ("Detected " +:+ pretty n +:+ " collision threats"));
        ("timestamp", VStr t)]) in
      list_append alerts alert
    else ret () in
  let! _ := add_decision state "collision_avoidance"
              ("Analyzed collision risks: " +:+ pretty n +:+ " threats detected") 0.98%Q in
  ret state.

Definition mission_planning_agent (state : pyval) : M pyval :=
  let! mission_id := dict_get state "mission_id" (VStr "SPACE-MISSION-001") in
  let! objectives := new_list [
    VStr "Maintain global satellite coverage";
    VStr "Prevent collision incidents";
    VStr "Optimize data transmission";
    VStr "Schedule maintenance operations"] in
  let! t := now in
  let! phases := new_list [VStr "Initialization"; VStr "Operation";
                           VStr "Maintenance"; VStr "Optimization"] in
  let! timeline := new_dict (list_to_map [
    ("start", VStr t);
    ("duration", VStr "24 hours");
    ("phases", phases)]) in
  let! dflt := new_list [] in
  let! satellites := dict_get state "satellites" dflt in
  let! n := py_len satellites in
  let! resources := new_dict (list_to_map [
    ("satellites", VInt (Z.of_nat n));
    ("ground_stations", VInt 5);
    ("bandwidth", VStr "100 Gbps");
    ("power", VStr "Solar + Battery")]) in
  let! success_metrics := new_dict (list_to_map [
    ("uptime", VStr "99.9%");
    ("coverage", VStr "99.8%");
    ("latency", VStr "< 50ms");
    ("collision_risk", VStr "< 0.1%")]) in
  let! mission_plan := new_dict (list_to_map [
    ("mission_id", mission_id);
    ("objectives", objectives);
    ("timeline", timeline);
    ("resources", resources);
    ("success_metrics", success_metrics)]) in
  let! _ := setitem state "mission_plan" mission_plan in
  let! _ := add_decision state "mission_planner"
              "Created optimized mission plan with 99.9% success probability" 0.94%Q in
  ret state.

(** One entry of the simulated ground station network. *)
Definition ground_station (id location : string) (lat lon : Q) (connected : Z) : M pyval :=
  let! coordinates := new_list [VFloat lat; VFloat lon] in
  new_dict (list_to_map [
    ("id", VStr id);
    ("location", VStr location);
    ("coordinates", coordinates);
    ("status", VStr "Active");
    ("satellites_connected", VInt connected);
    ("data_rate", VStr "1 Gbps")]).

Definition ground_station_agent (state : pyval) : M pyval :=
  let! gs1 := ground_station "GS-001" "Houston, Texas" 29.7604%Q (-95.3698)%Q 3 in
  let! gs2 := ground_station "GS-002" "Canberra, Australia" (-35.2809)%Q 149.1300%Q 2 in
  let! gs3 := ground_station "GS-003" "Madrid, Spain" 40.4168%Q (-3.7038)%Q 2 in
  let! ground_stations := new_list [gs1; gs2; gs3] in
  let! _ := setitem state "ground_stations" ground_stations in
  let! _ := add_decision state "ground_coordinator"
              "Coordinated global ground station network for optimal coverage" 0.96%Q in
  ret state.

Definition predictive_maintenance_agent (state : pyval) : M pyval :=
  let! t := now in
  let! dflt := new_list [] in
  let! satellites := dict_get state "satellites" dflt in
  let! n := py_len satellites in
  let! required := new_list [] in
  let! predictions := new_list [] in
  let! maintenance_schedule := new_dict (list_to_map [
    ("timestamp", VStr t);
    ("satellites_analyzed", VInt (Z.of_nat n));
    ("maintenance_required", required);
    ("predictions", predictions)]) in
  let! dflt := new_list [] in
  let! satellites := dict_get state "satellites" dflt in
  let! sats := py_iter satellites in
  let! _ := for_enumerate (λ _ satellite,
    let! battery_health := np_random_uniform 70 100 in
    let! thermal_health := np_random_uniform 80 100 in
    let! communication_health := np_random_uniform 85 100 in
    if Qlt_bool battery_health 80 || Qlt_bool thermal_health 85 then
      let! out := getitem maintenance_schedule "maintenance_required" in
      let! sid := getitem satellite "id" in
      let! hours := np_random_randint 1 48 in
      let! scheduled := read_clock (λ n, later n hours) in
      let! entry := new_dict (list_to_map [
        ("satellite_id", sid);
        ("issue", VStr (if Qlt_bool battery_health 80
                        then "Battery degradation" else "Thermal stress"));
        ("priority", VStr (if Qlt_bool battery_health 75 then "HIGH" else "MEDIUM"));
        ("scheduled_time", VStr scheduled)]) in
      list_append out entry
    else ret ()) 0 sats in
  let! _ := setitem state "maintenance_schedule" maintenance_schedule in
  let! dflt := new_list [] in
  let! satellites := dict_get state "satellites" dflt in
  let! n := py_len satellites in
  let! required := getitem maintenance_schedule "maintenance_required" in
  let! m := py_len required in
  let! _ := add_decision state "maintenance_agent"
              ("Analyzed " +:+ pretty n +:+ " satellites, " +:+ pretty m
               +:+ " require maintenance") 0.91%Q in
  ret state.

Definition space_debris_agent (state : pyval) : M pyval :=
  let! deb1 := new_dict (list_to_map [
    ("id", VStr "DEB-001");
    ("size", VStr "10 cm");
    ("velocity", VStr "7.5 km/s");
    ("orbit", VStr "LEO");
    ("threat_level", VStr "LOW");
    ("tracking_accuracy", VStr "95%")]) in
  let! deb2 := new_dict (list_to_map [
    ("id", VStr "DEB-002");
    ("size", VStr "5 cm");
    ("velocity", VStr "7.8 km/s");
    ("orbit", VStr "LEO");
    ("threat_level", VStr "MEDIUM");
    ("tracking_accuracy", VStr "98%")]) in
  let! space_debris := new_list [deb1; deb2] in
  let! _ := setitem state "space_debris" space_debris in
  let! high_risk := filterM (λ d,
                      let! level := getitem d "threat_level" in
                      ret (py_eq_str level "HIGH" || py_eq_str level "MEDIUM"))
                    [deb1; deb2] in
  let! _ :=
    match high_risk with
    | [] => ret ()
    | _ =>
        let! alerts := getitem state "alerts" in
        let! t := now in
        let! alert := new_dict (list_to_map [
          ("type", VStr "SPACE_DEBRIS");
          ("severity", VStr "MEDIUM");
          ("message", VStr ("Monitoring " +:+ pretty (length high_risk)
                            +:+ " debris objects with collision risk"));
          ("timestamp", VStr t)]) in
        list_append alerts alert
    end in
  let! _ := add_decision state "space_debris_monitor"
              ("Monitoring " +:+ pretty 2 +:+ " debris objects, "
               +:+ pretty (length high_risk) +:+ " pose collision risk") 0.93%Q in
  ret state.

(** ** The workflow graph

    [StateGraph] comes from the langgraph library.  A compiled graph
    is modelled by what the calls of [_build_agent_graph] put into it:
    named nodes, an entry point, and edges.  [ainvoke] runs the node at
    the entry point on the state, follows the edge leaving the node it
    has just run, and stops at [END]; an exception raised by a node
    leaves [ainvoke]. *)

Record StateGraph := {
  nodes : list (string * (pyval → M pyval));
  entry_point : string;
  edges : list (string * string)
}.

Definition END : string := "__end__".

Definition empty_graph : StateGraph :=
  {| nodes := []; entry_point := END; edges := [] |}.

Definition add_node (name : string) (f : pyval → M pyval) (g : StateGraph) : StateGraph :=
  {| nodes := nodes g ++ [(name, f)]; entry_point := entry_point g; edges := edges g |}.

Definition set_entry_point (name : string) (g : StateGraph) : StateGraph :=
  {| nodes := nodes g; entry_point := name; edges := edges g |}.

Definition add_edge (src dst : string) (g : StateGraph) : StateGraph :=
  {| nodes := nodes g; entry_point := entry_point g; edges := edges g ++ [(src, dst)] |}.

(** The first entry of an association list under a key. *)
Fixpoint assoc {A} (k : string) (l : list (string * A)) : option A :=
  match l with
  | [] => None
  | (k', a) :: l' => if String.eqb k' k then Some a else assoc k l'
  end.

Definition _build_agent_graph : StateGraph :=
  add_edge "space_debris_monitor" END
  (add_edge "maintenance_agent" "space_debris_monitor"
  (add_edge "ground_coordinator" "maintenance_agent"
  (add_edge "mission_planner" "ground_coordinator"
  (add_edge "collision_avoidance" "mission_planner"
  (add_edge "satellite_manager" "collision_avoidance"
  (add_edge "orbital_mechanics" "satellite_manager"
  (set_entry_point "orbital_mechanics"
  (add_node "space_debris_monitor" space_debris_agent
  (add_node "maintenance_agent" predictive_maintenance_agent
  (add_node "ground_coordinator" ground_station_agent
  (add_node "mission_planner" mission_planning_agent
  (add_node "collision_avoidance" collision_avoidance_agent
  (add_node "satellite_manager" satellite_management_agent
  (add_node "orbital_mechanics" orbital_mechanics_agent
   empty_graph)))))))))))))).

(** [limit] is langgraph's bound on the number of steps of one run. *)
Fixpoint invoke_from (limit : nat) (g : StateGraph) (node : string) (state : pyval)
    : M pyval :=
  if String.eqb node END then ret state
  else
    match limit with
    | O => raise RecursionError
    | S limit' =>
        match assoc node (nodes g) with
        | None => raise (ValueError "unknown node")
        | Some f =>
            let! state' := f state in
            match assoc node (edges g) with
            | Some next => invoke_from limit' g next state'
            | None => ret state'
            end
        end
    end.

Definition recursion_limit : nat := 25.

Definition ainvoke (g : StateGraph) (state : pyval) : M pyval :=
  invoke_from recursion_limit g (entry_point g) state.

(** The [SpaceMissionState(...)] that [run_mission] builds from its
    argument. *)
Definition new_state (initial_state : pyval) : M pyval :=
  let! mission_id := dict_get initial_state "mission_id" (VStr "SPACE-MISSION-001") in
  let! dflt := new_list [] in
  let! satellites := dict_get initial_state "satellites" dflt in
  let! orbital_data := new_dict ∅ in
  let! collision_threats := new_list [] in
  let! mission_plan := new_dict ∅ in
  let! ground_stations := new_list [] in
  let! space_debris := new_list [] in
  let! maintenance_schedule := new_dict ∅ in
  let! decisions := new_list [] in
  let! alerts := new_list [] in
  new_dict (list_to_map [
    ("mission_id", mission_id);
    ("satellites", satellites);
    ("orbital_data", orbital_data);
    ("collision_threats", collision_threats);
    ("mission_plan", mission_plan);
    ("ground_stations", ground_stations);
    ("space_debris", space_debris);
    ("maintenance_schedule", maintenance_schedule);
    ("current_phase", VStr "initialization");
    ("decisions", decisions);
    ("alerts", alerts)]).

Definition run_mission (initial_state : pyval) : M pyval :=
  let! state := new_state initial_state in
  ainvoke _build_agent_graph state.

End SpaceMissionAgent.

End agent_graph.

(** * main_agent.py *)

Module main_agent.

Import state_manager.

Section AutonomousSpaceMissionAgent.

Variable clock : nat → string.
Variable uuid4 : nat → string.
Variable is_isoformat : string → bool.
Variable elapsed : string → nat → string.
Variable later : nat → Z → string.
Variable uniform : nat → Q → Q → Q.
Variable randint : nat → Z → Z → Z.

Definition now : M string := read_clock clock.

(** The agent owns the one [StateManager] of the world; of its other
    fields only [mission_config] is a mutable object, and [__init__]
    returns the reference to it.  [openai_api_key] is the key after the
    lookup in the environment. *)
Definition __init__ (openai_api_key : string) : M pyval :=
  if String.eqb openai_api_key "" then raise (ValueError "OpenAI API key is required")
  else
    let! _ := state_manager.__init__ clock uuid4 in
    let! objectives := new_list [
      VStr "Maintain 99.9% satellite uptime";
      VStr "Ensure 99.8% global coverage";
      VStr "Keep communication latency < 50ms";
      VStr "Prevent all collision incidents";
      VStr "Optimize resource utilization"] in
    let! success_criteria := new_dict (list_to_map [
      ("uptime", VFloat 99.9%Q);
      ("coverage", VFloat 99.8%Q);
      ("latency", VInt 50);
      ("collision_risk", VFloat 0.1%Q)]) in
    new_dict (list_to_map [
      ("name", VStr "Space Mission");
      ("objectives", objectives);
      ("success_criteria", success_criteria)]).

Definition satellite_configs : list (string * string * string * Q) := [
  ("SAT-001", "Communication Alpha", "Communication", 400%Q);
  ("SAT-002", "Navigation Beta", "Navigation", 450%Q);
  ("SAT-003", "Earth Observation Gamma", "Earth Observation", 500%Q);
  ("SAT-004", "Weather Delta", "Weather", 550%Q);
  ("SAT-005", "Scientific Epsilon", "Scientific", 600%Q)].

(** The loop of [_create_initial_constellation]; [k] is
    [len(satellites)] on entry. *)
Fixpoint create_satellites (k : nat) (configs : list (string * string * string * Q))
    : M (list Satellite) :=
  match configs with
  | [] => ret []
  | (id, name, type, altitude) :: rest =>
      let! t := now in
      let satellite := {|
        Satellite_id := id;
        Satellite_name := name;
        Satellite_type := type;
        Satellite_status := ACTIVE;
        Satellite_altitude := altitude;
        Satellite_inclination := 51.6%Q;
        Satellite_longitude := (-180 + agent_graph.Qi k * 72)%Q;
        Satellite_latitude := 0%Q;
        Satellite_velocity := 7.5%Q;
        Satellite_battery_level := (90 + agent_graph.Qi k * 2)%Q;
        Satellite_signal_strength := (95 + agent_graph.Qi k)%Q;
        Satellite_temperature := 20%Q;
        Satellite_power_consumption := 1000%Q;
        Satellite_data_throughput := 100%Q;
        Satellite_last_contact := t;
        Satellite_health_score := 95%Q;
        Satellite_maintenance_due := false;
        Satellite_collision_risk := 0.01%Q |} in
      let! satellites := create_satellites (S k) rest in
      ret (satellite :: satellites)
  end.

Definition _create_initial_constellation : M (list Satellite) :=
  create_satellites 0 satellite_configs.

Definition _setup_ground_stations : M (list GroundStation) :=
  let! t1 := now in
  let! t2 := now in
  let! t3 := now in
  ret [
    {| GroundStation_id := "GS-001";
       GroundStation_name := "Houston Mission Control";
       GroundStation_location := "Houston, Texas";
       GroundStation_coordinates := [29.7604%Q; (-95.3698)%Q];
       GroundStation_status := "Active";
       GroundStation_satellites_connected := ["SAT-001"; "SAT-002"];
       GroundStation_data_rate := 1.0%Q;
       GroundStation_antenna_diameter := 34.0%Q;
       GroundStation_frequency_band := "S-Band";
       GroundStation_last_contact := t1 |};
    {| GroundStation_id := "GS-002";
       GroundStation_name := "Canberra Deep Space";
       GroundStation_location := "Canberra, Australia";
       GroundStation_coordinates := [(-35.2809)%Q; 149.1300%Q];
       GroundStation_status := "Active";
       GroundStation_satellites_connected := ["SAT-003"; "SAT-004"];
       GroundStation_data_rate := 1.0%Q;
       GroundStation_antenna_diameter := 34.0%Q;
       GroundStation_frequency_band := "S-Band";
       GroundStation_last_contact := t2 |};
    {| GroundStation_id := "GS-003";
       GroundStation_name := "Madrid Deep Space";
       GroundStation_location := "Madrid, Spain";
       GroundStation_coordinates := [40.4168%Q; (-3.7038)%Q];
       GroundStation_status := "Active";
       GroundStation_satellites_connected := ["SAT-005"];
       GroundStation_data_rate := 1.0%Q;
       GroundStation_antenna_diameter := 34.0%Q;
       GroundStation_frequency_band := "S-Band";
       GroundStation_last_contact := t3 |}].

Definition init_alert_message : string :=
  "◉ Quantum State Stabilized • UiPath Neural Network Active • 7 Specialized AI Agents Deployed • Mission Ready for Autonomous Operations".

Definition initialize_mission (mission_config : pyval) (mission_name : option string)
    : M pyval :=
  let! _ :=
    match mission_name with
    | Some name =>
        if String.eqb name "" then ret ()
        else setitem mission_config "name" (VStr name)
    | None => ret ()
    end in
  let! _ := update_mission_phase clock INITIALIZATION in
  let! satellites := _create_initial_constellation in
  let! _ := traverse (add_satellite clock) satellites in
  let! ground_stations := _setup_ground_stations in
  let! _ := traverse (add_ground_station clock) ground_stations in
  let! st := self_state in
  let! objectives := getitem mission_config "objectives" in
  let! _ := setitem st "objectives" objectives in
  let! name := getitem mission_config "name" in
  let! objectives := getitem mission_config "objectives" in
  let! success_criteria := getitem mission_config "success_criteria" in
  let! t := now in
  let! plan := new_dict (list_to_map [
    ("name", name);
    ("objectives", objectives);
    ("success_criteria", success_criteria);
    ("start_time", VStr t);
    ("status", VStr "ACTIVE")]) in
  let! st := self_state in
  let! _ := setitem st "mission_plan" plan in
  let! t := now in
  let! _ := add_alert clock {|
    Alert_alert_id := "INIT-001";
    Alert_type := "MISSION_INITIALIZATION";
    Alert_level := INFO;
    Alert_message := init_alert_message;
    Alert_satellite_id := None;
    Alert_timestamp := t;
    Alert_acknowledged := false;
    Alert_resolved := false |} in
  get_state_summary.

Definition _generate_mission_report (mission_config : pyval) : M pyval :=
  let! timeline := get_mission_timeline is_isoformat elapsed in
  let! duration := getitem timeline "duration" in
  let! st := self_state in
  let! satellite_count := getitem st "satellite_count" in
  let! x := getitem st "collision_threats" in
  let! n_threats := py_len x in
  let! x := getitem st "maintenance_tasks" in
  let! n_tasks := py_len x in
  let! x := getitem st "alerts" in
  let! n_alerts := py_len x in
  let! x := getitem st "decisions" in
  let! n_decisions := py_len x in
  let! x := getitem st "ground_stations" in
  let! n_stations := py_len x in
  let! x := getitem st "space_debris" in
  let! n_debris := py_len x in
  let! performance_metrics := new_dict (list_to_map [
    ("mission_duration", duration);
    ("satellites_managed", satellite_count);
    ("collision_threats_detected", VInt (Z.of_nat n_threats));
    ("maintenance_tasks_scheduled", VInt (Z.of_nat n_tasks));
    ("alerts_generated", VInt (Z.of_nat n_alerts));
    ("decisions_made", VInt (Z.of_nat n_decisions));
    ("ground_stations_active", VInt (Z.of_nat n_stations));
    ("space_debris_monitored", VInt (Z.of_nat n_debris))]) in
  let! success_metrics := new_dict (list_to_map [
    ("uptime", VStr "99.9%");
    ("coverage", VStr "99.8%");
    ("latency", VStr "< 50ms");
    ("collision_risk", VStr "< 0.1%");
    ("mission_success", VStr "100%")]) in
  let! mission_id := getitem st "mission_id" in
  let! mission_name := getitem mission_config "name" in
  let! t := now in
  let! satellites := getitem st "satellites" in
  let! collision_threats := getitem st "collision_threats" in
  let! maintenance_tasks := getitem st "maintenance_tasks" in
  let! alerts := getitem st "alerts" in
  let! decisions := getitem st "decisions" in
  let! ground_stations := getitem st "ground_stations" in
  let! space_debris := getitem st "space_debris" in
  let! mission_plan := getitem st "mission_plan" in
  let! system_health := getitem st "system_health" in
  let! recommendations := new_list [
    VStr "Continue monitoring collision threats";
    VStr "Schedule maintenance for degraded satellites";
    VStr "Optimize constellation coverage";
    VStr "Update orbital parameters";
    VStr "Maintain ground station communications"] in
  new_dict (list_to_map [
    ("mission_id", mission_id);
    ("mission_name", mission_name);
    ("status", VStr "COMPLETED");
    ("timestamp", VStr t);
    ("performance_metrics", performance_metrics);
    ("success_metrics", success_metrics);
    ("satellites", satellites);
    ("collision_threats", collision_threats);
    ("maintenance_tasks", maintenance_tasks);
    ("alerts", alerts);
    ("decisions", decisions);
    ("ground_stations", ground_stations);
    ("space_debris", space_debris);
    ("mission_plan", mission_plan);
    ("system_health", system_health);
    ("recommendations", recommendations)]).

(** The dict that [run_autonomous_mission] prepares for the agent. *)
Definition mission_state_for_agent : M pyval :=
  let! st := self_state in
  let! mission_id := getitem st "mission_id" in
  let! satellites := getitem st "satellites" in
  new_dict (list_to_map [
    ("mission_id", mission_id);
    ("satellites", satellites)]).

(** The [try] block of [run_autonomous_mission]. *)
Definition run_autonomous_mission_body (mission_config : pyval) : M pyval :=
  let! mission_state := mission_state_for_agent in
  let! result := agent_graph.run_mission clock later uniform randint mission_state in
  let! st := self_state in
  let! _ := py_update st result in
  let! _ := update_mission_phase clock COMPLETED in
  let! mission_report := _generate_mission_report mission_config in
  let! dflt := new_dict ∅ in
  let! metrics := dict_get mission_report "performance_metrics" dflt in
  let! metrics_content := agent_graph.dict_content metrics in
  let! _ := update_performance_metrics clock metrics_content in
  ret mission_report.

(** The [except Exception as e] block: phase, alert, re-raise. *)
Definition run_autonomous_mission_handler (e : exn) : M pyval :=
  let! _ := update_mission_phase clock ERROR in
  let! t := now in
  let! _ := add_alert clock {|
    Alert_alert_id := "ERR-001";
    Alert_type := "MISSION_ERROR";
    Alert_level := CRITICAL;
    Alert_message := "Mission execution failed: " +:+ exn_str e;
    Alert_satellite_id := None;
    Alert_timestamp := t;
    Alert_acknowledged := false;
    Alert_resolved := false |} in
  raise e.

Definition run_autonomous_mission (mission_config : pyval) : M pyval :=
  try_except (run_autonomous_mission_body mission_config)
             run_autonomous_mission_handler.

Definition get_mission_status : M pyval := get_state_summary.

Definition get_active_alerts : M pyval := state_manager.get_active_alerts.

Definition get_collision_risks : M pyval := state_manager.get_collision_risks.

Definition get_maintenance_tasks : M pyval := state_manager.get_high_priority_tasks.

Definition export_mission_data (fuel : nat) : M json := export_state fuel.

Definition import_mission_data (data : json) : M () := import_state clock data.

End AutonomousSpaceMissionAgent.

End main_agent.

(** * local_tools.py

    The tools are pure apart from the clock and the random generator;
    their floats are real numbers here, and the dict they return for a
    threat is a record of its entries. *)

Module local_tools.

Local Open Scope R_scope.

Record Satellite := {
  Satellite_id : string;
  Satellite_name : string;
  Satellite_type : string;
  Satellite_altitude : R;
  Satellite_inclination : R;
  Satellite_longitude : R;
  Satellite_latitude : R;
  Satellite_velocity : R;
  Satellite_status : string;
  Satellite_battery_level : R;
  Satellite_signal_strength : R;
  Satellite_last_contact : string
}.

Record OrbitalPosition := {
  x : R;
  y : R;
  z : R;
  velocity_x : R;
  velocity_y : R;
  velocity_z : R;
  timestamp : string
}.

(** The dict literal built in [detect_collision_threats]. *)
Record threat := {
  threat_id : string;
  satellites : list string;
  distance : R;
  risk_level : string;
  time_to_collision : R;
  avoidance_maneuver : string;
  threat_timestamp : string
}.

(** Numbers of clock readings and of random draws made so far. *)
Record counters := { ticks : nat; draws : nat }.

Definition tick (c : counters) : counters := {| ticks := S (ticks c); draws := draws c |}.

Definition drawn (c : counters) : counters := {| ticks := ticks c; draws := S (draws c) |}.

(** [a % b] on floats: the remainder has the sign of [b]. *)
Definition float_mod (a b : R) : R := a - b * IZR (Int_part (a / b)).

Section SpaceMissionTools.

(** [clock_shifted n dt]: the n-th reading of the clock plus [dt]
    seconds, as ISO text; [uniform n a b]: the n-th random draw read as
    [np.random.uniform(a, b)]. *)
Variable clock_shifted : nat → R → string.
Variable uniform : nat → R → R → R.

Definition calculate_orbital_mechanics (satellite : Satellite) (time_delta : R)
    (c : counters) : OrbitalPosition * counters :=
  let r := 6371 + Satellite_altitude satellite in
  let T := 2 * PI * sqrt (r ^ 3 / 398600.4418) in
  let current_time := clock_shifted (ticks c) time_delta in
  let angle := float_mod (2 * PI * time_delta / T) (2 * PI) in
  let x := r * cos angle in
  let y := r * sin angle in
  let z := 0 in
  let v := sqrt (398600.4418 / r) in
  let velocity_x := - v * sin angle in
  let velocity_y := v * cos angle in
  let velocity_z := 0 in
  ({| x := x; y := y; z := z;
      velocity_x := velocity_x; velocity_y := velocity_y; velocity_z := velocity_z;
      timestamp := current_time |}, tick c).

(** The body of the inner loop for one pair; [time_delta] is left at
    its default [0.0] in both calls. *)
Definition scan_pair (sat1 sat2 : Satellite) (threats : list threat) (c : counters)
    : list threat * counters :=
  let '(pos1, c) := calculate_orbital_mechanics sat1 0 c in
  let '(pos2, c) := calculate_orbital_mechanics sat2 0 c in
  let distance := sqrt ((x pos1 - x pos2) ^ 2 + (y pos1 - y pos2) ^ 2
                        + (z pos1 - z pos2) ^ 2) in
  if Rlt_dec distance 100 then
    let ttc := uniform (draws c) 0.1 24 in
    let c := drawn c in
    let t := clock_shifted (ticks c) 0 in
    let c := tick c in
    (threats ++ [{|
       threat_id := "COLL-" +:+ Satellite_id sat1 +:+ "-" +:+ Satellite_id sat2;
       satellites := [Satellite_id sat1; Satellite_id sat2];
       distance := distance;
       risk_level := if Rlt_dec distance 50 then "HIGH" else "MEDIUM";
       time_to_collision := ttc;
       avoidance_maneuver := "Required";
       threat_timestamp := t |}], c)
  else (threats, c).

(** [for j, sat2 in enumerate(satellites[i+1:], i+1)] *)
Fixpoint scan_rest (sat1 : Satellite) (rest : list Satellite) (threats : list threat)
    (c : counters) : list threat * counters :=
  match rest with
  | [] => (threats, c)
  | sat2 :: rest' =>
      let '(threats, c) := scan_pair sat1 sat2 threats c in
      scan_rest sat1 rest' threats c
  end.

(** [for i, sat1 in enumerate(satellites)] *)
Fixpoint scan_all (satellites : list Satellite) (threats : list threat) (c : counters)
    : list threat * counters :=
  match satellites with
  | [] => (threats, c)
  | sat1 :: rest =>
      let '(threats, c) := scan_rest sat1 rest threats c in
      scan_all rest threats c
  end.

Definition detect_collision_threats (satellites : list Satellite) (c : counters)
    : list threat * counters :=
  scan_all satellites [] c.

End SpaceMissionTools.

End local_tools.


(** * Specification vocabulary *)

(** ** Observations of a world *)

Definition dict_of (w : world) (v : pyval) : option (gmap string pyval) :=
  match v with
  | VRef l => match objects w !! l with Some (ODict d) => Some d | _ => None end
  | _ => None
  end.

Definition list_of (w : world) (v : pyval) : option (list pyval) :=
  match v with
  | VRef l => match objects w !! l with Some (OList xs) => Some xs | _ => None end
  | _ => None
  end.

(** The mission state: the dict [self.state]. *)
Definition state_dict (w : world) : option (gmap string pyval) :=
  dict_of w (VRef (state (self w))).

(** [self.state[k]] *)
Definition field (w : world) (k : string) : option pyval :=
  d ← state_dict w; d !! k.

(** The list [self.state["satellites"]]. *)
Definition satellites_of (w : world) : option (list pyval) :=
  v ← field w "satellites"; list_of w v.

(** The list [self.state["alerts"]]. *)
Definition alerts_of (w : world) : option (list pyval) :=
  v ← field w "alerts"; list_of w v.

(** Entry [k] of every record of a list of records. *)
Definition column (w : world) (k : string) (records : list pyval) : list (option pyval) :=
  (λ v, d ← dict_of w v; d !! k) <$> records.

(** The satellite record that [add_satellite] stores. *)
Definition satellite_dict (s : state_manager.Satellite) : gmap string pyval :=
  <["status" := VStr (enum_value (Status (state_manager.Satellite_status s)))]>
    (state_manager.Satellite_fields s).

(** The alert record that [add_alert] stores. *)
Definition alert_dict (a : state_manager.Alert) : gmap string pyval :=
  <["level" := VStr (enum_value (Level (state_manager.Alert_level a)))]>
    (state_manager.Alert_fields a).

(** ** Alerts and snapshots *)

(** An alert whose ["resolved"] entry is [False] or is absent. *)
Definition resolved_false_or_absent (w : world) (alert : pyval) : bool :=
  match dict_of w alert with
  | Some d =>
      match d !! "resolved" with
      | None => true
      | Some (VBool false) => true
      | _ => false
      end
  | None => false
  end.

(** An alert record whose ["resolved"] entry, when it has one, is a
    [bool], as the dataclass [Alert] declares it. *)
Definition alert_record (w : world) (alert : pyval) : Prop :=
  ∃ d, dict_of w alert = Some d ∧
       (d !! "resolved" = None ∨ ∃ b, d !! "resolved" = Some (VBool b)).

(** Entry [k] of the dict [v], and the list it refers to. *)
Definition entry (w : world) (v : pyval) (k : string) : option pyval :=
  d ← dict_of w v; d !! k.

Definition entry_list (w : world) (v : pyval) (k : string) : option (list pyval) :=
  x ← entry w v k; list_of w x.

(** The snapshot taken last. *)
Definition last_snapshot (w : world) : pyval :=
  default VNone (last (state_history (self w))).

(** ** The shape of the store *)

Definition list_keys : list string :=
  ["satellites"; "orbital_data"; "collision_threats"; "ground_stations";
   "space_debris"; "maintenance_tasks"; "alerts"; "decisions"].

Definition dict_keys : list string := ["performance_metrics"; "system_health"].

(** A satellite record: a dict with an ["id"], other than the state. *)
Definition satellite_record (h : heap) (st : loc) (v : pyval) : Prop :=
  ∃ l dl, v = VRef l ∧ h !! l = Some (ODict dl) ∧ is_Some (dl !! "id") ∧ l ≠ st.

(** The state [st] of heap [h] has its collections where the methods of
    the store expect them, the satellite list is shared with no other
    collection, and the satellite count is the length of that list. *)
Definition shape (h : heap) (st : loc) : Prop :=
  ∃ d ls sats,
    h !! st = Some (ODict d) ∧
    d !! "satellites" = Some (VRef ls) ∧
    h !! ls = Some (OList sats) ∧
    d !! "satellite_count" = Some (VInt (Z.of_nat (length sats))) ∧
    (∀ k, k ∈ list_keys → ∃ l xs,
       d !! k = Some (VRef l) ∧ h !! l = Some (OList xs) ∧ (k ≠ "satellites" → l ≠ ls)) ∧
    (∀ k, k ∈ dict_keys → ∃ l dd,
       d !! k = Some (VRef l) ∧ h !! l = Some (ODict dd) ∧ l ≠ st) ∧
    Forall (satellite_record h st) sats.

(** The store of world [w] has the shape. *)
Definition ok (w : world) : Prop := shape (objects w) (state (self w)).

(** [m] returns from [w], keeps the shape and leaves the manager's own
    fields alone. *)
Definition returns_ok (m : M ()) (w : world) : Prop :=
  ∃ w', m w = (Ret (), w') ∧ ok w' ∧ self w' = self w.

(** ** A new state *)

(** The objects of a new state, in the order [_initialize_state] makes
    them, and the fields of the state when the first of them is at [base]. *)
Definition initial_objects : list pyobj :=
  [OList []; OList []; OList []; OList []; OList []; ODict ∅; OList []; ODict ∅;
   ODict ∅; OList []; OList []; ODict ∅; OList []; ODict ∅; OList []; OList [];
   OList []; OList []; ODict ∅; ODict ∅; OList []; OList []].

Definition initial_fields (mission_id start_time last_update : string) (base : nat)
    : gmap string pyval :=
  list_to_map [
    ("mission_id", VStr mission_id);
    ("mission_name", VStr "Autonomous Space Mission");
    ("mission_phase", VEnum (Phase INITIALIZATION));
    ("start_time", VStr start_time);
    ("last_update", VStr last_update);
    ("satellites", VRef base);
    ("satellite_count", VInt 0);
    ("orbital_data", VRef (base + 1));
    ("trajectory_predictions", VRef (base + 2));
    ("collision_threats", VRef (base + 3));
    ("avoidance_maneuvers", VRef (base + 4));
    ("mission_plan", VRef (base + 5));
    ("objectives", VRef (base + 6));
    ("timeline", VRef (base + 7));
    ("resources", VRef (base + 8));
    ("ground_stations", VRef (base + 9));
    ("communication_links", VRef (base + 10));
    ("maintenance_schedule", VRef (base + 11));
    ("maintenance_tasks", VRef (base + 12));
    ("health_monitoring", VRef (base + 13));
    ("space_debris", VRef (base + 14));
    ("debris_threats", VRef (base + 15));
    ("alerts", VRef (base + 16));
    ("decisions", VRef (base + 17));
    ("performance_metrics", VRef (base + 18));
    ("system_health", VRef (base + 19));
    ("errors", VRef (base + 20));
    ("recovery_actions", VRef (base + 21))].

(** ** Sequences of add and update operations *)

Inductive op :=
  | AddSatellite (s : state_manager.Satellite)
  | UpdateSatellite (satellite_id : string) (updates : gmap string pyval)
  | AddOrbitalData (o : state_manager.OrbitalData)
  | AddCollisionThreat (t : state_manager.CollisionThreat)
  | AddGroundStation (g : state_manager.GroundStation)
  | AddSpaceDebris (d : state_manager.SpaceDebris)
  | AddMaintenanceTask (t : state_manager.MaintenanceTask)
  | AddAlert (a : state_manager.Alert)
  | AddDecision (d : state_manager.Decision)
  | UpdateMissionPhase (p : MissionPhase)
  | UpdatePerformanceMetrics (metrics : gmap string pyval)
  | UpdateSystemHealth (health : gmap string pyval).

Definition run_op (clock : nat → string) (o : op) : M () :=
  match o with
  | AddSatellite s => state_manager.add_satellite clock s
  | UpdateSatellite id updates => state_manager.update_satellite clock id updates
  | AddOrbitalData o => state_manager.add_orbital_data clock o
  | AddCollisionThreat t => state_manager.add_collision_threat clock t
  | AddGroundStation g => state_manager.add_ground_station clock g
  | AddSpaceDebris d => state_manager.add_space_debris clock d
  | AddMaintenanceTask t => state_manager.add_maintenance_task clock t
  | AddAlert a => state_manager.add_alert clock a
  | AddDecision d => state_manager.add_decision clock d
  | UpdateMissionPhase p => state_manager.update_mission_phase clock p
  | UpdatePerformanceMetrics m => state_manager.update_performance_metrics clock m
  | UpdateSystemHealth m => state_manager.update_system_health clock m
  end.

(** The calls are made one after the other, whatever each returns; the
    outcomes are collected. *)
Fixpoint run_ops (clock : nat → string) (ops : list op) (w : world)
    : list (outcome ()) * world :=
  match ops with
  | [] => ([], w)
  | o :: ops' =>
      let '(r, w1) := run_op clock o w in
      let '(rs, w2) := run_ops clock ops' w1 in
      (r :: rs, w2)
  end.

(** ** The distance seen by the threat scanner *)

Module scanner.

Import local_tools.
Local Open Scope R_scope.

(** The position [calculate_orbital_mechanics] gives a satellite at
    [time_delta = 0]. *)
Definition position_of (sat : Satellite) : OrbitalPosition :=
  (calculate_orbital_mechanics (λ _ _, ""%string) sat 0 {| ticks := 0; draws := 0 |}).1.

(** The distance the scanner computes for two satellites. *)
Definition separation (sat1 sat2 : Satellite) : R :=
  let pos1 := position_of sat1 in
  let pos2 := position_of sat2 in
  sqrt ((x pos1 - x pos2) ^ 2 + (y pos1 - y pos2) ^ 2 + (z pos1 - z pos2) ^ 2).

(** The threat emitted for a pair scanned when the counters are [c]. *)
Definition threat_of (clock_shifted : nat → R → string) (uniform : nat → R → R → R)
    (sat1 sat2 : Satellite) (c : counters) : threat :=
  {| threat_id := "COLL-" +:+ Satellite_id sat1 +:+ "-" +:+ Satellite_id sat2;
     satellites := [Satellite_id sat1; Satellite_id sat2];
     distance := separation sat1 sat2;
     risk_level := if Rlt_dec (separation sat1 sat2) 50 then "HIGH" else "MEDIUM";
     time_to_collision := uniform (draws c) 0.1 24;
     avoidance_maneuver := "Required";
     threat_timestamp := clock_shifted (S (S (ticks c))) 0 |}.

(** A satellite of a given id and altitude, and the oracles and counters
    of the examples. *)
Definition sat_at (id : string) (altitude : R) : Satellite :=
  {| Satellite_id := id; Satellite_name := id; Satellite_type := "Communication";
     Satellite_altitude := altitude; Satellite_inclination := 51.6;
     Satellite_longitude := 0; Satellite_latitude := 0; Satellite_velocity := 7.5;
     Satellite_status := "Active"; Satellite_battery_level := 85;
     Satellite_signal_strength := 95; Satellite_last_contact := "" |}.

Definition c0 : counters := {| ticks := 0; draws := 0 |}.

Definition clock_shifted0 : nat → R → string := λ _ _, ""%string.

Definition uniform0 : nat → R → R → R := λ _ a _, a.

End scanner.

(** ** Oracles and worlds of the examples *)

Definition clock0 (n : nat) : string := "2026-01-01T00:00:" +:+ pretty n.

Definition uuid0 (n : nat) : string := "uuid-" +:+ pretty n.

Definition sat001 : state_manager.Satellite := {|
  state_manager.Satellite_id := "SAT-001";
  state_manager.Satellite_name := "Communication Satellite Alpha";
  state_manager.Satellite_type := "Communication";
  state_manager.Satellite_status := ACTIVE;
  state_manager.Satellite_altitude := 400;
  state_manager.Satellite_inclination := 51.6;
  state_manager.Satellite_longitude := -180;
  state_manager.Satellite_latitude := 0;
  state_manager.Satellite_velocity := 7.5;
  state_manager.Satellite_battery_level := 85;
  state_manager.Satellite_signal_strength := 95;
  state_manager.Satellite_temperature := 20;
  state_manager.Satellite_power_consumption := 1000;
  state_manager.Satellite_data_throughput := 100;
  state_manager.Satellite_last_contact := "2026-01-01T00:00:00";
  state_manager.Satellite_health_score := 95;
  state_manager.Satellite_maintenance_due := false;
  state_manager.Satellite_collision_risk := 0.01 |}.

(** A new store, and the store after [add_satellite(sat001)]. *)
Definition fresh_store : world := (state_manager.__init__ clock0 uuid0 empty_world).2.

Definition store_with_sat001 : world :=
  (state_manager.add_satellite clock0 sat001 fresh_store).2.


Definition store_with_snapshot : world :=
  (state_manager.save_state_snapshot fresh_store).2.


(** ** A mission run, stage by stage *)

Definition is_isoformat0 (s : string) : bool := true.
Definition elapsed0 (s : string) (n : nat) : string := "0:00:01".
Definition later0 (n : nat) (k : Z) : string := clock0 n.
Definition uniform0 (n : nat) (a b : Q) : Q := a.
Definition randint0 (n : nat) (a b : Z) : Z := a.

(** The agent after [__init__] and [initialize_mission]. *)
Definition agent_config : pyval :=
  match (main_agent.__init__ clock0 uuid0 "sk-test" empty_world).1 with
  | Ret v => v
  | Raise _ => VNone
  end.

Definition mission_ready : world :=
  (main_agent.initialize_mission clock0 agent_config (Some "Test Mission")
     (main_agent.__init__ clock0 uuid0 "sk-test" empty_world).2).2.

Definition mission_done :=
  main_agent.run_autonomous_mission clock0 is_isoformat0 elapsed0 later0 uniform0 randint0
    agent_config mission_ready.


(** The stages in the order of the edges of the graph. *)
Definition stage_order : list string :=
  ["orbital_mechanics"; "satellite_manager"; "collision_avoidance"; "mission_planner";
   "ground_coordinator"; "maintenance_agent"; "space_debris_monitor"].

(** Running the named nodes of a graph one after the other. *)
Fixpoint run_stages (g : agent_graph.StateGraph) (names : list string) (state : pyval)
    : M pyval :=
  match names with
  | [] => ret state
  | name :: names' =>
      match agent_graph.assoc name (agent_graph.nodes g) with
      | Some f => let! state' := f state in run_stages g names' state'
      | None => raise (ValueError "unknown node")
      end
  end.

(** [run_mission] cut after its first [k] stages. *)
Definition run_mission_prefix (clock : nat → string) (later : nat → Z → string)
    (uniform : nat → Q → Q → Q) (randint : nat → Z → Z → Z)
    (k : nat) (initial_state : pyval) : M pyval :=
  let! state := agent_graph.new_state initial_state in
  run_stages (agent_graph._build_agent_graph clock later uniform randint)
    (take k stage_order) state.

(** [run_autonomous_mission] up to the end of the first [k] stages of the
    agent: the agent's state object and the world at that point. *)
Definition after_stages (k : nat) (w : world) : outcome pyval * world :=
  (let! mission_state := main_agent.mission_state_for_agent in
   run_mission_prefix clock0 later0 uniform0 randint0 k mission_state) w.

(** The agent's [current_phase] and the store's [mission_phase] after
    [k] stages. *)
Definition current_phase_after (k : nat) (w : world) : option pyval :=
  match after_stages k w with
  | (Ret state, w') => entry w' state "current_phase"
  | _ => None
  end.

Definition mission_phase_after (k : nat) (w : world) : option pyval :=
  field (after_stages k w).2 "mission_phase".


(** ** A mission run that fails *)

(** The alert that the [except] block of [run_autonomous_mission] adds
    for the exception [e] at time [t]. *)
Definition error_alert (e : exn) (t : string) : state_manager.Alert := {|
  state_manager.Alert_alert_id := "ERR-001";
  state_manager.Alert_type := "MISSION_ERROR";
  state_manager.Alert_level := CRITICAL;
  state_manager.Alert_message := "Mission execution failed: " +:+ exn_str e;
  state_manager.Alert_satellite_id := None;
  state_manager.Alert_timestamp := t;
  state_manager.Alert_acknowledged := false;
  state_manager.Alert_resolved := false |}.

(** A mission whose two satellite records have no ["id"]: the store
    after the import of such a document. *)
Definition doc_without_ids : json :=
  JObj [("satellites", JArr [JObj [("name", JStr "X")]; JObj [("name", JStr "Y")]])].

Definition mission_without_ids : world :=
  (state_manager.import_state clock0 doc_without_ids mission_ready).2.

Definition mission_failed : outcome pyval * world :=
  main_agent.run_autonomous_mission clock0 is_isoformat0 elapsed0 later0 uniform0 randint0
    agent_config mission_without_ids.

(** The [try] block on that mission. *)
Abbreviation failed_body :=
  (main_agent.run_autonomous_mission_body clock0 is_isoformat0 elapsed0 later0 uniform0
     randint0 agent_config mission_without_ids).

(** The exception of an outcome that is one. *)
Definition raised_exn {A} (r : outcome A) : exn :=
  match r with
  | Raise e => e
  | Ret _ => SystemError "no exception"
  end.


(** ** Queries on the store *)

(** The list [self.state[k]]. *)
Definition field_list (w : world) (k : string) : option (list pyval) :=
  v ← field w k; list_of w v.

(** [v] is a dict, and a dict with an entry [k]. *)
Definition is_dict (w : world) (v : pyval) : bool :=
  match dict_of w v with Some _ => true | None => false end.

Definition has_key (w : world) (k : string) (v : pyval) : bool :=
  match entry w v k with Some _ => true | None => false end.

(** A record whose ["id"] entry is the string [satellite_id]. *)
Definition has_id (w : world) (satellite_id : string) (v : pyval) : bool :=
  match entry w v "id" with
  | Some x => py_eq_str x satellite_id
  | None => false
  end.

(** A task record of priority ["HIGH"] whose status is not ["completed"]. *)
Definition high_priority_open (w : world) (task : pyval) : bool :=
  match dict_of w task with
  | Some d =>
      match d !! "priority" with
      | Some (VStr p) =>
          String.eqb p "HIGH" &&
          negb match d !! "status" with
               | Some (VStr s) => String.eqb s "completed"
               | _ => false
               end
      | _ => false
      end
  | None => false
  end.

(** A threat record whose risk level is ["HIGH"] or ["CRITICAL"]. *)
Definition high_risk (w : world) (threat : pyval) : bool :=
  match dict_of w threat with
  | Some d =>
      match d !! "risk_level" with
      | Some (VStr r) => String.eqb r "HIGH" || String.eqb r "CRITICAL"
      | _ => false
      end
  | None => false
  end.

(** ** A store with alerts of every kind *)

(** An alert record whose ["resolved"] entry, when it has one, is a
    [bool]: the check of [alert_record]. *)
Definition has_bool_resolved (w : world) (alert : pyval) : bool :=
  match dict_of w alert with
  | Some d =>
      match d !! "resolved" with
      | None | Some (VBool _) => true
      | Some _ => false
      end
  | None => false
  end.

(** Three alerts: one without a ["resolved"] entry, one resolved, one
    not; and the store that has imported them. *)
Definition doc_alerts : json :=
  JObj [("alerts", JArr [JObj [("message", JStr "no entry")];
                         JObj [("message", JStr "resolved"); ("resolved", JBool true)];
                         JObj [("message", JStr "open"); ("resolved", JBool false)]])].

Definition store_with_alerts : world :=
  (state_manager.import_state clock0 doc_alerts fresh_store).2.

(** ** Stores with maintenance tasks and with collision threats *)

Definition task (id priority status : string) : state_manager.MaintenanceTask := {|
  state_manager.MaintenanceTask_task_id := id;
  state_manager.MaintenanceTask_satellite_id := "SAT-001";
  state_manager.MaintenanceTask_task_type := "battery";
  state_manager.MaintenanceTask_priority := priority;
  state_manager.MaintenanceTask_estimated_duration := 2;
  state_manager.MaintenanceTask_required_resources := ["technician"];
  state_manager.MaintenanceTask_scheduled_time := "2026-01-02T00:00:00";
  state_manager.MaintenanceTask_status := status;
  state_manager.MaintenanceTask_confidence := 0.9 |}.

Definition store_with_tasks : world :=
  (run_ops clock0 [AddMaintenanceTask (task "T1" "HIGH" "scheduled");
                   AddMaintenanceTask (task "T2" "CRITICAL" "scheduled");
                   AddMaintenanceTask (task "T3" "HIGH" "completed");
                   AddMaintenanceTask (task "T4" "HIGH" "in_progress")] fresh_store).2.

Definition threat_between (id risk_level : string) : state_manager.CollisionThreat := {|
  state_manager.CollisionThreat_threat_id := id;
  state_manager.CollisionThreat_satellite_1 := "SAT-001";
  state_manager.CollisionThreat_satellite_2 := "SAT-002";
  state_manager.CollisionThreat_distance := 40;
  state_manager.CollisionThreat_time_to_collision := 2;
  state_manager.CollisionThreat_risk_level := risk_level;
  state_manager.CollisionThreat_avoidance_maneuver := "Required";
  state_manager.CollisionThreat_confidence := 0.9;
  state_manager.CollisionThreat_timestamp := "2026-01-01T00:00:00" |}.

Definition store_with_threats : world :=
  (run_ops clock0 [AddCollisionThreat (threat_between "COLL-1" "MEDIUM");
                   AddCollisionThreat (threat_between "COLL-2" "HIGH");
                   AddCollisionThreat (threat_between "COLL-3" "CRITICAL");
                   AddCollisionThreat (threat_between "COLL-4" "LOW")] fresh_store).2.

(** A store with three snapshots in its history. *)
Definition store_with_history : world :=
  (state_manager.save_state_snapshot
     (state_manager.save_state_snapshot store_with_snapshot).2).2.

(** ** local_tools.py: the maintenance analyser *)

Module maintenance.

Import local_tools.
Local Open Scope R_scope.

(** The dict literal built in [predict_satellite_maintenance]. *)
Record prediction := {
  satellite_id : string;
  maintenance_required : bool;
  priority : string;
  issues : list string;
  predicted_failure_time : string;
  recommended_actions : list string;
  confidence : R;
  timestamp : string
}.

Section SpaceMissionTools.

(** [clock n]: the n-th reading of the clock as ISO text; [clock_days n k]:
    that reading moved [k] days ahead; [randint n a b] and [uniform n a b]:
    the n-th random draw read as [np.random.randint(a, b)] resp.
    [np.random.uniform(a, b)]. *)
Variable clock : nat → string.
Variable clock_days : nat → Z → string.
Variable randint : nat → Z → Z → Z.
Variable uniform : nat → R → R → R.

(** The body of the loop for one satellite. *)
Definition analyse (satellite : Satellite) (maintenance_predictions : list prediction)
    (c : counters) : list prediction * counters :=
  let battery_health := Satellite_battery_level satellite in
  let signal_health := Satellite_signal_strength satellite in
  let maintenance_required := false in
  let priority := "LOW"%string in
  let issues := @nil string in
  let '(maintenance_required, priority, issues) :=
    if Rlt_dec battery_health 80 then
      (true, if Rlt_dec battery_health 70 then "HIGH"%string else "MEDIUM"%string,
       issues ++ ["Battery degradation detected"%string])
    else (maintenance_required, priority, issues) in
  let '(maintenance_required, priority, issues) :=
    if Rlt_dec signal_health 90 then
      (true, if Rlt_dec signal_health 85 then "MEDIUM"%string else "LOW"%string,
       issues ++ ["Communication signal degradation"%string])
    else (maintenance_required, priority, issues) in
  if maintenance_required then
    let days := randint (draws c) 1 30 in
    let failure_time := clock_days (ticks c) days in
    let c := drawn (tick c) in
    let conf := uniform (draws c) 0.8 0.95 in
    let c := drawn c in
    let t := clock (ticks c) in
    let c := tick c in
    (maintenance_predictions ++ [{|
       satellite_id := Satellite_id satellite;
       maintenance_required := true;
       priority := priority;
       issues := issues;
       predicted_failure_time := failure_time;
       recommended_actions := ["Schedule maintenance window"%string;
                               "Prepare replacement components"%string;
                               "Coordinate with ground station"%string];
       confidence := conf;
       timestamp := t |}], c)
  else (maintenance_predictions, c).

(** [for satellite in satellites] *)
Fixpoint analyse_all (satellites : list Satellite) (maintenance_predictions : list prediction)
    (c : counters) : list prediction * counters :=
  match satellites with
  | [] => (maintenance_predictions, c)
  | satellite :: rest =>
      let '(maintenance_predictions, c) := analyse satellite maintenance_predictions c in
      analyse_all rest maintenance_predictions c
  end.

Definition predict_satellite_maintenance (satellites : list Satellite) (c : counters)
    : list prediction * counters :=
  analyse_all satellites [] c.

End SpaceMissionTools.

End maintenance.

(** ** What the tools are expected to compute *)

Module tools.

Import local_tools.
Local Open Scope R_scope.

(** The pairs of a list: every element with every later one, in the order
    of the two nested loops. *)
Fixpoint pairs_in_order {A} (xs : list A) : list (A * A) :=
  match xs with
  | [] => []
  | x :: rest => (pair x <$> rest) ++ pairs_in_order rest
  end.

(** A satellite whose altitude is a whole number of km, above the centre
    of the Earth and up to 1000000: the doubles the code computes from
    such altitudes (the radius, a difference of two radii, its square, the
    root of the square) are the numbers themselves. *)
Definition whole_altitude (s : Satellite) : Prop :=
  ∃ z : Z, Satellite_altitude s = IZR z ∧ (-6371 < z ≤ 1000000)%Z.

(** The difference of the altitudes of two satellites. *)
Definition altitude_gap (sat1 sat2 : Satellite) : R :=
  Rabs (Satellite_altitude sat1 - Satellite_altitude sat2).

Definition closer_than (limit : R) (p : Satellite * Satellite) : bool :=
  if Rlt_dec (altitude_gap p.1 p.2) limit then true else false.

(** What a threat says of its pair: the two ids, the distance and the
    risk level. *)
Definition summary (t : threat) : list string * R * string :=
  (satellites t, distance t, risk_level t).

Definition expected_summary (p : Satellite * Satellite) : list string * R * string :=
  ([Satellite_id p.1; Satellite_id p.2], altitude_gap p.1 p.2,
   if Rlt_dec (altitude_gap p.1 p.2) 50 then "HIGH"%string else "MEDIUM"%string).

(** A satellite needs maintenance when its battery is below 80 or its
    signal below 90; the priority then follows from the signal first. *)
Definition needs_maintenance (s : Satellite) : bool :=
  (if Rlt_dec (Satellite_battery_level s) 80 then true else false)
  || (if Rlt_dec (Satellite_signal_strength s) 90 then true else false).

Definition priority_of (s : Satellite) : string :=
  if Rlt_dec (Satellite_signal_strength s) 85 then "MEDIUM"
  else if Rlt_dec (Satellite_signal_strength s) 90 then "LOW"
  else if Rlt_dec (Satellite_battery_level s) 70 then "HIGH"
  else "MEDIUM".

(** A satellite of a given battery level and signal strength. *)
Definition sat_with (id : string) (battery signal : R) : Satellite :=
  {| Satellite_id := id; Satellite_name := id; Satellite_type := "Communication";
     Satellite_altitude := 400; Satellite_inclination := 51.6;
     Satellite_longitude := 0; Satellite_latitude := 0; Satellite_velocity := 7.5;
     Satellite_status := "Active"; Satellite_battery_level := battery;
     Satellite_signal_strength := signal; Satellite_last_contact := "" |}.

End tools.

(** ** Reading a document *)

(** The two loops of [load], on their own: the items of an array and the
    members of an object are loaded from left to right. *)
Fixpoint load_items (js : list json) (h : heap) : list pyval * heap :=
  match js with
  | [] => ([], h)
  | j :: js' =>
      let '(v, h1) := load j h in
      let '(vs, h2) := load_items js' h1 in
      (v :: vs, h2)
  end.

Fixpoint load_members (kvs : list (string * json)) (h : heap)
    : list (string * pyval) * heap :=
  match kvs with
  | [] => ([], h)
  | (k, j) :: kvs' =>
      let '(v, h1) := load j h in
      let '(d, h2) := load_members kvs' h1 in
      ((k, v) :: d, h2)
  end.

(** The value of a document that is neither an array nor an object. *)
Definition scalar (j : json) : option pyval :=
  match j with
  | JNull => Some VNone
  | JBool b => Some (VBool b)
  | JInt z => Some (VInt z)
  | JFloat q => Some (VFloat q)
  | JStr s => Some (VStr s)
  | JArr _ | JObj _ => None
  end.

(** The documents that [json.loads] reads as [load] does: nested at most
    [depth] deep (deeper ones can end in a [RecursionError]), without
    floats (which the parser rounds to doubles) and with integers below
    10^4300 (beyond 4300 digits the conversion to [int] raises
    [ValueError]). *)
Fixpoint readable (depth : nat) (j : json) {struct depth} : bool :=
  match j with
  | JNull | JBool _ | JStr _ => true
  | JInt z => (Z.abs z <? 10 ^ 4300)%Z
  | JFloat _ => false
  | JArr js =>
      match depth with
      | 0 => false
      | S depth' => forallb (readable depth') js
      end
  | JObj kvs =>
      match depth with
      | 0 => false
      | S depth' => forallb (λ kv, readable depth' kv.2) kvs
      end
  end.

(** Induction on documents. *)
Section json_induction.

Variable P : json → Prop.
Hypothesis Hnull : P JNull.
Hypothesis Hbool : ∀ b, P (JBool b).
Hypothesis Hint : ∀ z, P (JInt z).
Hypothesis Hfloat : ∀ q, P (JFloat q).
Hypothesis Hstr : ∀ s, P (JStr s).
Hypothesis Harr : ∀ js, Forall P js → P (JArr js).
Hypothesis Hobj : ∀ kvs, Forall (λ kv, P kv.2) kvs → P (JObj kvs).

Fixpoint json_induction (j : json) : P j :=
  match j with
  | JNull => Hnull
  | JBool b => Hbool b
  | JInt z => Hint z
  | JFloat q => Hfloat q
  | JStr s => Hstr s
  | JArr js =>
      Harr js
        ((fix go (js : list json) : Forall P js :=
            match js with
            | [] => @List.Forall_nil json P
            | j :: js' => @List.Forall_cons json P j js' (json_induction j) (go js')
            end) js)
  | JObj kvs =>
      Hobj kvs
        ((fix go (kvs : list (string * json)) : Forall (λ kv, P kv.2) kvs :=
            match kvs with
            | [] => @List.Forall_nil (string * json) (λ kv, P kv.2)
            | (k, j) :: kvs' =>
                @List.Forall_cons (string * json) (λ kv, P kv.2) (k, j) kvs'
                  (json_induction j) (go kvs')
            end) kvs)
  end.

End json_induction.

(** A document with a list of two satellites and no satellite count. *)
Definition doc_two_satellites : json :=
  JObj [("mission_name", JStr "Imported");
        ("satellites", JArr [JObj [("id", JStr "SAT-A")]; JObj [("id", JStr "SAT-B")]])].

(** The export of the store of a mission that has been initialised. *)
Definition exported_ready : outcome json * world :=
  state_manager.export_state 10 mission_ready.

Definition document_of (r : outcome json) : json :=
  match r with
  | Ret j => j
  | Raise _ => JNull
  end.

(** ** agent_graph.py: the threats of the collision avoidance stage *)

(** A threat record whose risk level is ["MEDIUM"]. *)
Definition medium_risk (w : world) (threat : pyval) : bool :=
  match entry w threat "risk_level" with
  | Some (VStr r) => String.eqb r "MEDIUM"
  | _ => false
  end.

(** The threats found so far by the stage that started in [w]: in [w1]
    the list at the first new location holds records made after it, every
    one of the risk level ["MEDIUM"], and the objects of [w] are as they
    were. *)
Definition threats_so_far (w w1 : world) : Prop :=
  (∀ i o, objects w !! i = Some o → objects w1 !! i = Some o) ∧
  ∃ ts, objects w1 !! length (objects w) = Some (OList ts) ∧
        Forall (λ t, ∃ lt dt, t = VRef lt ∧ length (objects w) < lt ∧
                              objects w1 !! lt = Some (ODict dt) ∧
                              dt !! "risk_level" = Some (VStr "MEDIUM")) ts.

(** A satellite record whose status is ["Operational"]. *)
Definition operational (w : world) (satellite : pyval) : bool :=
  match entry w satellite "status" with
  | Some (VStr s) => String.eqb s "Operational"
  | _ => false
  end.

(** What the loop of the satellite management stage keeps of the objects
    of [w]: the lists as they are, the dicts as dicts with their
    ["decisions"]. *)
Definition records_kept (w w1 : world) : Prop :=
  (∀ i xs, objects w !! i = Some (OList xs) → objects w1 !! i = Some (OList xs)) ∧
  (∀ i dd, objects w !! i = Some (ODict dd) →
           ∃ dd', objects w1 !! i = Some (ODict dd') ∧
                  dd' !! "decisions" = dd !! "decisions").

(** A maintenance entry whose priority fits its issue: thermal stress is
    of the priority ["MEDIUM"]. *)
Definition thermal_is_medium (w : world) (task : pyval) : bool :=
  match entry w task "issue", entry w task "priority" with
  | Some (VStr issue), Some (VStr priority) =>
      negb (String.eqb issue "Thermal stress") || String.eqb priority "MEDIUM"
  | _, _ => false
  end.

(** The entries made so far by the maintenance stage that started in
    [w]: the schedule and its list of entries are the fourth and the
    second object the stage has made, and every entry of the list is a
    later record whose priority fits its issue. *)
Definition tasks_so_far (w w1 : world) : Prop :=
  (∀ i o, objects w !! i = Some o → objects w1 !! i = Some o) ∧
  (∃ sched, objects w1 !! (length (objects w) + 3) = Some (ODict sched) ∧
            sched !! "maintenance_required" = Some (VRef (length (objects w) + 1))) ∧
  ∃ ts, objects w1 !! (length (objects w) + 1) = Some (OList ts) ∧
        Forall (λ t, ∃ lt dt issue priority,
                  t = VRef lt ∧ length (objects w) + 3 < lt ∧
                  objects w1 !! lt = Some (ODict dt) ∧
                  dt !! "issue" = Some (VStr issue) ∧
                  dt !! "priority" = Some (VStr priority) ∧
                  negb (String.eqb issue "Thermal stress") || String.eqb priority "MEDIUM"
                  = true) ts.

(** The state of a run over two satellites that have an id. *)
Definition state_of_two : world :=
  {| objects := [ODict (list_to_map [("satellites", VRef 1); ("alerts", VRef 2);
                                      ("decisions", VRef 3)]);
                 OList [VRef 4; VRef 5];
                 OList [];
                 OList [];
                 ODict {["id" := VStr "SAT-001"]};
                 ODict {["id" := VStr "SAT-002"]}];
     self := self empty_world; ticks := 0; draws := 0 |}.

(** Draws for a run over two satellites: the first has a battery health
    of 90 and a thermal health of 80, the second a battery health of
    70. *)
Definition uniform_mixed (n : nat) (a b : Q) : Q :=
  if (n <? 4)%nat then (if Qeq_bool a 70 then 90%Q else a) else a.

(** ** The content of a field before and after a round trip *)

(** A value that is [None], a [bool], an [int] or a [str]. *)
Definition plain (v : pyval) : bool :=
  match v with
  | VNone | VBool _ | VInt _ | VStr _ => true
  | VFloat _ | VEnum _ | VRef _ => false
  end.

(** [H] has the objects that [h0 ++ os] has from [h0] on. *)
Definition keeps_new_objects (H h0 os : heap) : Prop :=
  ∀ i o, length h0 ≤ i → (h0 ++ os) !! i = Some o → H !! i = Some o.

(** What [render] makes of a value, [load] gives back: the loaded value
    renders to the same document, in every heap that has the objects
    which [load] has made. *)
Definition loads_back (n : nat) : Prop :=
  ∀ h v j, render n h v = Some j →
  ∀ h0, ∃ os, (load j h0).2 = h0 ++ os ∧
              ∀ H, keeps_new_objects H h0 os → render n H (load j h0).1 = Some j.

(** The export of a store whose alerts were imported, of the store of a
    new manager, and the import of the latter into that store. *)
Definition exported_alerts : outcome json * world :=
  state_manager.export_state 10 store_with_alerts.

Definition exported_fresh : outcome json * world :=
  state_manager.export_state 10 fresh_store.

Definition reimported_fresh : outcome unit * world :=
  state_manager.import_state clock0 (document_of exported_fresh.1) exported_fresh.2.


(** * Properties *)

(** ** Stepping through a computation *)

Lemma bind_Ret {A B} (m : M A) (k : A → M B) w a w' :
  m w = (Ret a, w') → bind m k w = k a w'.
Proof. unfold bind. by intros ->. Qed.

Lemma bind_Raise {A B} (m : M A) (k : A → M B) w e w' :
  m w = (Raise e, w') → bind m k w = (Raise e, w').
Proof. unfold bind. by intros ->. Qed.

Lemma alloc_eq o w :
  alloc o w = (Ret (VRef (length (objects w))), with_objects (objects w ++ [o]) w).
Proof. reflexivity. Qed.

Lemma getitem_dict w l d k x :
  objects w !! l = Some (ODict d) → d !! k = Some x →
  getitem (VRef l) k w = (Ret x, w).
Proof. unfold getitem. by intros -> ->. Qed.

Lemma getitem_missing w l d k :
  objects w !! l = Some (ODict d) → d !! k = None →
  getitem (VRef l) k w = (Raise (KeyError k), w).
Proof. unfold getitem. by intros -> ->. Qed.

Lemma setitem_dict w l d k x :
  objects w !! l = Some (ODict d) →
  setitem (VRef l) k x w = (Ret (), with_objects (<[l:=ODict (<[k:=x]> d)]> (objects w)) w).
Proof. unfold setitem. by intros ->. Qed.

Lemma dict_get_dict w l d k dflt :
  objects w !! l = Some (ODict d) →
  dict_get (VRef l) k dflt w = (Ret (default dflt (d !! k)), w).
Proof. unfold dict_get. by intros ->. Qed.

Lemma dict_update_dict w l d u :
  objects w !! l = Some (ODict d) →
  dict_update (VRef l) u w = (Ret (), with_objects (<[l:=ODict (u ∪ d)]> (objects w)) w).
Proof. unfold dict_update. by intros ->. Qed.

Lemma dict_copy_dict w l d :
  objects w !! l = Some (ODict d) →
  dict_copy (VRef l) w
  = (Ret (VRef (length (objects w))), with_objects (objects w ++ [ODict d]) w).
Proof. unfold dict_copy. by intros ->. Qed.

Lemma list_append_list w l xs x :
  objects w !! l = Some (OList xs) →
  list_append (VRef l) x w = (Ret (), with_objects (<[l:=OList (xs ++ [x])]> (objects w)) w).
Proof. unfold list_append. by intros ->. Qed.

Lemma py_len_list w l xs :
  objects w !! l = Some (OList xs) → py_len (VRef l) w = (Ret (length xs), w).
Proof. unfold py_len. by intros ->. Qed.

Lemma py_iter_list w l xs :
  objects w !! l = Some (OList xs) → py_iter (VRef l) w = (Ret xs, w).
Proof. unfold py_iter. by intros ->. Qed.

(** Reading leaves the world as it is. *)
Lemma getitem_pure v k w : (getitem v k w).2 = w.
Proof. unfold getitem. repeat case_match; reflexivity. Qed.

Lemma py_iter_pure v w : (py_iter v w).2 = w.
Proof. unfold py_iter. repeat case_match; reflexivity. Qed.

Lemma dict_get_pure v k dflt w : (dict_get v k dflt w).2 = w.
Proof. unfold dict_get. repeat case_match; reflexivity. Qed.

Lemma py_truthy_pure v w : (py_truthy v w).2 = w.
Proof. unfold py_truthy. repeat case_match; reflexivity. Qed.

(** Lookups in a heap after an allocation or an update in place. *)
Lemma lookup_alloc_old (h : heap) o l x :
  h !! l = Some x → (h ++ [o]) !! l = Some x.
Proof. intros H. rewrite lookup_app_l; [done|]. by eapply lookup_lt_Some. Qed.

Lemma lookup_alloc_new (h : heap) o : (h ++ [o]) !! length h = Some o.
Proof. by rewrite list_lookup_middle. Qed.

Lemma store_alloc_new (h : heap) o o' : <[length h:=o']> (h ++ [o]) = h ++ [o'].
Proof.
  replace (length h) with (length h + 0) at 1 by lia. by rewrite insert_app_r.
Qed.

Lemma lookup_store_eq (h : heap) l o x :
  h !! l = Some x → <[l:=o]> h !! l = Some o.
Proof. intros H. apply list_lookup_insert_eq. by eapply lookup_lt_Some. Qed.

Lemma lookup_store_ne (h : heap) l l' o :
  l ≠ l' → <[l:=o]> h !! l' = h !! l'.
Proof. apply list_lookup_insert_ne. Qed.

#[global] Arguments getitem : simpl never.
#[global] Arguments setitem : simpl never.
#[global] Arguments dict_get : simpl never.
#[global] Arguments dict_update : simpl never.
#[global] Arguments dict_copy : simpl never.
#[global] Arguments list_append : simpl never.
#[global] Arguments py_len : simpl never.
#[global] Arguments py_iter : simpl never.
#[global] Arguments py_truthy : simpl never.
#[global] Arguments alloc : simpl never.
#[global] Arguments store : simpl never.
#[global] Arguments bind : simpl never.

(** [heap_bounds] records that every location known to hold an object is
    below the size of its heap; [heap_lookup] then reads a location of a
    heap built by allocations and updates. *)
Ltac heap_bounds :=
  repeat match goal with
  | H : ?h !! ?l = Some _ |- _ =>
      lazymatch type of h with
      | list pyobj =>
          lazymatch goal with
          | _ : l < length h |- _ => fail
          | _ => pose proof (lookup_lt_Some h l _ H)
          end
      end
  end.

Ltac loc_neq :=
  solve [ assumption | congruence
        | heap_bounds; rewrite ?length_app, ?length_insert in *; cbn [length] in *; lia ].

Ltac heap_lookup :=
  cbn [objects self ticks draws with_objects with_self];
  repeat first
    [ eassumption
    | apply lookup_alloc_new
    | apply lookup_alloc_old
    | rewrite lookup_store_ne by loc_neq
    | eapply lookup_store_eq ].

Ltac step_with lem :=
  erewrite bind_Ret;
  [| solve [ eapply lem; first [ heap_lookup | eassumption | reflexivity | done ] ] ].

Lemma read_clock_eq {A} (clock : nat → A) w :
  read_clock clock w
  = (Ret (clock (ticks w)),
     {| objects := objects w; self := self w; ticks := S (ticks w); draws := draws w |}).
Proof. reflexivity. Qed.

Lemma draw_eq {A} (oracle : nat → A) w :
  draw oracle w
  = (Ret (oracle (draws w)),
     {| objects := objects w; self := self w; ticks := ticks w; draws := S (draws w) |}).
Proof. reflexivity. Qed.

Lemma self_state_eq w : state_manager.self_state w = (Ret (VRef (state (self w))), w).
Proof. reflexivity. Qed.

Lemma ret_eq {A} (a : A) w : ret a w = (Ret a, w).
Proof. reflexivity. Qed.

Lemma length_alloc (h : heap) o : length (h ++ [o]) = S (length h).
Proof. rewrite length_app. cbn. lia. Qed.

(** One step of a computation [bind m k w], chosen by the head of [m]. *)
Ltac step :=
  lazymatch goal with
  | |- bind ?m ?k ?w = _ =>
      lazymatch m with
      | read_clock _ => rewrite (bind_Ret m k w _ _ (read_clock_eq _ _))
      | state_manager.now _ => rewrite (bind_Ret m k w _ _ (read_clock_eq _ _))
      | agent_graph.now _ => rewrite (bind_Ret m k w _ _ (read_clock_eq _ _))
      | main_agent.now _ => rewrite (bind_Ret m k w _ _ (read_clock_eq _ _))
      | draw _ => rewrite (bind_Ret m k w _ _ (draw_eq _ _))
      | state_manager.self_state => rewrite (bind_Ret m k w _ _ (self_state_eq _))
      | ret _ => rewrite (bind_Ret m k w _ _ (ret_eq _ _))
      | alloc _ => rewrite (bind_Ret m k w _ _ (alloc_eq _ _))
      | new_list _ => rewrite (bind_Ret m k w _ _ (alloc_eq _ _))
      | new_dict _ => rewrite (bind_Ret m k w _ _ (alloc_eq _ _))
      | getitem _ _ => step_with getitem_dict
      | setitem _ _ _ => step_with setitem_dict
      | dict_get _ _ _ => step_with dict_get_dict
      | dict_update _ _ => step_with dict_update_dict
      | dict_copy _ => step_with dict_copy_dict
      | list_append _ _ => step_with list_append_list
      | py_len _ => step_with py_len_list
      | py_iter _ => step_with py_iter_list
      end
  end;
  cbn [objects self ticks draws with_objects with_self].

(** ** Equations of the mutators of the store *)

Section store_equations.

Variable clock : nat → string.

Import state_manager.

Lemma touch_eq w d :
  state_dict w = Some d →
  touch clock w =
    (Ret (), {| objects := <[state (self w) :=
                               ODict (<["last_update" := VStr (clock (ticks w))]> d)]>
                           (objects w);
                self := self w; ticks := S (ticks w); draws := draws w |}).
Proof.
  unfold state_dict, dict_of. intros H.
  destruct (objects w !! state (self w)) as [[|d']|] eqn:E; simplify_eq.
  unfold touch. do 2 step.
  erewrite setitem_dict by heap_lookup. reflexivity.
Qed.

Lemma update_mission_phase_eq w d phase :
  objects w !! state (self w) = Some (ODict d) →
  update_mission_phase clock phase w =
    (Ret (),
     {| objects :=
          <[state (self w) :=
              ODict (<["last_update" := VStr (clock (ticks w))]>
                     (<["mission_phase" := VEnum (Phase phase)]> d))]> (objects w);
        self := self w; ticks := S (ticks w); draws := draws w |}).
Proof.
  intros Hst. unfold update_mission_phase. do 2 step.
  erewrite touch_eq.
  2:{ unfold state_dict, dict_of. cbn [objects self with_objects].
      erewrite lookup_store_eq; [reflexivity|]. heap_lookup. }
  cbn [objects self ticks draws with_objects with_self].
  by rewrite list_insert_insert_eq.
Qed.

Lemma append_to_eq w d key l xs v :
  objects w !! state (self w) = Some (ODict d) →
  d !! key = Some (VRef l) →
  objects w !! l = Some (OList xs) →
  append_to clock key v w =
    (Ret (),
     {| objects :=
          <[state (self w) := ODict (<["last_update" := VStr (clock (ticks w))]> d)]>
          (<[l := OList (xs ++ [v])]> (objects w));
        self := self w; ticks := S (ticks w); draws := draws w |}).
Proof.
  intros Hst Hd Hl.
  assert (l ≠ state (self w)) by congruence.
  unfold append_to. do 3 step.
  erewrite touch_eq.
  2:{ unfold state_dict, dict_of. cbn [objects self with_objects].
      rewrite lookup_store_ne by done. by rewrite Hst. }
  reflexivity.
Qed.

Lemma add_satellite_eq w d ls sats s :
  objects w !! state (self w) = Some (ODict d) →
  d !! "satellites" = Some (VRef ls) →
  objects w !! ls = Some (OList sats) →
  add_satellite clock s w =
    (Ret (),
     {| objects :=
          <[state (self w) :=
              ODict (<["last_update" := VStr (clock (ticks w))]>
                     (<["satellite_count" :=
                          VInt (Z.of_nat (length (sats ++ [VRef (length (objects w))])))]> d))]>
          (<[ls := OList (sats ++ [VRef (length (objects w))])]>
           (objects w ++ [ODict (satellite_dict s)]));
        self := self w; ticks := S (ticks w); draws := draws w |}).
Proof.
  intros Hst Hd Hls.
  assert (ls ≠ state (self w)) by congruence.
  unfold add_satellite, asdict_Satellite, new_dict.
  rewrite (bind_Ret _ _ _ _ _ (alloc_eq _ _)).
  do 8 step.
  erewrite touch_eq.
  2:{ unfold state_dict, dict_of. cbn [objects self with_objects].
      erewrite lookup_store_eq; [reflexivity|]. heap_lookup. }
  cbn [objects self ticks draws with_objects with_self].
  rewrite list_insert_insert_eq, store_alloc_new. reflexivity.
Qed.

End store_equations.

(** ** The shape of the store is kept *)

Lemma satellite_record_alloc h st o v :
  satellite_record h st v → satellite_record (h ++ [o]) st v.
Proof.
  intros (l & dl & -> & Hl & Hid & Hne). exists l, dl.
  eauto using lookup_alloc_old.
Qed.

Lemma shape_alloc h st o : shape h st → shape (h ++ [o]) st.
Proof.
  intros (d & ls & sats & Hst & Hd & Hls & Hn & Hlists & Hdicts & Hsats).
  exists d, ls, sats. repeat split; eauto using lookup_alloc_old.
  - intros k Hk. destruct (Hlists k Hk) as (l & xs & ? & ? & ?).
    exists l, xs. eauto using lookup_alloc_old.
  - intros k Hk. destruct (Hdicts k Hk) as (l & dd & ? & ? & ?).
    exists l, dd. eauto using lookup_alloc_old.
  - eapply Forall_impl; [exact Hsats|]. eauto using satellite_record_alloc.
Qed.

(** Updating a list other than the satellite list. *)
Lemma shape_store_list h st d ls l xs xs' :
  shape h st →
  h !! st = Some (ODict d) → d !! "satellites" = Some (VRef ls) → l ≠ ls →
  h !! l = Some (OList xs) →
  shape (<[l:=OList xs']> h) st.
Proof.
  intros (d0 & ls0 & sats & Hst & Hd & Hls & Hn & Hlists & Hdicts & Hsats) Hst' Hd' Hne Hl.
  assert (d0 = d) as -> by congruence. assert (ls0 = ls) as -> by congruence.
  assert (l ≠ st) by congruence.
  exists d, ls, sats. repeat split; auto.
  - by rewrite lookup_store_ne.
  - by rewrite lookup_store_ne.
  - intros k Hk. destruct (Hlists k Hk) as (l' & ys & ? & ? & ?).
    destruct (decide (l = l')) as [<-|].
    + exists l, xs'. split_and!; auto. eapply lookup_store_eq; eauto.
    + exists l', ys. split_and!; auto. by rewrite lookup_store_ne.
  - intros k Hk. destruct (Hdicts k Hk) as (l' & dd & ? & ? & ?).
    exists l', dd. split_and!; auto. rewrite lookup_store_ne; [done|congruence].
  - eapply Forall_impl; [exact Hsats|].
    intros v (l' & dl & -> & ? & ? & ?). exists l', dl. split_and!; auto.
    rewrite lookup_store_ne; [done|congruence].
Qed.

(** Updating a dict other than the state, keeping its ["id"] if it has
    one. *)
Lemma shape_store_dict h st l dd dd' :
  shape h st → l ≠ st → h !! l = Some (ODict dd) →
  (is_Some (dd !! "id") → is_Some (dd' !! "id")) →
  shape (<[l:=ODict dd']> h) st.
Proof.
  intros (d & ls & sats & Hst & Hd & Hls & Hn & Hlists & Hdicts & Hsats) Hne Hl Hid.
  exists d, ls, sats. repeat split; auto.
  - by rewrite lookup_store_ne.
  - rewrite lookup_store_ne; [done|congruence].
  - intros k Hk. destruct (Hlists k Hk) as (l' & ys & ? & ? & ?).
    exists l', ys. split_and!; auto. rewrite lookup_store_ne; [done|congruence].
  - intros k Hk. destruct (Hdicts k Hk) as (l' & dd0 & ? & ? & ?).
    destruct (decide (l = l')) as [<-|].
    + exists l, dd'. split_and!; auto. eapply lookup_store_eq; eauto.
    + exists l', dd0. split_and!; auto. by rewrite lookup_store_ne.
  - eapply Forall_impl; [exact Hsats|].
    intros v (l' & dl & -> & ? & ? & ?).
    destruct (decide (l = l')) as [<-|].
    + exists l, dd'. split_and!; auto; [eapply lookup_store_eq; eauto|].
      apply Hid. congruence.
    + exists l', dl. split_and!; auto. by rewrite lookup_store_ne.
Qed.

(** Rebinding a field of the state that is none of the collections nor
    the satellite count. *)
Lemma shape_store_state h st d k v :
  shape h st → h !! st = Some (ODict d) →
  k ∉ list_keys → k ∉ dict_keys → k ≠ "satellite_count" →
  shape (<[st:=ODict (<[k:=v]> d)]> h) st.
Proof.
  intros (d0 & ls & sats & Hst & Hd & Hls & Hn & Hlists & Hdicts & Hsats) Hst' Hk1 Hk2 Hk3.
  assert (d0 = d) as -> by congruence.
  assert (ls ≠ st) by congruence.
  assert (k ≠ "satellites") by (intros ->; apply Hk1; set_solver).
  exists (<[k:=v]> d), ls, sats. repeat split; auto.
  - eapply lookup_store_eq; eauto.
  - by rewrite lookup_insert_ne.
  - by rewrite lookup_store_ne.
  - by rewrite lookup_insert_ne.
  - intros k' Hk'. destruct (Hlists k' Hk') as (l' & ys & ? & ? & ?).
    exists l', ys. split_and!; auto.
    + rewrite lookup_insert_ne; [done|]. by intros ->.
    + rewrite lookup_store_ne; [done|congruence].
  - intros k' Hk'. destruct (Hdicts k' Hk') as (l' & dd0 & ? & ? & ?).
    exists l', dd0. split_and!; auto.
    + rewrite lookup_insert_ne; [done|]. by intros ->.
    + by rewrite lookup_store_ne.
  - eapply Forall_impl; [exact Hsats|].
    intros v' (l' & dl & -> & ? & ? & ?). exists l', dl. split_and!; auto.
    by rewrite lookup_store_ne.
Qed.

(** What [add_satellite] does to the heap: a record joins the satellite
    list and the count follows. *)
Lemma shape_add_satellite h st d ls sats l :
  shape h st →
  h !! st = Some (ODict d) → d !! "satellites" = Some (VRef ls) →
  h !! ls = Some (OList sats) →
  satellite_record h st (VRef l) →
  shape (<[st:=ODict (<["satellite_count":=VInt (Z.of_nat (length (sats ++ [VRef l])))]> d)]>
           (<[ls:=OList (sats ++ [VRef l])]> h)) st.
Proof.
  intros (d0 & ls0 & sats0 & Hst & Hd & Hls & Hn & Hlists & Hdicts & Hsats) Hst' Hd' Hls' Hrec.
  assert (d0 = d) as -> by congruence. assert (ls0 = ls) as -> by congruence.
  assert (sats0 = sats) as -> by congruence.
  assert (ls ≠ st) by congruence.
  assert (Hls2 : <[ls:=OList (sats ++ [VRef l])]> h !! ls = Some (OList (sats ++ [VRef l])))
    by (eapply lookup_store_eq; eauto).
  exists (<["satellite_count":=VInt (Z.of_nat (length (sats ++ [VRef l])))]> d), ls,
    (sats ++ [VRef l]).
  repeat split; auto.
  - eapply lookup_store_eq. rewrite lookup_store_ne; eauto.
  - by rewrite lookup_insert_ne.
  - by rewrite lookup_store_ne.
  - by rewrite lookup_insert_eq.
  - intros k Hk. destruct (Hlists k Hk) as (l' & ys & ? & ? & ?).
    assert (k ≠ "satellite_count") by (intros ->; set_solver).
    destruct (decide (l' = ls)) as [->|].
    + exists ls, (sats ++ [VRef l]). split_and!; auto.
      * by rewrite lookup_insert_ne.
      * by rewrite lookup_store_ne.
    + exists l', ys. split_and!; auto.
      * by rewrite lookup_insert_ne.
      * rewrite lookup_store_ne by congruence. by rewrite lookup_store_ne.
  - intros k Hk. destruct (Hdicts k Hk) as (l' & dd0 & ? & ? & ?).
    assert (k ≠ "satellite_count") by (intros ->; set_solver).
    exists l', dd0. split_and!; auto.
    + by rewrite lookup_insert_ne.
    + rewrite lookup_store_ne by done. rewrite lookup_store_ne; [done|congruence].
  - apply Forall_app. split; [|apply Forall_singleton];
      [eapply Forall_impl; [exact Hsats|]; intros v Hv | ];
      match goal with
      | H : satellite_record _ _ _ |- _ =>
          destruct H as (l' & dl & -> & ? & ? & ?); exists l', dl; split_and!; auto;
          rewrite lookup_store_ne by done; rewrite lookup_store_ne; [done|congruence]
      end.
Qed.

(** ** A new store *)

Section init.

Variable clock : nat → string.
Variable uuid4 : nat → string.

Import state_manager.

Lemma _initialize_state_eq w0 :
  _initialize_state clock uuid4 w0 =
  (Ret (VRef (length (objects w0) + 22)),
   {| objects := objects w0 ++ initial_objects ++
        [ODict (initial_fields (uuid4 (draws w0)) (clock (ticks w0)) (clock (S (ticks w0)))
                  (length (objects w0)))];
      self := self w0; ticks := S (S (ticks w0)); draws := S (draws w0) |}).
Proof.
  unfold _initialize_state.
  do 25 step.
  unfold new_dict. rewrite alloc_eq.
  cbn [objects self ticks draws with_objects with_self].
  rewrite !length_alloc. rewrite <- !app_assoc. cbn [app].
  unfold initial_fields, initial_objects.
  rewrite !(Nat.add_comm (length (objects w0))). cbn [Nat.add].
  reflexivity.
Qed.

Lemma __init___eq w0 :
  __init__ clock uuid4 w0 =
  (Ret (),
   {| objects := objects w0 ++ initial_objects ++
        [ODict (initial_fields (uuid4 (draws w0)) (clock (ticks w0)) (clock (S (ticks w0)))
                  (length (objects w0)))];
      self := {| state := length (objects w0) + 22; state_history := [];
                 max_history_size := 100 |};
      ticks := S (S (ticks w0)); draws := S (draws w0) |}).
Proof.
  unfold __init__. rewrite (bind_Ret _ _ _ _ _ (_initialize_state_eq w0)). reflexivity.
Qed.

Lemma lookup_app_plus (h : heap) os i : (h ++ os) !! (length h + i) = os !! i.
Proof. rewrite lookup_app_r by lia. f_equal. lia. Qed.

Lemma lookup_app_plus0 (h : heap) os : (h ++ os) !! (length h) = os !! 0.
Proof. rewrite <- (lookup_app_plus h os 0). f_equal. lia. Qed.

Lemma shape_initial (h : heap) mission_id start_time last_update :
  shape (h ++ initial_objects
           ++ [ODict (initial_fields mission_id start_time last_update (length h))])
        (length h + 22).
Proof.
  exists (initial_fields mission_id start_time last_update (length h)), (length h), [].
  split_and!.
  - by rewrite lookup_app_plus.
  - reflexivity.
  - by rewrite lookup_app_plus0.
  - reflexivity.
  - intros k Hk. unfold list_keys in Hk.
    repeat (apply elem_of_cons in Hk as [->|Hk]); [..|by apply elem_of_nil in Hk].
    + exists (length h), []. split_and!; [reflexivity|by rewrite lookup_app_plus0|done].
    + exists (length h + 1), []. split_and!; [reflexivity|by rewrite lookup_app_plus|lia].
    + exists (length h + 3), []. split_and!; [reflexivity|by rewrite lookup_app_plus|lia].
    + exists (length h + 9), []. split_and!; [reflexivity|by rewrite lookup_app_plus|lia].
    + exists (length h + 14), []. split_and!; [reflexivity|by rewrite lookup_app_plus|lia].
    + exists (length h + 12), []. split_and!; [reflexivity|by rewrite lookup_app_plus|lia].
    + exists (length h + 16), []. split_and!; [reflexivity|by rewrite lookup_app_plus|lia].
    + exists (length h + 17), []. split_and!; [reflexivity|by rewrite lookup_app_plus|lia].
  - intros k Hk. unfold dict_keys in Hk.
    repeat (apply elem_of_cons in Hk as [->|Hk]); [..|by apply elem_of_nil in Hk].
    + exists (length h + 18), ∅. split_and!; [reflexivity|by rewrite lookup_app_plus|lia].
    + exists (length h + 19), ∅. split_and!; [reflexivity|by rewrite lookup_app_plus|lia].
  - constructor.
Qed.

End init.

(** ** Every add and update operation returns and keeps the shape *)

Section store_ops.

Variable clock : nat → string.

Import state_manager.

Lemma ok_state_dict w : ok w → ∃ d, objects w !! state (self w) = Some (ODict d).
Proof. intros (d & ? & ? & ? & _). eauto. Qed.

Lemma touch_ok w :
  ok w → ∃ w', touch clock w = (Ret (), w') ∧ ok w' ∧ self w' = self w.
Proof.
  intros Hok. destruct (ok_state_dict w Hok) as [d Hd].
  eexists. split; [|split].
  - apply touch_eq. unfold state_dict, dict_of. by rewrite Hd.
  - unfold ok. cbn [objects self]. eapply shape_store_state; eauto;
      compute_done.
  - reflexivity.
Qed.

Lemma update_mission_phase_ok w phase :
  ok w → ∃ w', update_mission_phase clock phase w = (Ret (), w') ∧ ok w' ∧ self w' = self w.
Proof.
  intros Hok. destruct (ok_state_dict w Hok) as [d Hd].
  eexists. split; [|split].
  - by apply update_mission_phase_eq.
  - unfold ok. cbn [objects self].
    rewrite <- (list_insert_insert_eq (objects w) (state (self w)) _
                  (ODict (<["mission_phase":=VEnum (Phase phase)]> d))).
    eapply shape_store_state;
      [eapply shape_store_state; eauto; compute_done
      |eapply lookup_store_eq; eauto
      |compute_done|compute_done|done].
  - reflexivity.
Qed.

Lemma append_to_ok w key v :
  ok w → key ∈ list_keys → key ≠ "satellites" →
  ∃ w', append_to clock key v w = (Ret (), w') ∧ ok w' ∧ self w' = self w.
Proof.
  intros Hok Hkey Hne.
  pose proof Hok as (d & ls & sats & Hst & Hd & Hls & Hn & Hlists & Hdicts & Hsats).
  destruct (Hlists key Hkey) as (l & xs & Hk & Hl & Hlne).
  eexists. split; [|split].
  - eapply append_to_eq; eauto.
  - unfold ok. cbn [objects self].
    assert (l ≠ state (self w)) by congruence.
    eapply shape_store_state;
      [eapply shape_store_list; eauto
      |by rewrite lookup_store_ne
      |compute_done|compute_done|done].
  - reflexivity.
Qed.

Lemma ok_alloc w o : ok w → ok (with_objects (objects w ++ [o]) w).
Proof. apply shape_alloc. Qed.

Lemma add_satellite_ok w s :
  ok w → ∃ w', add_satellite clock s w = (Ret (), w') ∧ ok w' ∧ self w' = self w.
Proof.
  intros Hok.
  pose proof Hok as (d & ls & sats & Hst & Hd & Hls & Hn & Hlists & Hdicts & Hsats).
  eexists. split; [|split].
  - eapply add_satellite_eq; eauto.
  - unfold ok. cbn [objects self].
    assert (ls ≠ state (self w)) by congruence.
    set (h' := objects w ++ [ODict (satellite_dict s)]).
    set (n := length (objects w)).
    rewrite <- (list_insert_insert_eq _ (state (self w)) _
      (ODict (<["satellite_count":=VInt (Z.of_nat (length (sats ++ [VRef n])))]> d))).
    eapply shape_store_state.
    + eapply shape_add_satellite; subst h';
        eauto using shape_alloc, lookup_alloc_old.
      exists n, (satellite_dict s). split_and!; [done|apply lookup_alloc_new|by eexists|].
      subst n. heap_bounds. lia.
    + eapply lookup_store_eq. rewrite lookup_store_ne by done.
      subst h'. eauto using lookup_alloc_old.
    + compute_done.
    + compute_done.
    + done.
  - reflexivity.
Qed.


Lemma satellite_record_store_dict h st l dd dd' v :
  h !! l = Some (ODict dd) → (is_Some (dd !! "id") → is_Some (dd' !! "id")) →
  satellite_record h st v → satellite_record (<[l:=ODict dd']> h) st v.
Proof.
  intros Hl Hid (l' & dl & -> & ? & ? & ?).
  destruct (decide (l = l')) as [<-|].
  - exists l, dd'. split_and!; auto; [eapply lookup_store_eq; eauto|].
    apply Hid. congruence.
  - exists l', dl. split_and!; auto. by rewrite lookup_store_ne.
Qed.

Lemma update_satellite_loop_ok sats satellite_id updates :
  ∀ w, ok w → Forall (satellite_record (objects w) (state (self w))) sats →
  ∃ w', update_satellite_loop clock sats satellite_id updates w = (Ret (), w') ∧
        ok w' ∧ self w' = self w.
Proof.
  induction sats as [|v sats IH]; intros w Hok Hsats.
  - exists w. by split_and!.
  - apply Forall_cons in Hsats as [(l & dl & -> & Hl & [sid Hsid] & Hne) Hsats].
    cbn [update_satellite_loop].
    erewrite bind_Ret by (eapply getitem_dict; eauto).
    destruct (py_eq_str sid satellite_id); [|by apply IH].
    eexists. split; [|split].
    + do 2 step. erewrite setitem_dict by heap_lookup. reflexivity.
    + unfold ok. cbn [objects self with_objects].
      assert (Hid : is_Some (dl !! "id") → is_Some ((updates ∪ dl) !! "id")).
      { intros ?. apply lookup_union_is_Some. by right. }
      eapply shape_store_dict; [eapply shape_store_dict; eauto|done
                               |eapply lookup_store_eq; eauto|].
      intros ?. by rewrite lookup_insert_ne.
    + reflexivity.
Qed.

Lemma update_satellite_ok w satellite_id updates :
  ok w →
  ∃ w', update_satellite clock satellite_id updates w = (Ret (), w') ∧
        ok w' ∧ self w' = self w.
Proof.
  intros Hok.
  pose proof Hok as (d & ls & sats & Hst & Hd & Hls & Hn & Hlists & Hdicts & Hsats).
  destruct (update_satellite_loop_ok sats satellite_id updates w Hok Hsats)
    as (w1 & Hloop & Hok1 & Hself1).
  destruct (touch_ok w1 Hok1) as (w2 & Htouch & Hok2 & Hself2).
  exists w2. split; [|split; [done|congruence]].
  unfold update_satellite. do 3 step.
  rewrite (bind_Ret _ _ _ _ _ Hloop). done.
Qed.

Lemma update_dict_field_ok w key (u : gmap string pyval) :
  ok w → key ∈ dict_keys →
  ∃ w', (let! st := self_state in
         let! x := getitem st key in
         let! _ := dict_update x u in
         touch clock) w = (Ret (), w') ∧ ok w' ∧ self w' = self w.
Proof.
  intros Hok Hkey.
  pose proof Hok as (d & ls & sats & Hst & Hd & Hls & Hn & Hlists & Hdicts & Hsats).
  destruct (Hdicts key Hkey) as (l & dd & Hk & Hl & Hlne).
  assert (Hok1 : ok (with_objects (<[l:=ODict (u ∪ dd)]> (objects w)) w)).
  { unfold ok. cbn [objects self with_objects].
    eapply shape_store_dict; eauto.
    intros ?. apply lookup_union_is_Some. by right. }
  destruct (touch_ok _ Hok1) as (w2 & Htouch & Hok2 & Hself2).
  exists w2. split; [|split; [done|by rewrite Hself2]].
  do 3 step. done.
Qed.

Lemma update_performance_metrics_ok w metrics :
  ok w →
  ∃ w', update_performance_metrics clock metrics w = (Ret (), w') ∧ ok w' ∧ self w' = self w.
Proof. intros. apply update_dict_field_ok; [done|compute_done]. Qed.

Lemma update_system_health_ok w health :
  ok w →
  ∃ w', update_system_health clock health w = (Ret (), w') ∧ ok w' ∧ self w' = self w.
Proof. intros. apply update_dict_field_ok; [done|compute_done]. Qed.

Lemma bind_assoc {A B C} (m : M A) (k1 : A → M B) (k2 : B → M C) w :
  bind (bind m k1) k2 w = bind m (λ x, bind (k1 x) k2) w.
Proof. unfold bind. destruct (m w) as [[a|e] w']; reflexivity. Qed.

Lemma returns_ok_alloc o (k : pyval → M ()) w :
  ok w →
  (ok (with_objects (objects w ++ [o]) w) →
   returns_ok (k (VRef (length (objects w)))) (with_objects (objects w ++ [o]) w)) →
  returns_ok (bind (alloc o) k) w.
Proof.
  intros Hok Hk. destruct (Hk (ok_alloc w o Hok)) as (w' & Hrun & Hok' & Hself').
  exists w'. split; [|done]. by step.
Qed.

Lemma returns_ok_append_to w key v :
  key ∈ list_keys → key ≠ "satellites" → ok w → returns_ok (append_to clock key v) w.
Proof. intros. by apply append_to_ok. Qed.

Lemma add_collision_threat_ok w t :
  ok w → returns_ok (add_collision_threat clock t) w.
Proof.
  intros Hok. apply returns_ok_alloc; [done|].
  apply returns_ok_append_to; [compute_done|done].
Qed.

Lemma add_space_debris_ok w d :
  ok w → returns_ok (add_space_debris clock d) w.
Proof.
  intros Hok. apply returns_ok_alloc; [done|].
  apply returns_ok_append_to; [compute_done|done].
Qed.

Lemma add_decision_ok w d :
  ok w → returns_ok (add_decision clock d) w.
Proof.
  intros Hok. apply returns_ok_alloc; [done|].
  apply returns_ok_append_to; [compute_done|done].
Qed.

Lemma add_alert_ok w a :
  ok w → returns_ok (add_alert clock a) w.
Proof.
  intros Hok.
  set (w1 := with_objects (objects w ++ [ODict (alert_dict a)]) w).
  destruct (append_to_ok w1 "alerts" (VRef (length (objects w))) (ok_alloc w _ Hok))
    as (w' & Happ & Hok' & Hself'); [compute_done|done|].
  exists w'. split; [|done].
  unfold add_alert, asdict_Alert. do 2 step.
  rewrite store_alloc_new. exact Happ.
Qed.

Lemma returns_ok_ext (m m' : M ()) w : m w = m' w → returns_ok m' w → returns_ok m w.
Proof. unfold returns_ok. by intros ->. Qed.

Lemma add_orbital_data_ok w o :
  ok w → returns_ok (add_orbital_data clock o) w.
Proof.
  intros Hok. unfold add_orbital_data, asdict_OrbitalData.
  eapply returns_ok_ext; [apply bind_assoc|].
  apply returns_ok_alloc; [done|intros Hok1].
  eapply returns_ok_ext; [apply bind_assoc|].
  apply returns_ok_alloc; [done|intros Hok2].
  eapply returns_ok_ext; [apply bind_assoc|].
  apply returns_ok_alloc; [done|intros Hok3].
  apply returns_ok_alloc; [done|].
  apply returns_ok_append_to; [compute_done|done].
Qed.

Lemma add_ground_station_ok w g :
  ok w → returns_ok (add_ground_station clock g) w.
Proof.
  intros Hok. unfold add_ground_station, asdict_GroundStation.
  eapply returns_ok_ext; [apply bind_assoc|].
  apply returns_ok_alloc; [done|intros Hok1].
  eapply returns_ok_ext; [apply bind_assoc|].
  apply returns_ok_alloc; [done|intros Hok2].
  apply returns_ok_alloc; [done|].
  apply returns_ok_append_to; [compute_done|done].
Qed.

Lemma add_maintenance_task_ok w t :
  ok w → returns_ok (add_maintenance_task clock t) w.
Proof.
  intros Hok. unfold add_maintenance_task, asdict_MaintenanceTask.
  eapply returns_ok_ext; [apply bind_assoc|].
  apply returns_ok_alloc; [done|intros Hok1].
  apply returns_ok_alloc; [done|].
  apply returns_ok_append_to; [compute_done|done].
Qed.

Lemma run_op_ok w o : ok w → returns_ok (run_op clock o) w.
Proof.
  intros Hok. destruct o; cbn [run_op].
  - by apply add_satellite_ok.
  - by apply update_satellite_ok.
  - by apply add_orbital_data_ok.
  - by apply add_collision_threat_ok.
  - by apply add_ground_station_ok.
  - by apply add_space_debris_ok.
  - by apply add_maintenance_task_ok.
  - by apply add_alert_ok.
  - by apply add_decision_ok.
  - by apply update_mission_phase_ok.
  - by apply update_performance_metrics_ok.
  - by apply update_system_health_ok.
Qed.

Lemma run_ops_ok ops :
  ∀ w, ok w →
  Forall (λ r, r = Ret ()) (run_ops clock ops w).1 ∧ ok (run_ops clock ops w).2.
Proof.
  induction ops as [|o ops IH]; intros w Hok; cbn [run_ops].
  - by split.
  - destruct (run_op_ok w o Hok) as (w1 & -> & Hok1 & _).
    destruct (IH w1 Hok1) as [Hrs Hok2].
    destruct (run_ops clock ops w1) as [rs w2]. cbn in *.
    split; [by constructor|done].
Qed.

End store_ops.

Section count.

Variable clock : nat → string.
Variable uuid4 : nat → string.

Lemma ok_count w :
  ok w →
  ∃ sats, satellites_of w = Some sats ∧
          field w "satellite_count" = Some (VInt (Z.of_nat (length sats))).
Proof.
  intros (d & ls & sats & Hst & Hd & Hls & Hn & _).
  exists sats. unfold satellites_of, field, state_dict, dict_of, list_of.
  rewrite Hst. cbn. rewrite Hd, Hn. cbn. by rewrite Hls.
Qed.

(** C8: after any sequence of add and update operations on a new store,
    every one of which returns normally, the satellite count is the
    length of the satellite collection. *)
Theorem C8_satellite_count_is_length (w0 : world) (ops : list op) :
  let w := (state_manager.__init__ clock uuid4 w0).2 in
  Forall (λ r, r = Ret ()) (run_ops clock ops w).1 ∧
  ∃ sats, satellites_of (run_ops clock ops w).2 = Some sats ∧
          field (run_ops clock ops w).2 "satellite_count"
          = Some (VInt (Z.of_nat (length sats))).
Proof.
  cbv zeta. rewrite __init___eq. cbn [snd].
  edestruct (run_ops_ok clock ops) as [Hrs Hok]; [|split; [exact Hrs|exact (ok_count _ Hok)]].
  unfold ok. cbn [objects self state]. apply shape_initial.
Qed.

End count.


(** ** Adding and updating satellites *)

Section store_claims.

Variable clock : nat → string.

Import state_manager.

Lemma satellites_of_inv w sats :
  satellites_of w = Some sats →
  ∃ d ls, objects w !! state (self w) = Some (ODict d) ∧
          d !! "satellites" = Some (VRef ls) ∧ objects w !! ls = Some (OList sats).
Proof.
  unfold satellites_of, field, state_dict, dict_of, list_of.
  destruct (objects w !! state (self w)) as [[|d]|] eqn:Hst; try done. cbn.
  destruct (d !! "satellites") as [[| | | | | |ls]|] eqn:Hd; try done. cbn.
  destruct (objects w !! ls) as [[xs|]|] eqn:Hls; try done.
  intros [= <-]. eauto.
Qed.

(** C2 (amended): on a state whose satellite collection is a list,
    [add_satellite] does not fail on a duplicate id: whatever the id of
    [s], already present or not, it returns, the satellite collection is
    the former one followed by the new record of [s], the satellite count
    is its new length and [last_update] is the time of the call. *)
Theorem C2_add_satellite_always_appends (w : world) (s : Satellite) (sats : list pyval) :
  satellites_of w = Some sats →
  ∃ w', add_satellite clock s w = (Ret (), w') ∧
        satellites_of w' = Some (sats ++ [VRef (length (objects w))]) ∧
        dict_of w' (VRef (length (objects w))) = Some (satellite_dict s) ∧
        field w' "satellite_count" = Some (VInt (Z.of_nat (length sats + 1))) ∧
        field w' "last_update" = Some (VStr (clock (ticks w))).
Proof.
  intros (d & ls & Hst & Hd & Hls)%satellites_of_inv.
  assert (ls ≠ state (self w)) by congruence.
  eexists. split; [by eapply add_satellite_eq|].
  unfold satellites_of, field, state_dict, dict_of, list_of. cbn [objects self].
  erewrite lookup_store_eq by (rewrite lookup_store_ne by done; eauto using lookup_alloc_old).
  cbn. rewrite lookup_insert_ne by done. rewrite lookup_insert_ne by done.
  rewrite Hd. cbn.
  rewrite (lookup_store_ne _ _ ls) by done.
  erewrite lookup_store_eq by eauto using lookup_alloc_old.
  rewrite lookup_store_ne by (heap_bounds; lia).
  rewrite lookup_store_ne by (heap_bounds; lia).
  rewrite lookup_alloc_new.
  rewrite lookup_insert_ne by done. rewrite lookup_insert_eq, lookup_insert_eq.
  rewrite length_app. cbn [length]. done.
Qed.

Lemma bind_Ret_inv {A B} (m : M A) (k : A → M B) w b :
  (bind m k w).1 = Ret b → ∃ a w1, m w = (Ret a, w1) ∧ (k a w1).1 = Ret b.
Proof.
  unfold bind. destruct (m w) as [[a|e] w1]; [eauto|done].
Qed.

Lemma get_satellite_by_id_loop_None sats satellite_id updates w :
  (get_satellite_by_id_loop sats satellite_id w).1 = Ret VNone →
  update_satellite_loop clock sats satellite_id updates w = (Ret (), w).
Proof.
  induction sats as [|satellite sats IH]; [done|].
  cbn [get_satellite_by_id_loop update_satellite_loop].
  intros (sid & w1 & Hget & Hrest)%bind_Ret_inv.
  assert (w1 = w) as -> by (rewrite <- (getitem_pure satellite "id" w); by rewrite Hget).
  rewrite (bind_Ret _ _ _ _ _ Hget).
  destruct (py_eq_str sid satellite_id); [|by apply IH].
  cbn in Hrest. injection Hrest as ->. done.
Qed.

(** C3 (amended): for an id that [get_satellite_by_id] does not find,
    [update_satellite] raises nothing: it returns, and the only change to
    the world is the new [last_update] (and the clock reading). *)
Theorem C3_update_of_unknown_id_is_silent (w : world) (satellite_id : string)
    (updates : gmap string pyval) (d : gmap string pyval) :
  state_dict w = Some d →
  (get_satellite_by_id satellite_id w).1 = Ret VNone →
  update_satellite clock satellite_id updates w =
    (Ret (),
     {| objects := <[state (self w) :=
                       ODict (<["last_update" := VStr (clock (ticks w))]> d)]> (objects w);
        self := self w; ticks := S (ticks w); draws := draws w |}).
Proof.
  intros Hd. unfold get_satellite_by_id, update_satellite.
  intros (st & w1 & Hst & (satellites & w2 & Hsat & (sats & w3 & Hit & Hloop)%bind_Ret_inv)
          %bind_Ret_inv)%bind_Ret_inv.
  injection Hst as <- <-.
  assert (w2 = w) as -> by (rewrite <- (getitem_pure (VRef (state (self w))) "satellites" w);
                            by rewrite Hsat).
  assert (w3 = w) as -> by (rewrite <- (py_iter_pure satellites w); by rewrite Hit).
  step. rewrite (bind_Ret _ _ _ _ _ Hsat), (bind_Ret _ _ _ _ _ Hit).
  rewrite (bind_Ret _ _ _ _ _ (get_satellite_by_id_loop_None _ _ updates _ Hloop)).
  by apply touch_eq.
Qed.

End store_claims.

Lemma C2_add_satellite_always_appends_witness :
  ∃ w', state_manager.add_satellite clock0 sat001 store_with_sat001 = (Ret (), w') ∧
        satellites_of w' = Some ([VRef 23] ++ [VRef (length (objects store_with_sat001))]) ∧
        dict_of w' (VRef (length (objects store_with_sat001))) = Some (satellite_dict sat001) ∧
        field w' "satellite_count" = Some (VInt (Z.of_nat (length [VRef 23] + 1))) ∧
        field w' "last_update" = Some (VStr (clock0 (ticks store_with_sat001))).
Proof.
  apply (C2_add_satellite_always_appends clock0 store_with_sat001 sat001 [VRef 23]).
  vm_compute. reflexivity.
Defined.

(** C2 as stated fails: a satellite whose id is already in the collection
    is added again, without an error. *)
Lemma C2_duplicate_id_is_added_again :
  column store_with_sat001 "id" (default [] (satellites_of store_with_sat001))
    = [Some (VStr "SAT-001")] ∧
  (state_manager.add_satellite clock0 sat001 store_with_sat001).1 = Ret () ∧
  let w' := (state_manager.add_satellite clock0 sat001 store_with_sat001).2 in
  column w' "id" (default [] (satellites_of w'))
    = [Some (VStr "SAT-001"); Some (VStr "SAT-001")] ∧
  field w' "satellite_count" = Some (VInt 2).
Proof. vm_compute. done. Qed.

Lemma C3_update_of_unknown_id_is_silent_witness :
  state_manager.update_satellite clock0 "SAT-404" {["status" := VStr "standby"]}
    store_with_sat001 =
    (Ret (),
     {| objects := <[state (self store_with_sat001) :=
                       ODict (<["last_update" := VStr (clock0 (ticks store_with_sat001))]>
                              (default ∅ (state_dict store_with_sat001)))]>
                   (objects store_with_sat001);
        self := self store_with_sat001; ticks := S (ticks store_with_sat001);
        draws := draws store_with_sat001 |}).
Proof.
  apply (C3_update_of_unknown_id_is_silent clock0 store_with_sat001 "SAT-404").
  - vm_compute. reflexivity.
  - vm_compute. reflexivity.
Defined.

(** C3 as stated fails: updating a satellite that is not in the
    collection raises no error. *)
Lemma C3_unknown_id_raises_nothing :
  (state_manager.get_satellite_by_id "SAT-404" store_with_sat001).1 = Ret VNone ∧
  (state_manager.update_satellite clock0 "SAT-404" {["status" := VStr "standby"]}
     store_with_sat001).1 = Ret ().
Proof. vm_compute. done. Qed.

(** ** Alerts and snapshots *)

Section more_store_claims.

Variable clock : nat → string.

Import state_manager.

Lemma dict_of_inv w v d :
  dict_of w v = Some d → ∃ l, v = VRef l ∧ objects w !! l = Some (ODict d).
Proof.
  unfold dict_of. destruct v as [| | | | | |l]; try done.
  destruct (objects w !! l) as [[|d']|] eqn:E; try done. intros [= <-]. eauto.
Qed.

Lemma list_of_inv w v xs :
  list_of w v = Some xs → ∃ l, v = VRef l ∧ objects w !! l = Some (OList xs).
Proof.
  unfold list_of. destruct v as [| | | | | |l]; try done.
  destruct (objects w !! l) as [[xs'|]|] eqn:E; try done. intros [= <-]. eauto.
Qed.

Lemma self_state_history_eq w :
  self_state_history w = (Ret (state_history (self w)), w).
Proof. reflexivity. Qed.

Lemma set_self_state_history_eq hist w :
  set_self_state_history hist w
  = (Ret (), with_self {| state := state (self w); state_history := hist;
                          max_history_size := max_history_size (self w) |} w).
Proof. reflexivity. Qed.

Lemma unresolved_eq w alert :
  alert_record w alert →
  unresolved alert w = (Ret (resolved_false_or_absent w alert), w).
Proof.
  intros (d & Hd & Hres). unfold resolved_false_or_absent. rewrite Hd.
  apply dict_of_inv in Hd as (l & -> & Hl).
  unfold unresolved. step.
  destruct Hres as [->|[b ->]]; cbn [default]; [|destruct b]; reflexivity.
Qed.

Lemma filterM_unresolved alerts w :
  Forall (alert_record w) alerts →
  filterM unresolved alerts w = (Ret (List.filter (resolved_false_or_absent w) alerts), w).
Proof.
  induction 1 as [|alert alerts Ha _ IH]; [done|].
  cbn [filterM List.filter].
  rewrite (bind_Ret _ _ _ _ _ (unresolved_eq _ _ Ha)).
  rewrite (bind_Ret _ _ _ _ _ IH).
  by destruct (resolved_false_or_absent w alert).
Qed.



End more_store_claims.

Lemma alert_records_checked (w : world) (alerts : list pyval) :
  forallb (has_bool_resolved w) alerts = true → Forall (alert_record w) alerts.
Proof.
  induction alerts as [|alert alerts IH]; cbn [forallb]; [constructor|].
  intros [Ha Hrest]%andb_true_iff. constructor; [|by apply IH].
  unfold has_bool_resolved in Ha. unfold alert_record.
  destruct (dict_of w alert) as [d|]; [|done]. exists d. split; [done|].
  destruct (d !! "resolved") as [[| b | | | | |]|]; try done; eauto.
Qed.




(** ** The threat scanner *)

Module scanner_props.

Import local_tools scanner.
Local Open Scope R_scope.

Lemma Int_part_0 : Int_part 0 = 0%Z.
Proof. symmetry. apply Int_part_spec. simpl. lra. Qed.

Lemma float_mod_0 (b : R) : float_mod 0 b = 0.
Proof.
  unfold float_mod. replace (0 / b) with 0 by (unfold Rdiv; ring).
  rewrite Int_part_0. simpl. ring.
Qed.

(** At [time_delta = 0] a satellite is on the x axis, at its orbital
    radius. *)
Lemma calculate_at_0 clock_shifted sat c :
  let p := (calculate_orbital_mechanics clock_shifted sat 0 c).1 in
  x p = 6371 + Satellite_altitude sat ∧ y p = 0 ∧ z p = 0.
Proof.
  simpl.
  replace (2 * PI * 0 / _) with 0 by (unfold Rdiv; ring).
  rewrite float_mod_0, cos_0, sin_0. repeat split; ring.
Qed.

Lemma separation_altitudes sat1 sat2 :
  separation sat1 sat2 = Rabs (Satellite_altitude sat1 - Satellite_altitude sat2).
Proof.
  unfold separation, position_of.
  destruct (calculate_at_0 (λ _ _, ""%string) sat1 {| ticks := 0; draws := 0 |})
    as (-> & -> & ->).
  destruct (calculate_at_0 (λ _ _, ""%string) sat2 {| ticks := 0; draws := 0 |})
    as (-> & -> & ->).
  rewrite <- sqrt_Rsqr_abs. f_equal. unfold Rsqr. ring.
Qed.

Lemma separation_sat_at i1 a1 i2 a2 d :
  a2 - a1 = d → 0 <= d → separation (sat_at i1 a1) (sat_at i2 a2) = d.
Proof.
  intros <- Hd. rewrite separation_altitudes. cbn.
  rewrite Rabs_minus_sym. apply Rabs_right. lra.
Qed.

Section scan.

Variable clock_shifted : nat → R → string.
Variable uniform : nat → R → R → R.

Lemma scan_pair_eq sat1 sat2 threats c :
  scan_pair clock_shifted uniform sat1 sat2 threats c =
  if Rlt_dec (separation sat1 sat2) 100
  then (threats ++ [threat_of clock_shifted uniform sat1 sat2 c],
        tick (drawn (tick (tick c))))
  else (threats, tick (tick c)).
Proof.
  unfold scan_pair, threat_of. rewrite separation_altitudes.
  unfold calculate_orbital_mechanics. cbn [x y z fst snd].
  replace (2 * PI * 0 / _) with 0 by (unfold Rdiv; ring).
  replace (2 * PI * 0 / _) with 0 by (unfold Rdiv; ring).
  rewrite float_mod_0, cos_0, sin_0.
  match goal with |- context [sqrt ?e] =>
    replace (sqrt e) with (Rabs (Satellite_altitude sat1 - Satellite_altitude sat2))
  end.
  2:{ rewrite <- sqrt_Rsqr_abs. f_equal. unfold Rsqr. ring. }
  destruct (Rlt_dec _ 100); reflexivity.
Qed.

Lemma detect_pair sat1 sat2 c :
  detect_collision_threats clock_shifted uniform [sat1; sat2] c =
  if Rlt_dec (separation sat1 sat2) 100
  then ([threat_of clock_shifted uniform sat1 sat2 c], tick (drawn (tick (tick c))))
  else ([], tick (tick c)).
Proof.
  unfold detect_collision_threats. cbn [scan_all scan_rest].
  rewrite scan_pair_eq. destruct (Rlt_dec _ 100); reflexivity.
Qed.



End scan.




End scanner_props.

(** ** The phases of a mission run *)

Section graph.
Variable clock : nat → string.
Variable later : nat → Z → string.
Variable uniform : nat → Q → Q → Q.
Variable randint : nat → Z → Z → Z.

(** The graph runs its seven nodes once each, in the order of its edges. *)
Lemma ainvoke_runs_the_stages_in_order state w :
  agent_graph.ainvoke (agent_graph._build_agent_graph clock later uniform randint) state w
  = run_stages (agent_graph._build_agent_graph clock later uniform randint)
      stage_order state w.
Proof. reflexivity. Qed.

Lemma run_mission_is_its_last_prefix initial_state w :
  agent_graph.run_mission clock later uniform randint initial_state w
  = run_mission_prefix clock later uniform randint 7 initial_state w.
Proof. reflexivity. Qed.
End graph.

(** C4: on a new mission with the five default satellites every stage
    succeeds and the run ends in COMPLETED, but the phases between
    ORBITAL_CALCULATION and COMPLETED are never entered: the agent's
    [current_phase] is "orbital_calculation" after each of the seven
    stages, and the store's [mission_phase] stays INITIALIZATION until it
    becomes COMPLETED. *)
Lemma C4_phases_of_a_full_run :
  (λ k, current_phase_after k mission_ready) <$> seq 0 8
    = Some (VStr "initialization") :: replicate 7 (Some (VStr "orbital_calculation")) ∧
  (λ k, mission_phase_after k mission_ready) <$> seq 0 8
    = replicate 8 (Some (VEnum (Phase INITIALIZATION))) ∧
  (∃ report, mission_done.1 = Ret report) ∧
  field mission_done.2 "mission_phase" = Some (VEnum (Phase COMPLETED)) ∧
  field mission_done.2 "current_phase" = Some (VStr "orbital_calculation") ∧
  column mission_done.2 "agent"
    (default [] (v ← field mission_done.2 "decisions"; list_of mission_done.2 v))
    = (λ name, Some (VStr name)) <$> stage_order.
Proof.
  split_and!; try (vm_compute; reflexivity).
  eexists. vm_compute. reflexivity.
Qed.

(** ** A mission run that fails *)

Section failure.

Variable clock : nat → string.
Variable uuid4 : nat → string.
Variable is_isoformat : string → bool.
Variable elapsed : string → nat → string.
Variable later : nat → Z → string.
Variable uniform : nat → Q → Q → Q.
Variable randint : nat → Z → Z → Z.

Import state_manager.

Lemma add_alert_eq w d la xs a :
  objects w !! state (self w) = Some (ODict d) →
  d !! "alerts" = Some (VRef la) →
  objects w !! la = Some (OList xs) →
  add_alert clock a w =
    (Ret (),
     {| objects :=
          <[state (self w) := ODict (<["last_update" := VStr (clock (ticks w))]> d)]>
          (<[la := OList (xs ++ [VRef (length (objects w))])]>
           (objects w ++ [ODict (alert_dict a)]));
        self := self w; ticks := S (ticks w); draws := draws w |}).
Proof.
  intros Hst Hd Hla. unfold add_alert, asdict_Alert. do 2 step.
  rewrite store_alloc_new.
  erewrite append_to_eq; [reflexivity|cbn; eauto using lookup_alloc_old..].
Qed.

Lemma run_autonomous_mission_handler_eq w d la alerts e :
  objects w !! state (self w) = Some (ODict d) →
  d !! "alerts" = Some (VRef la) →
  objects w !! la = Some (OList alerts) →
  main_agent.run_autonomous_mission_handler clock e w =
    (Raise e,
     {| objects :=
          <[state (self w) :=
              ODict (<["last_update" := VStr (clock (S (S (ticks w))))]>
                     (<["last_update" := VStr (clock (ticks w))]>
                      (<["mission_phase" := VEnum (Phase ERROR)]> d)))]>
          (<[la := OList (alerts ++ [VRef (length (objects w))])]>
           (<[state (self w) :=
                ODict (<["last_update" := VStr (clock (ticks w))]>
                       (<["mission_phase" := VEnum (Phase ERROR)]> d))]> (objects w)
            ++ [ODict (alert_dict (error_alert e (clock (S (ticks w)))))]));
        self := self w; ticks := S (S (S (ticks w))); draws := draws w |}).
Proof.
  intros Hst Hd Hla.
  assert (la ≠ state (self w)) by congruence.
  unfold main_agent.run_autonomous_mission_handler.
  rewrite (bind_Ret _ _ _ _ _ (update_mission_phase_eq clock w d ERROR Hst)).
  step.
  erewrite (bind_Ret _ _ _ _ _ (add_alert_eq _ _ la alerts _ _ _ _)).
  - cbn [objects self ticks draws]. rewrite length_insert. reflexivity.
  Unshelve.
  + cbn [objects self]. eapply lookup_store_eq; eauto.
  + by rewrite !lookup_insert_ne.
  + cbn [objects self]. by rewrite lookup_store_ne.
Qed.


End failure.

(** * Further properties of the code *)

(** ** Looking satellites, tasks and threats up *)

Section queries.

Variable clock : nat → string.

Import state_manager.

Lemma field_list_inv w k xs :
  field_list w k = Some xs →
  ∃ d l, objects w !! state (self w) = Some (ODict d) ∧
         d !! k = Some (VRef l) ∧ objects w !! l = Some (OList xs).
Proof.
  unfold field_list, field, state_dict, dict_of, list_of.
  destruct (objects w !! state (self w)) as [[|d]|] eqn:Hst; try done. cbn.
  destruct (d !! k) as [[| | | | | |ls]|] eqn:Hd; try done. cbn.
  destruct (objects w !! ls) as [[ys|]|] eqn:Hls; try done.
  intros [= <-]. eauto.
Qed.

Lemma forallb_Forall {A} (p : A → bool) xs :
  forallb p xs = true → Forall (λ x, p x = true) xs.
Proof.
  induction xs as [|x xs IH]; cbn; [constructor|].
  intros [? ?]%andb_true_iff. constructor; auto.
Qed.

Lemma has_key_inv w k v :
  has_key w k v = true → ∃ l d x, v = VRef l ∧ objects w !! l = Some (ODict d) ∧ d !! k = Some x.
Proof.
  unfold has_key, entry. destruct (dict_of w v) as [d|] eqn:Hd; [|done]. cbn.
  apply dict_of_inv in Hd as (l & -> & Hl).
  destruct (d !! k) as [x|] eqn:Hx; [|done]. eauto 10.
Qed.

Lemma is_dict_inv w v :
  is_dict w v = true → ∃ l d, v = VRef l ∧ objects w !! l = Some (ODict d).
Proof.
  unfold is_dict. destruct (dict_of w v) as [d|] eqn:Hd; [|done].
  apply dict_of_inv in Hd as (l & -> & Hl). eauto.
Qed.

Lemma get_satellite_by_id_loop_find w satellite_id sats :
  forallb (has_key w "id") sats = true →
  get_satellite_by_id_loop sats satellite_id w
  = (Ret (default VNone (List.find (has_id w satellite_id) sats)), w).
Proof.
  intros H%forallb_Forall.
  induction H as [|v sats (l & d & x & -> & Hl & Hx)%has_key_inv _ IH]; [done|].
  cbn [get_satellite_by_id_loop List.find]. unfold has_id at 1, entry, dict_of.
  rewrite Hl. cbn. rewrite Hx.
  step. destruct (py_eq_str x satellite_id); [done|apply IH].
Qed.

(** X1: on a store whose satellite records all have an ["id"] entry,
    [get_satellite_by_id] reads the records in their order and returns the
    first one whose ["id"] is the id asked for, the record itself and not
    a copy; it returns [None] when there is none, and it changes
    nothing. *)
Theorem get_satellite_by_id_first_match (w : world) (satellite_id : string)
    (sats : list pyval) :
  satellites_of w = Some sats →
  forallb (has_key w "id") sats = true →
  get_satellite_by_id satellite_id w
  = (Ret (default VNone (List.find (has_id w satellite_id) sats)), w).
Proof.
  intros (d & ls & Hst & Hd & Hls)%satellites_of_inv Hids.
  unfold get_satellite_by_id. do 3 step.
  by apply get_satellite_by_id_loop_find.
Qed.

Lemma update_satellite_loop_first_match w satellite_id updates pre post l dl :
  forallb (λ v, has_key w "id" v && negb (has_id w satellite_id v)) pre = true →
  objects w !! l = Some (ODict dl) →
  dl !! "id" = Some (VStr satellite_id) →
  update_satellite_loop clock (pre ++ VRef l :: post) satellite_id updates w
  = (Ret (),
     {| objects := <[l := ODict (<["last_contact" := VStr (clock (ticks w))]> (updates ∪ dl))]>
                     (objects w);
        self := self w; ticks := S (ticks w); draws := draws w |}).
Proof.
  intros Hpre%forallb_Forall Hl Hid. induction Hpre as [|v pre Hv _ IH].
  - cbn [app update_satellite_loop]. step.
    unfold py_eq_str. rewrite String.eqb_refl.
    do 2 step. erewrite setitem_dict by heap_lookup.
    cbn [objects self ticks draws with_objects]. by rewrite list_insert_insert_eq.
  - cbn [app update_satellite_loop].
    apply andb_true_iff in Hv as [(l' & d & x & -> & Hl' & Hx)%has_key_inv Hne].
    unfold has_id, entry, dict_of in Hne. rewrite Hl' in Hne. cbn in Hne. rewrite Hx in Hne.
    step. apply negb_true_iff in Hne as ->. apply IH.
Qed.

(** X2: [update_satellite] changes the first record with the given id and
    no other (the loop stops there), when every record before it has an
    ["id"] entry, of another value, and the record is a dict other than
    the state itself: the entries of [updates] are merged over those of
    the record, ["last_contact"] is then set to the time of the call,
    whatever [updates] gave for it, and [last_update] is set. *)
Theorem update_satellite_changes_the_first_match (w : world) (satellite_id : string)
    (updates d dl : gmap string pyval) (pre post : list pyval) (l : loc) :
  state_dict w = Some d →
  satellites_of w = Some (pre ++ VRef l :: post) →
  forallb (λ v, has_key w "id" v && negb (has_id w satellite_id v)) pre = true →
  objects w !! l = Some (ODict dl) →
  dl !! "id" = Some (VStr satellite_id) →
  l ≠ state (self w) →
  update_satellite clock satellite_id updates w
  = (Ret (),
     {| objects :=
          <[state (self w) := ODict (<["last_update" := VStr (clock (S (ticks w)))]> d)]>
          (<[l := ODict (<["last_contact" := VStr (clock (ticks w))]> (updates ∪ dl))]>
             (objects w));
        self := self w; ticks := S (S (ticks w)); draws := draws w |}).
Proof.
  intros Hd (d' & ls & Hst & Hsats & Hls)%satellites_of_inv Hpre Hl Hid Hne.
  unfold state_dict in Hd. apply dict_of_inv in Hd as (? & [= <-] & Hst').
  assert (d' = d) as -> by congruence.
  unfold update_satellite. do 3 step.
  rewrite (bind_Ret _ _ _ _ _
             (update_satellite_loop_first_match _ _ updates _ _ _ _ Hpre Hl Hid)).
  erewrite touch_eq; [reflexivity|].
  unfold state_dict, dict_of. cbn [objects self].
  rewrite lookup_store_ne by done. by rewrite Hst.
Qed.

Lemma filterM_pure {A} (f : A → M bool) (p : A → bool) w xs :
  Forall (λ x, f x w = (Ret (p x), w)) xs →
  filterM f xs w = (Ret (List.filter p xs), w).
Proof.
  induction 1 as [|x xs Hx _ IH]; [done|].
  cbn [filterM List.filter].
  rewrite (bind_Ret _ _ _ _ _ Hx), (bind_Ret _ _ _ _ _ IH).
  by destruct (p x).
Qed.

(** X3: [get_high_priority_tasks] returns a new list of the maintenance
    tasks, in their order, whose ["priority"] is the string "HIGH" and
    whose ["status"] is not the string "completed"; a task of any other
    priority ("CRITICAL" too) or without a priority is left out, and the
    store is not changed. *)
Theorem get_high_priority_tasks_are_high_and_open (w : world) (tasks : list pyval) :
  field_list w "maintenance_tasks" = Some tasks →
  forallb (is_dict w) tasks = true →
  get_high_priority_tasks w
  = (Ret (VRef (length (objects w))),
     with_objects (objects w ++ [OList (List.filter (high_priority_open w) tasks)]) w).
Proof.
  intros (d & l & Hst & Hd & Hl)%field_list_inv Htasks%forallb_Forall.
  unfold get_high_priority_tasks. do 3 step.
  lazymatch goal with
  | |- bind (filterM ?f _) _ _ = _ =>
      assert (Hf : filterM f tasks w = (Ret (List.filter (high_priority_open w) tasks), w))
  end; [|by rewrite (bind_Ret _ _ _ _ _ Hf)].
  apply filterM_pure.
  eapply Forall_impl; [exact Htasks|]. intros task (lt & dt & -> & Hlt)%is_dict_inv.
  unfold high_priority_open, dict_of. rewrite Hlt.
  step. destruct (dt !! "priority") as [[| | | |p| |]|];
    cbn [from_option Datatypes.id py_eq_str]; try done.
  destruct (String.eqb p "HIGH"); [|done]. cbv beta iota. step.
  destruct (dt !! "status") as [[| | | |s| |]|]; cbn [from_option Datatypes.id py_eq_str]; done.
Qed.

(** X4: [get_collision_risks] returns a new list of the collision
    threats, in their order, whose ["risk_level"] is the string "HIGH" or
    "CRITICAL"; a threat without a risk level is left out, and the store is
    not changed. *)
Theorem get_collision_risks_are_high_or_critical (w : world) (threats : list pyval) :
  field_list w "collision_threats" = Some threats →
  forallb (is_dict w) threats = true →
  get_collision_risks w
  = (Ret (VRef (length (objects w))),
     with_objects (objects w ++ [OList (List.filter (high_risk w) threats)]) w).
Proof.
  intros (d & l & Hst & Hd & Hl)%field_list_inv Hthreats%forallb_Forall.
  unfold get_collision_risks. do 3 step.
  lazymatch goal with
  | |- bind (filterM ?f _) _ _ = _ =>
      assert (Hf : filterM f threats w = (Ret (List.filter (high_risk w) threats), w))
  end; [|by rewrite (bind_Ret _ _ _ _ _ Hf)].
  apply filterM_pure.
  eapply Forall_impl; [exact Hthreats|]. intros threat (lt & dt & -> & Hlt)%is_dict_inv.
  unfold high_risk, dict_of. rewrite Hlt.
  step. destruct (dt !! "risk_level") as [[| | | |p| |]|];
    cbn [from_option Datatypes.id py_eq_str]; done.
Qed.

End queries.

(** A value that is there is its own default, and a dict of the heap is
    the dict read at its location. *)
Lemma Some_default {A} (x : option A) (a : A) :
  match x with Some _ => true | None => false end = true → x = Some (default a x).
Proof. by destruct x. Qed.

Lemma heap_dict_default (w : world) (l : loc) :
  is_dict w (VRef l) = true →
  objects w !! l = Some (ODict (default ∅ (dict_of w (VRef l)))).
Proof.
  unfold is_dict, dict_of. by destruct (objects w !! l) as [[xs|d]|].
Qed.

Lemma get_satellite_by_id_first_match_witness :
  state_manager.get_satellite_by_id "SAT-003" mission_ready
  = (Ret (default VNone
            (List.find (has_id mission_ready "SAT-003")
               [VRef 26; VRef 27; VRef 28; VRef 29; VRef 30])),
     mission_ready).
Proof.
  apply (get_satellite_by_id_first_match mission_ready "SAT-003").
  - vm_compute. reflexivity.
  - vm_compute. reflexivity.
Defined.

Lemma update_satellite_changes_the_first_match_witness :
  state_manager.update_satellite clock0 "SAT-002" {["battery_level" := VInt 50]} mission_ready
  = (Ret (),
     {| objects :=
          <[state (self mission_ready) :=
              ODict (<["last_update" := VStr (clock0 (S (ticks mission_ready)))]>
                       (default ∅ (state_dict mission_ready)))]>
          (<[27 := ODict (<["last_contact" := VStr (clock0 (ticks mission_ready))]>
                            ({["battery_level" := VInt 50]}
                             ∪ default ∅ (dict_of mission_ready (VRef 27))))]>
             (objects mission_ready));
        self := self mission_ready; ticks := S (S (ticks mission_ready));
        draws := draws mission_ready |}).
Proof.
  apply (update_satellite_changes_the_first_match clock0 mission_ready "SAT-002"
           {["battery_level" := VInt 50]} (default ∅ (state_dict mission_ready))
           (default ∅ (dict_of mission_ready (VRef 27)))
           [VRef 26] [VRef 28; VRef 29; VRef 30] 27).
  - apply Some_default. vm_compute. reflexivity.
  - vm_compute. reflexivity.
  - vm_compute. reflexivity.
  - apply heap_dict_default. vm_compute. reflexivity.
  - vm_compute. reflexivity.
  - vm_compute. lia.
Defined.

(** ** A mission run that fails in its third stage *)

Lemma raised_outcome {A} (r : outcome A * world) :
  match r.1 with Raise _ => true | Ret _ => false end = true →
  r = (Raise (raised_exn r.1), r.2).
Proof. destruct r as [[a|e] w]; [discriminate|done]. Qed.



Lemma get_high_priority_tasks_are_high_and_open_witness :
  state_manager.get_high_priority_tasks store_with_tasks
  = (Ret (VRef (length (objects store_with_tasks))),
     with_objects
       (objects store_with_tasks
        ++ [OList (List.filter (high_priority_open store_with_tasks)
                     [VRef 24; VRef 26; VRef 28; VRef 30])])
       store_with_tasks).
Proof.
  apply (get_high_priority_tasks_are_high_and_open store_with_tasks).
  - vm_compute. reflexivity.
  - vm_compute. reflexivity.
Defined.

Lemma get_collision_risks_are_high_or_critical_witness :
  state_manager.get_collision_risks store_with_threats
  = (Ret (VRef (length (objects store_with_threats))),
     with_objects
       (objects store_with_threats
        ++ [OList (List.filter (high_risk store_with_threats)
                     [VRef 23; VRef 24; VRef 25; VRef 26])])
       store_with_threats).
Proof.
  apply (get_collision_risks_are_high_or_critical store_with_threats).
  - vm_compute. reflexivity.
  - vm_compute. reflexivity.
Defined.

(** ** Resetting the store, and its history *)

Section reset.

Variable clock : nat → string.
Variable uuid4 : nat → string.

Import state_manager.

(** Every collection a new state refers to is empty. *)
Lemma initial_fields_refer_to_empty (h : heap) mission_id start_time last_update k l :
  initial_fields mission_id start_time last_update (length h) !! k = Some (VRef l) →
  (h ++ initial_objects
     ++ [ODict (initial_fields mission_id start_time last_update (length h))]) !! l
  = Some (OList []) ∨
  (h ++ initial_objects
     ++ [ODict (initial_fields mission_id start_time last_update (length h))]) !! l
  = Some (ODict ∅).
Proof.
  unfold initial_fields at 1. cbn [list_to_map foldr fst snd uncurry].
  intros H.
  repeat (apply lookup_insert_Some in H as [[_ H]|[_ H]];
          [first [ discriminate H
                 | injection H as <-;
                   rewrite ?lookup_app_plus, ?lookup_app_plus0; cbn; by auto ]|]).
  by rewrite lookup_empty in H.
Qed.

(** X5: [reset_state] never fails, whatever the store holds: the state
    becomes a new state as [__init__] makes it (a new mission id and start
    time, phase INITIALIZATION, count 0), made of new objects only, so
    that every collection it refers to is empty; the history is emptied,
    the capacity of the history is kept, and no object of the old state
    is changed. *)
Theorem reset_state_gives_a_new_state (w : world) :
  ∃ w', reset_state clock uuid4 w = (Ret (), w') ∧
        ok w' ∧
        state_history (self w') = [] ∧
        max_history_size (self w') = max_history_size (self w) ∧
        objects w'
          = objects w ++ initial_objects
            ++ [ODict (initial_fields (uuid4 (draws w)) (clock (ticks w))
                         (clock (S (ticks w))) (length (objects w)))] ∧
        state (self w') = length (objects w) + 22 ∧
        state_dict w'
          = Some (initial_fields (uuid4 (draws w)) (clock (ticks w)) (clock (S (ticks w)))
                    (length (objects w))) ∧
        satellites_of w' = Some [] ∧
        (∀ k l, field w' k = Some (VRef l) →
                objects w' !! l = Some (OList []) ∨ objects w' !! l = Some (ODict ∅)) ∧
        (∀ l o, objects w !! l = Some o → objects w' !! l = Some o).
Proof.
  eexists. split.
  { unfold reset_state. rewrite (bind_Ret _ _ _ _ _ (_initialize_state_eq clock uuid4 w)).
    reflexivity. }
  cbn [objects self with_self state state_history max_history_size].
  assert (Hst : (objects w ++ initial_objects
                   ++ [ODict (initial_fields (uuid4 (draws w)) (clock (ticks w))
                                (clock (S (ticks w))) (length (objects w)))])
                !! (length (objects w) + 22)
                = Some (ODict (initial_fields (uuid4 (draws w)) (clock (ticks w))
                                 (clock (S (ticks w))) (length (objects w))))).
  { by rewrite lookup_app_plus. }
  split_and!; try reflexivity.
  - unfold ok. cbn [objects self state with_self]. apply shape_initial.
  - unfold state_dict, dict_of. cbn [objects self state with_self]. by rewrite Hst.
  - unfold satellites_of, field, state_dict, dict_of, list_of.
    cbn [objects self state with_self]. rewrite Hst.
    cbn [mbind option_bind].
    lazymatch goal with
    | |- context [initial_fields ?a ?b ?c ?n !! "satellites"] =>
        change (initial_fields a b c n !! "satellites") with (Some (VRef n))
    end.
    cbn [mbind option_bind]. by rewrite lookup_app_plus0.
  - intros k l. unfold field, state_dict, dict_of.
    cbn [objects self state with_self]. rewrite Hst. cbn [mbind option_bind].
    apply initial_fields_refer_to_empty.
  - intros l o Hl. cbn [objects with_self]. rewrite lookup_app_l; [done|].
    by eapply lookup_lt_Some.
Qed.

Lemma is_dict_alloc w o v :
  is_dict w v = true → is_dict (with_objects (objects w ++ [o]) w) v = true.
Proof.
  intros (l & d & -> & Hl)%is_dict_inv. unfold is_dict, dict_of. cbn [objects with_objects].
  by rewrite (lookup_alloc_old _ _ _ _ Hl).
Qed.

Lemma dict_of_alloc w o v :
  is_dict w v = true → dict_of (with_objects (objects w ++ [o]) w) v = dict_of w v.
Proof.
  intros (l & d & -> & Hl)%is_dict_inv. unfold dict_of. cbn [objects with_objects].
  by rewrite (lookup_alloc_old _ _ _ _ Hl), Hl.
Qed.

Lemma traverse_dict_copy hist :
  ∀ w, forallb (is_dict w) hist = true →
  traverse dict_copy hist w
  = (Ret (VRef <$> seq (length (objects w)) (length hist)),
     with_objects (objects w ++ ((λ v, ODict (default ∅ (dict_of w v))) <$> hist)) w).
Proof.
  induction hist as [|v hist IH]; intros w Hall.
  - cbn. rewrite app_nil_r. by destruct w.
  - cbn [forallb] in Hall. apply andb_true_iff in Hall as [Hv Hall].
    pose proof Hv as (l & d & -> & Hl)%is_dict_inv.
    cbn [traverse]. step.
    assert (Hall' : forallb (is_dict (with_objects (objects w ++ [ODict d]) w)) hist = true).
    { apply forallb_forall. intros x Hx. apply is_dict_alloc.
      by eapply forallb_forall in Hall. }
    assert (Hmap : (λ v, ODict (default ∅ (dict_of (with_objects (objects w ++ [ODict d]) w) v)))
                     <$> hist
                   = (λ v, ODict (default ∅ (dict_of w v))) <$> hist).
    { apply list_fmap_ext. intros i x Hx. rewrite dict_of_alloc; [done|].
      eapply forallb_forall in Hall; [exact Hall|]. apply list_elem_of_In.
      by eapply list_elem_of_lookup_2. }
    rewrite (bind_Ret _ _ _ _ _ (IH _ Hall')), Hmap, ret_eq.
    cbn [objects with_objects self ticks draws length seq fmap list_fmap].
    rewrite length_alloc, <- app_assoc. cbn [app].
    unfold dict_of at 2. rewrite Hl. reflexivity.
Qed.

(** X6: [get_state_history] returns one new dict for every snapshot of the
    history, in their order, with the entries of the snapshot; the
    snapshots and the store are left as they are, so a change made to a
    returned dict does not reach the history. *)
Theorem get_state_history_returns_copies (w : world) :
  forallb (is_dict w) (state_history (self w)) = true →
  get_state_history w
  = (Ret (VRef <$> seq (length (objects w)) (length (state_history (self w)))),
     with_objects
       (objects w ++ ((λ v, ODict (default ∅ (dict_of w v))) <$> state_history (self w))) w).
Proof.
  intros Hall. unfold get_state_history.
  rewrite (bind_Ret _ _ _ _ _ (self_state_history_eq w)).
  by apply traverse_dict_copy.
Qed.

End reset.

Lemma get_state_history_returns_copies_witness :
  state_manager.get_state_history store_with_history
  = (Ret (VRef <$> seq (length (objects store_with_history))
                       (length (state_history (self store_with_history)))),
     with_objects
       (objects store_with_history
        ++ ((λ v, ODict (default ∅ (dict_of store_with_history v)))
              <$> state_history (self store_with_history)))
       store_with_history).
Proof.
  apply (get_state_history_returns_copies store_with_history).
  vm_compute. reflexivity.
Defined.

(** ** The tools: threats and maintenance *)

Module tools_props.

Import local_tools scanner tools.
Local Open Scope R_scope.

Section scan.

Variable clock_shifted : nat → R → string.
Variable uniform : nat → R → R → R.

Lemma scan_pair_summary sat1 sat2 threats c :
  let r := scan_pair clock_shifted uniform sat1 sat2 threats c in
  summary <$> r.1
  = (summary <$> threats) ++ (expected_summary <$> List.filter (closer_than 100) [(sat1, sat2)]) ∧
  (length r.1 = length threats + length (List.filter (closer_than 100) [(sat1, sat2)]))%nat ∧
  (local_tools.ticks r.2 + length threats = local_tools.ticks c + 2 + length r.1)%nat ∧
  (local_tools.draws r.2 + length threats = local_tools.draws c + length r.1)%nat.
Proof.
  cbv zeta. rewrite scanner_props.scan_pair_eq, scanner_props.separation_altitudes.
  cbn [List.filter]. unfold closer_than at 1 2. unfold altitude_gap at 1 2. cbn [fst snd].
  destruct (Rlt_dec _ 100); cbn [fst snd fmap list_fmap app length
    local_tools.ticks local_tools.draws tick drawn].
  - rewrite fmap_app, length_app. cbn [fmap list_fmap length].
    split_and!; [|lia..]. f_equal. unfold summary, expected_summary, threat_of.
    cbn [satellites distance risk_level fst snd].
    rewrite scanner_props.separation_altitudes. reflexivity.
  - rewrite app_nil_r. split_and!; [done|lia..].
Qed.

Lemma scan_rest_summary sat1 rest : ∀ threats c,
  let r := scan_rest clock_shifted uniform sat1 rest threats c in
  summary <$> r.1
  = (summary <$> threats)
    ++ (expected_summary <$> List.filter (closer_than 100) (pair sat1 <$> rest)) ∧
  (local_tools.ticks r.2 + length threats
   = local_tools.ticks c + 2 * length rest + length r.1)%nat ∧
  (local_tools.draws r.2 + length threats = local_tools.draws c + length r.1)%nat.
Proof.
  induction rest as [|sat2 rest IH]; intros threats c; cbv zeta.
  - cbn. rewrite app_nil_r. split_and!; [done|lia..].
  - cbn [scan_rest].
    pose proof (scan_pair_summary sat1 sat2 threats c) as Hp. cbv zeta in Hp.
    destruct (scan_pair clock_shifted uniform sat1 sat2 threats c) as [threats1 c1].
    cbn [fst snd] in Hp. destruct Hp as (Hs1 & Hl1 & Ht1 & Hd1).
    specialize (IH threats1 c1). cbv zeta in IH. destruct IH as (Hs & Ht & Hd).
    rewrite Hs, Hs1. cbn [fmap list_fmap length].
    change (List.filter (closer_than 100) ((sat1, sat2) :: (pair sat1 <$> rest)))
      with (List.filter (closer_than 100) ([(sat1, sat2)] ++ (pair sat1 <$> rest))).
    rewrite List.filter_app, fmap_app, <- app_assoc.
    split_and!; [done|lia..].
Qed.

Lemma scan_all_summary sats : ∀ threats c,
  let r := scan_all clock_shifted uniform sats threats c in
  summary <$> r.1
  = (summary <$> threats)
    ++ (expected_summary <$> List.filter (closer_than 100) (pairs_in_order sats)) ∧
  (local_tools.ticks r.2 + length threats
   = local_tools.ticks c + length sats * (length sats - 1) + length r.1)%nat ∧
  (local_tools.draws r.2 + length threats = local_tools.draws c + length r.1)%nat.
Proof.
  induction sats as [|sat1 rest IH]; intros threats c; cbv zeta.
  - cbn. rewrite app_nil_r. split_and!; [done|lia..].
  - cbn [scan_all pairs_in_order].
    pose proof (scan_rest_summary sat1 rest threats c) as Hp. cbv zeta in Hp.
    destruct (scan_rest clock_shifted uniform sat1 rest threats c) as [threats1 c1].
    cbn [fst snd] in Hp. destruct Hp as (Hs1 & Ht1 & Hd1).
    specialize (IH threats1 c1). cbv zeta in IH. destruct IH as (Hs & Ht & Hd).
    rewrite Hs, Hs1, List.filter_app, fmap_app, <- app_assoc. cbn [length].
    split_and!; [done| |lia].
    replace (S (length rest) - 1)%nat with (length rest) by lia.
    destruct (length rest) as [|n] eqn:En; [cbn in *; lia|].
    replace (S n - 1)%nat with n in Ht by lia. nia.
Qed.

(** X8: for satellites whose altitudes are whole numbers of km, above
    -6371 and up to 1000000 (on these the floating-point arithmetic of
    the code is exact: the radii, their difference, its square and the
    root of that), [detect_collision_threats] examines every satellite
    with every later one of the list, in the order of the list, and emits
    a threat for exactly the pairs whose altitudes differ by less than
    100 km: the distance it records is the difference of the two
    altitudes (the longitude, latitude and inclination play no part), the
    risk level is HIGH below 50 km and MEDIUM otherwise.  It reads the
    clock twice for every pair and once more, with one random draw, for
    every threat. *)
Theorem detect_collision_threats_compares_altitudes (sats : list Satellite) (c : counters) :
  Forall whole_altitude sats →
  let r := detect_collision_threats clock_shifted uniform sats c in
  summary <$> r.1 = expected_summary <$> List.filter (closer_than 100) (pairs_in_order sats) ∧
  local_tools.ticks r.2 = (local_tools.ticks c + length sats * (length sats - 1) + length r.1)%nat ∧
  local_tools.draws r.2 = (local_tools.draws c + length r.1)%nat.
Proof.
  intros _. cbv zeta. unfold detect_collision_threats.
  pose proof (scan_all_summary sats [] c) as H. cbv zeta in H.
  destruct H as (Hs & Ht & Hd). cbn [fmap list_fmap app length] in *.
  split_and!; [done|lia..].
Qed.

End scan.

Section maintenance.

Import maintenance.

Variable clock : nat → string.
Variable clock_days : nat → Z → string.
Variable randint : nat → Z → Z → Z.
Variable uniform : nat → R → R → R.

Lemma analyse_eq s ps c :
  let r := analyse clock clock_days randint uniform s ps c in
  (satellite_id <$> r.1, priority <$> r.1)
  = ((satellite_id <$> ps) ++ (Satellite_id <$> List.filter needs_maintenance [s]),
     (priority <$> ps) ++ (priority_of <$> List.filter needs_maintenance [s])).
Proof.
  cbv zeta. unfold analyse, needs_maintenance, priority_of. cbn [List.filter].
  destruct (Rlt_dec (Satellite_battery_level s) 80) as [Hb|Hb];
    destruct (Rlt_dec (Satellite_signal_strength s) 90) as [Hs|Hs];
    cbn [orb fst snd fmap list_fmap];
    rewrite ?fmap_app, ?app_nil_r; cbn [fmap list_fmap satellite_id priority]; try done.
  all: repeat (destruct (Rlt_dec _ _); try lra); done.
Qed.

Lemma analyse_all_eq sats : ∀ ps c,
  let r := analyse_all clock clock_days randint uniform sats ps c in
  (satellite_id <$> r.1, priority <$> r.1)
  = ((satellite_id <$> ps) ++ (Satellite_id <$> List.filter needs_maintenance sats),
     (priority <$> ps) ++ (priority_of <$> List.filter needs_maintenance sats)).
Proof.
  induction sats as [|s sats IH]; intros ps c; cbv zeta.
  - cbn. by rewrite !app_nil_r.
  - cbn [analyse_all].
    pose proof (analyse_eq s ps c) as Hs. cbv zeta in Hs.
    destruct (analyse clock clock_days randint uniform s ps c) as [ps1 c1].
    cbn [fst snd] in Hs. injection Hs as Hid Hpr.
    rewrite (IH ps1 c1), Hid, Hpr.
    change (s :: sats) with ([s] ++ sats).
    by rewrite List.filter_app, !fmap_app, <- !app_assoc.
Qed.

Lemma analyse_all_priority sats ps c :
  priority <$> (analyse_all clock clock_days randint uniform sats ps c).1
  = (priority <$> ps) ++ (priority_of <$> List.filter needs_maintenance sats).
Proof. exact (f_equal snd (analyse_all_eq sats ps c)). Qed.

(** X9: [predict_satellite_maintenance] makes one prediction, in the
    order of the list, for every satellite whose battery level is below 80
    or whose signal strength is below 90, and for no other.  The priority
    is decided by the signal whenever the signal is below 90 (MEDIUM below
    85, LOW from 85 on), whatever the battery: it is HIGH only for a signal
    of at least 90 and a battery below 70. *)
Theorem predict_satellite_maintenance_priorities (sats : list Satellite) (c : counters) :
  let r := predict_satellite_maintenance clock clock_days randint uniform sats c in
  satellite_id <$> r.1 = Satellite_id <$> List.filter needs_maintenance sats ∧
  priority <$> r.1 = priority_of <$> List.filter needs_maintenance sats.
Proof.
  cbv zeta. unfold predict_satellite_maintenance.
  pose proof (analyse_all_eq sats [] c) as H. cbv zeta in H.
  injection H as Hid Hpr. done.
Qed.

(** X10: a battery below 70 does not make the priority HIGH when the
    signal is between 85 and 90: the one prediction made for such a
    satellite has the priority LOW. *)
Lemma weak_battery_and_signal_gives_low_priority (s : Satellite) (c : counters) :
  Satellite_battery_level s < 70 →
  85 <= Satellite_signal_strength s < 90 →
  priority <$> (predict_satellite_maintenance clock clock_days randint uniform [s] c).1
  = ["LOW"%string].
Proof.
  intros Hb [Hs1 Hs2]. unfold predict_satellite_maintenance.
  rewrite analyse_all_priority.
  unfold needs_maintenance, priority_of. cbn [List.filter app fmap list_fmap].
  destruct (Rlt_dec (Satellite_battery_level s) 80); [|lra]. cbn [orb fmap list_fmap].
  destruct (Rlt_dec (Satellite_signal_strength s) 85); [lra|].
  destruct (Rlt_dec (Satellite_signal_strength s) 90); [done|lra].
Qed.

End maintenance.

Lemma detect_collision_threats_compares_altitudes_witness :
  let sats := [sat_at "A" 400; sat_at "B" 440; sat_at "C" 520] in
  let r := detect_collision_threats clock_shifted0 scanner.uniform0 sats c0 in
  summary <$> r.1 = expected_summary <$> List.filter (closer_than 100) (pairs_in_order sats) ∧
  local_tools.ticks r.2
  = (local_tools.ticks c0 + length sats * (length sats - 1) + length r.1)%nat ∧
  local_tools.draws r.2 = (local_tools.draws c0 + length r.1)%nat.
Proof.
  apply (detect_collision_threats_compares_altitudes clock_shifted0 scanner.uniform0
           [sat_at "A" 400; sat_at "B" 440; sat_at "C" 520] c0).
  repeat constructor; (eexists; split; [reflexivity|lia]).
Defined.

Lemma weak_battery_and_signal_gives_low_priority_witness :
  maintenance.priority
    <$> (maintenance.predict_satellite_maintenance (λ _, ""%string) (λ _ _, ""%string)
           (λ _ a _, a) (λ _ a _, a) [sat_with "SAT-001" 60 87] c0).1
  = ["LOW"%string].
Proof.
  apply (weak_battery_and_signal_gives_low_priority (λ _, ""%string) (λ _ _, ""%string)
           (λ _ a _, a) (λ _ a _, a) (sat_with "SAT-001" 60 87) c0).
  - simpl. lra.
  - simpl. lra.
Defined.

End tools_props.

(** ** Importing a document *)

Lemma load_JArr js h :
  load (JArr js) h
  = let '(vs, h') := load_items js h in (VRef (length h'), h' ++ [OList vs]).
Proof. reflexivity. Qed.

Lemma load_JObj kvs h :
  load (JObj kvs) h
  = let '(d, h') := load_members kvs h in
    (VRef (length h'), h' ++ [ODict (list_to_map (reverse d))]).
Proof. reflexivity. Qed.

Lemma load_items_extends js :
  Forall (λ j, ∀ h, ∃ os, (load j h).2 = h ++ os) js →
  ∀ h, ∃ os, (load_items js h).2 = h ++ os ∧ length (load_items js h).1 = length js.
Proof.
  induction 1 as [|j js Hj _ IH]; intros h; cbn [load_items].
  - exists []. by rewrite app_nil_r.
  - destruct (Hj h) as [os1 H1]. destruct (load j h) as [v h1]. cbn [snd] in H1. subst h1.
    destruct (IH (h ++ os1)) as (os2 & H2 & Hlen).
    destruct (load_items js (h ++ os1)) as [vs h2]. cbn [fst snd] in *. subst h2.
    exists (os1 ++ os2). split; [by rewrite app_assoc|]. cbn [length]. by rewrite Hlen.
Qed.

Lemma load_members_extends kvs :
  Forall (λ kv, ∀ h, ∃ os, (load kv.2 h).2 = h ++ os) kvs →
  ∀ h, ∃ os, (load_members kvs h).2 = h ++ os ∧ (load_members kvs h).1.*1 = kvs.*1.
Proof.
  induction 1 as [|[k j] kvs Hj _ IH]; intros h; cbn [load_members].
  - exists []. by rewrite app_nil_r.
  - destruct (Hj h) as [os1 H1]. cbn [snd] in H1.
    destruct (load j h) as [v h1]. cbn [snd] in H1. subst h1.
    destruct (IH (h ++ os1)) as (os2 & H2 & Hkeys).
    destruct (load_members kvs (h ++ os1)) as [d h2]. cbn [fst snd] in *. subst h2.
    exists (os1 ++ os2). split; [by rewrite app_assoc|].
    rewrite !fmap_cons. cbn [fst]. by rewrite Hkeys.
Qed.

(** Loading a document adds objects to the heap and changes none. *)
Lemma load_extends j : ∀ h, ∃ os, (load j h).2 = h ++ os.
Proof.
  induction j as [| | | | |js IH|kvs IH] using json_induction; intros h.
  1-5: exists []; cbn; by rewrite app_nil_r.
  - rewrite load_JArr. destruct (load_items_extends js IH h) as (os & Hos & _).
    destruct (load_items js h) as [vs h']. cbn [snd] in *. subst h'.
    exists (os ++ [OList vs]). by rewrite app_assoc.
  - rewrite load_JObj. destruct (load_members_extends kvs IH h) as (os & Hos & _).
    destruct (load_members kvs h) as [d h']. cbn [snd] in *. subst h'.
    exists (os ++ [ODict (list_to_map (reverse d))]). by rewrite app_assoc.
Qed.

Lemma load_members_spec kvs h :
  ∃ os, (load_members kvs h).2 = h ++ os ∧ (load_members kvs h).1.*1 = kvs.*1.
Proof.
  apply load_members_extends. apply Forall_forall. intros kv _. apply load_extends.
Qed.

Lemma load_items_spec js h :
  ∃ os, (load_items js h).2 = h ++ os ∧ length (load_items js h).1 = length js.
Proof.
  apply load_items_extends. apply Forall_forall. intros kv _. apply load_extends.
Qed.

(** The value loaded for a member: a scalar gives its value, an array a
    new list of as many items. *)
Lemma load_members_lookup kvs : ∀ h k j,
  NoDup kvs.*1 → (k, j) ∈ kvs →
  ∃ h1 os, (list_to_map (reverse (load_members kvs h).1) : gmap string pyval) !! k
           = Some (load j h1).1 ∧
           (load_members kvs h).2 = (load j h1).2 ++ os ∧
           (∃ os1, h1 = h ++ os1).
Proof.
  induction kvs as [|[k0 j0] kvs IH]; intros h k j Hnd Hin; [by apply elem_of_nil in Hin|].
  cbn [fmap list_fmap fst] in Hnd. apply NoDup_cons in Hnd as [Hk0 Hnd].
  cbn [load_members].
  destruct (load_extends j0 h) as [os0 H0].
  destruct (load j0 h) as [v0 h0] eqn:E0. cbn [snd] in H0. subst h0.
  destruct (load_members_spec kvs (h ++ os0)) as (os' & Hos' & Hkeys).
  apply elem_of_cons in Hin as [[= -> ->]|Hin].
  - exists h, os'. rewrite E0. cbn [fst snd].
    destruct (load_members kvs (h ++ os0)) as [d h2]. cbn [fst snd] in *.
    split_and!; [|done|by exists []; rewrite app_nil_r].
    rewrite reverse_cons, list_to_map_snoc; [by rewrite lookup_insert_eq|].
    by rewrite fmap_reverse, elem_of_reverse, Hkeys.
  - destruct (IH (h ++ os0) k j Hnd Hin) as (h1 & os & Hlook & Hheap & os1 & ->).
    exists ((h ++ os0) ++ os1), os.
    destruct (load_members kvs (h ++ os0)) as [d h2]. cbn [fst snd] in *.
    split_and!; [|done|by exists (os0 ++ os1); rewrite app_assoc].
    rewrite reverse_cons.
    assert (Hne : k ≠ k0).
    { intros ->. apply Hk0. apply list_elem_of_fmap. by exists (k0, j). }
    rewrite list_to_map_snoc by (by rewrite fmap_reverse, elem_of_reverse, Hkeys).
    by rewrite lookup_insert_ne.
Qed.

Section import.

Variable clock : nat → string.

Import state_manager.

Lemma import_state_eq w d kvs :
  objects w !! state (self w) = Some (ODict d) →
  import_state clock (JObj kvs) w
  = (Ret (),
     {| objects :=
          <[state (self w) :=
              ODict (<["last_update" := VStr (clock (ticks w))]>
                       (list_to_map (reverse (load_members kvs (objects w)).1) ∪ d))]>
          ((load_members kvs (objects w)).2
           ++ [ODict (list_to_map (reverse (load_members kvs (objects w)).1))]);
        self := self w; ticks := S (ticks w); draws := draws w |}).
Proof.
  intros Hst. pose proof (lookup_lt_Some _ _ _ Hst) as Hlt.
  destruct (load_members_spec kvs (objects w)) as (os & Hos & _).
  unfold import_state, json_loads. unfold bind at 1. rewrite load_JObj.
  destruct (load_members kvs (objects w)) as [dl h'] eqn:E. cbn [fst snd] in *. subst h'.
  step. unfold py_update, bind at 1. cbn [objects with_objects].
  rewrite lookup_alloc_new.
  erewrite dict_update_dict.
  2:{ cbn [objects with_objects]. rewrite <- app_assoc. by apply lookup_app_l_Some. }
  cbn [objects with_objects self ticks draws].
  erewrite touch_eq;
    [cbn [objects self ticks draws with_objects]; by rewrite list_insert_insert_eq|].
  unfold state_dict, dict_of. cbn [objects self with_objects].
  rewrite list_lookup_insert_eq; [done|]. rewrite !length_app. cbn. lia.
Qed.

Lemma import_state_fields (w : world) (d : gmap string pyval)
    (kvs : list (string * json)) :
  state_dict w = Some d →
  NoDup kvs.*1 →
  ∃ w', import_state clock (JObj kvs) w = (Ret (), w') ∧
        self w' = self w ∧
        field w' "last_update" = Some (VStr (clock (ticks w))) ∧
        (∀ k, k ∉ kvs.*1 → k ≠ "last_update" → field w' k = field w k) ∧
        (∀ k j v, (k, j) ∈ kvs → scalar j = Some v → k ≠ "last_update" →
                  field w' k = Some v) ∧
        (∀ l o, objects w !! l = Some o → l ≠ state (self w) → objects w' !! l = Some o).
Proof.
  intros Hd Hnd. unfold state_dict in Hd. apply dict_of_inv in Hd as (? & [= <-] & Hst).
  pose proof (lookup_lt_Some _ _ _ Hst) as Hlt.
  destruct (load_members_spec kvs (objects w)) as (os & Hos & Hkeys).
  eexists. split; [by apply import_state_eq|].
  assert (Hfield : ∀ w' m,
            objects w' = <[state (self w) := ODict m]>
                           ((load_members kvs (objects w)).2
                            ++ [ODict (list_to_map (reverse (load_members kvs (objects w)).1))]) →
            self w' = self w → ∀ k, field w' k = m !! k).
  { intros w' m Hobj Hself k. unfold field, state_dict, dict_of. rewrite Hobj, Hself.
    rewrite list_lookup_insert_eq; [done|]. rewrite Hos, !length_app. cbn. lia. }
  split_and!.
  - reflexivity.
  - erewrite Hfield by reflexivity. by rewrite lookup_insert_eq.
  - intros k Hk Hne. erewrite Hfield by reflexivity.
    rewrite lookup_insert_ne by done. unfold field, state_dict, dict_of. rewrite Hst. cbn.
    apply lookup_union_r. apply not_elem_of_list_to_map_1.
    rewrite fmap_reverse, elem_of_reverse. by rewrite Hkeys.
  - intros k j v Hin Hj Hne. erewrite Hfield by reflexivity.
    rewrite lookup_insert_ne by done.
    destruct (load_members_lookup kvs (objects w) k j Hnd Hin) as (h1 & os' & Hlook & _).
    apply lookup_union_Some_l. rewrite Hlook. f_equal.
    destruct j; cbn in Hj |- *; congruence.
  - intros l o Hl Hne. cbn [objects]. rewrite lookup_store_ne by done.
    rewrite Hos, <- app_assoc. by apply lookup_app_l_Some.
Qed.

(** X11: [import_state] validates nothing.  For a JSON object with
    distinct keys that the parser reads exactly (nested at most 100 deep,
    no floats, integers of at most 4300 digits) it returns normally: the
    members of the document are merged over the fields of the state (a
    field the document does not name keeps its value, a scalar member of
    the document becomes the value of its field), [last_update] is set to
    the time of the import, and no object other than the state is
    changed. *)
Theorem import_state_merges_the_document (w : world) (d : gmap string pyval)
    (kvs : list (string * json)) :
  state_dict w = Some d →
  NoDup kvs.*1 →
  readable 100 (JObj kvs) = true →
  ∃ w', import_state clock (JObj kvs) w = (Ret (), w') ∧
        self w' = self w ∧
        field w' "last_update" = Some (VStr (clock (ticks w))) ∧
        (∀ k, k ∉ kvs.*1 → k ≠ "last_update" → field w' k = field w k) ∧
        (∀ k j v, (k, j) ∈ kvs → scalar j = Some v → k ≠ "last_update" →
                  field w' k = Some v) ∧
        (∀ l o, objects w !! l = Some o → l ≠ state (self w) → objects w' !! l = Some o).
Proof. intros Hd Hnd _. by apply (import_state_fields w d). Qed.

(** X12: [import_state] does not recompute the satellite count: after the
    import of a document (a JSON object with distinct keys that the
    parser reads exactly: nested at most 100 deep, no floats, integers of
    at most 4300 digits) that has a list of satellites and no count, the
    satellite collection is a new list with one entry for each item of
    the document, and [satellite_count] is what it was. *)
Theorem import_state_keeps_the_old_count (w : world) (d : gmap string pyval)
    (kvs : list (string * json)) (js : list json) :
  state_dict w = Some d →
  NoDup kvs.*1 →
  readable 100 (JObj kvs) = true →
  ("satellites", JArr js) ∈ kvs →
  "satellite_count" ∉ kvs.*1 →
  ∃ w' sats, import_state clock (JObj kvs) w = (Ret (), w') ∧
             satellites_of w' = Some sats ∧
             length sats = length js ∧
             field w' "satellite_count" = field w "satellite_count".
Proof.
  intros Hd Hnd _ Hin Hcount. unfold state_dict in Hd.
  apply dict_of_inv in Hd as (? & [= <-] & Hst).
  pose proof (lookup_lt_Some _ _ _ Hst) as Hlt.
  destruct (load_members_spec kvs (objects w)) as (os & Hos & Hkeys).
  destruct (load_members_lookup kvs (objects w) _ _ Hnd Hin)
    as (h1 & os' & Hlook & Hheap & os1 & ->).
  rewrite load_JArr in Hlook, Hheap.
  destruct (load_items_spec js (objects w ++ os1)) as (os2 & Hos2 & Hlen).
  destruct (load_items js (objects w ++ os1)) as [vs h2]. cbn [fst snd] in *. subst h2.
  eexists _, vs. split; [by apply import_state_eq|].
  unfold satellites_of, field, state_dict, dict_of, list_of. cbn [objects self].
  rewrite list_lookup_insert_eq by (rewrite Hos, !length_app; cbn; lia).
  cbn [mbind option_bind]. split_and!; [|done|].
  - rewrite lookup_insert_ne by done.
    rewrite (lookup_union_Some_l _ _ _ _ Hlook). cbn [mbind option_bind].
    rewrite lookup_store_ne by (rewrite !length_app; lia).
    rewrite Hheap.
    rewrite (lookup_app_l_Some _ _ _ (OList vs)); [done|].
    apply lookup_app_l_Some, lookup_alloc_new.
  - rewrite Hst. cbn [mbind option_bind]. rewrite lookup_insert_ne by done.
    apply lookup_union_r. apply not_elem_of_list_to_map_1.
    rewrite fmap_reverse, elem_of_reverse. by rewrite Hkeys.
Qed.

End import.

Lemma import_state_merges_the_document_witness :
  ∃ w', state_manager.import_state clock0 doc_two_satellites mission_ready = (Ret (), w') ∧
        self w' = self mission_ready ∧
        field w' "last_update" = Some (VStr (clock0 (ticks mission_ready))) ∧
        (∀ k, k ∉ ["mission_name"; "satellites"] → k ≠ "last_update" →
              field w' k = field mission_ready k) ∧
        (∀ k j v, (k, j) ∈ [("mission_name", JStr "Imported");
                            ("satellites",
                             JArr [JObj [("id", JStr "SAT-A")]; JObj [("id", JStr "SAT-B")]])] →
                  scalar j = Some v → k ≠ "last_update" → field w' k = Some v) ∧
        (∀ l o, objects mission_ready !! l = Some o → l ≠ state (self mission_ready) →
                objects w' !! l = Some o).
Proof.
  apply (import_state_merges_the_document clock0 mission_ready
           (default ∅ (state_dict mission_ready))
           [("mission_name", JStr "Imported");
            ("satellites",
             JArr [JObj [("id", JStr "SAT-A")]; JObj [("id", JStr "SAT-B")]])]).
  - apply Some_default. vm_compute. reflexivity.
  - vm_compute. repeat constructor; compute_done.
  - vm_compute. reflexivity.
Defined.

Lemma import_state_keeps_the_old_count_witness :
  ∃ w' sats,
    state_manager.import_state clock0 doc_two_satellites mission_ready = (Ret (), w') ∧
    satellites_of w' = Some sats ∧
    length sats = length [JObj [("id", JStr "SAT-A")]; JObj [("id", JStr "SAT-B")]] ∧
    field w' "satellite_count" = field mission_ready "satellite_count".
Proof.
  apply (import_state_keeps_the_old_count clock0 mission_ready
           (default ∅ (state_dict mission_ready))
           [("mission_name", JStr "Imported");
            ("satellites",
             JArr [JObj [("id", JStr "SAT-A")]; JObj [("id", JStr "SAT-B")]])]).
  - apply Some_default. vm_compute. reflexivity.
  - vm_compute. repeat constructor; compute_done.
  - vm_compute. reflexivity.
  - repeat constructor.
  - compute_done.
Defined.

(** ** Exporting the state, and importing it again *)

Lemma render_dict n h l d j :
  h !! l = Some (ODict d) →
  render (S n) h (VRef l) = Some j →
  ∃ kvs, j = JObj kvs ∧ kvs.*1 = (map_to_list d).*1 ∧
         ∀ k s, d !! k = Some (VStr s) → (k, JStr s) ∈ kvs.
Proof.
  intros Hl. cbn [render]. rewrite Hl.
  destruct (mapM _ (map_to_list d)) as [kvs|] eqn:Hm; [|done].
  intros [= <-]. exists kvs. apply mapM_Some_1 in Hm. split_and!; [done| |].
  - induction Hm as [|[k v] [k' j'] l1 l2 Hkv _ IH]; [done|].
    rewrite !fmap_cons, IH. cbn [fst snd] in *.
    destruct (render n h v); cbn in Hkv; [|done]. by injection Hkv as <- _.
  - intros k s Hk. apply elem_of_map_to_list, list_elem_of_lookup in Hk as [i Hi].
    destruct (Forall2_lookup_l _ _ _ _ _ Hm Hi) as ([k' j'] & Hi' & Hkv).
    cbn [fst snd] in Hkv. destruct n; cbn in Hkv; injection Hkv as <- <-;
      by eapply list_elem_of_lookup_2.
Qed.

Section export.

Variable clock : nat → string.

Import state_manager.

Lemma export_state_eq fuel w d e :
  objects w !! state (self w) = Some (ODict d) →
  d !! "mission_phase" = Some (VEnum e) →
  export_state fuel w
  = json_dumps fuel (VRef (length (objects w)))
      (with_objects (objects w ++ [ODict (<["mission_phase" := VStr (enum_value e)]> d)]) w).
Proof.
  intros Hst Hd. unfold export_state. do 3 step.
  unfold attr_value. step. step. rewrite store_alloc_new. reflexivity.
Qed.

(** When [export_state] returns, the state is a dict whose phase is a
    member of an enumeration; the one object it has made is the copy of
    the state in which the phase is the value of that member, and the
    document renders that copy. *)
Lemma export_state_inv fuel w j w1 :
  export_state fuel w = (Ret j, w1) →
  ∃ d e, objects w !! state (self w) = Some (ODict d) ∧
         d !! "mission_phase" = Some (VEnum e) ∧
         w1 = with_objects
                (objects w ++ [ODict (<["mission_phase" := VStr (enum_value e)]> d)]) w ∧
         render fuel (objects w1) (VRef (length (objects w))) = Some j.
Proof.
  assert (Hraise : (∃ ex wx, export_state fuel w = (Raise ex, wx)) →
                   export_state fuel w = (Ret j, w1) → False).
  { intros (ex & wx & ->). done. }
  destruct (objects w !! state (self w)) as [[xs|d]|] eqn:Hst.
  - intros H. exfalso. refine (Hraise _ H). do 2 eexists.
    unfold export_state. step. unfold bind at 1, dict_copy. rewrite Hst.
    unfold new_list. rewrite alloc_eq. unfold bind at 1, getitem.
    cbn [objects with_objects]. by rewrite (lookup_alloc_old _ _ _ _ Hst).
  - destruct (d !! "mission_phase") as [v|] eqn:Hd.
    + destruct v as [|b|z|q|s|e|l];
        try (intros H; exfalso; refine (Hraise _ H); do 2 eexists;
             unfold export_state; do 3 step; unfold attr_value;
             reflexivity).
      rewrite (export_state_eq fuel w d e Hst Hd). unfold json_dumps.
      cbn [objects with_objects].
      intros H.
      match type of H with
      | match ?r with _ => _ end = _ => destruct r as [j'|] eqn:Hr
      end; [|done].
      injection H as <- <-. exists d, e. cbn [objects with_objects].
      by rewrite Hr.
    + intros H. exfalso. refine (Hraise _ H). do 2 eexists.
      unfold export_state. do 2 step.
      erewrite bind_Raise; [done|]. eapply getitem_missing; [heap_lookup|done].
  - intros H. exfalso. refine (Hraise _ H). do 2 eexists.
    unfold export_state. step. unfold bind at 1, dict_copy. by rewrite Hst.
Qed.

(** X13: a store cannot export what it has imported from its own export.
    Whenever [export_state] returns a document, the store is left with its
    fields as they were; importing that document then succeeds, but the
    mission phase comes back as the text of its value and no longer as a
    member of [MissionPhase], so that the next [export_state] raises
    [AttributeError]. *)
Theorem export_fails_after_import_of_an_export (w w1 : world) (fuel fuel' : nat)
    (j : json) :
  export_state fuel w = (Ret j, w1) →
  ∃ w2 e,
    field w "mission_phase" = Some (VEnum e) ∧
    state_dict w1 = state_dict w ∧
    import_state clock j w1 = (Ret (), w2) ∧
    field w2 "mission_phase" = Some (VStr (enum_value e)) ∧
    (export_state fuel' w2).1 = Raise (AttributeError "value").
Proof.
  intros (d & e & Hst & Hd & -> & Hr)%export_state_inv.
  cbn [objects with_objects] in Hr.
  destruct fuel as [|n]; [done|].
  destruct (render_dict n _ _ _ _ (lookup_alloc_new _ _) Hr) as (kvs & -> & Hkeys & Hstr).
  set (w1 := with_objects _ w) in *.
  assert (Hst1 : objects w1 !! state (self w1) = Some (ODict d)).
  { unfold w1. cbn [objects self with_objects]. by apply lookup_alloc_old. }
  assert (Hnd : NoDup kvs.*1) by (rewrite Hkeys; apply NoDup_fst_map_to_list).
  assert (Hin : ("mission_phase", JStr (enum_value e)) ∈ kvs).
  { apply Hstr. by rewrite lookup_insert_eq. }
  assert (Hd1 : state_dict w1 = Some d) by (unfold state_dict, dict_of; by rewrite Hst1).
  destruct (import_state_fields clock w1 d kvs Hd1 Hnd)
    as (w2 & Himp & Hself & _ & _ & Hscalar & _).
  exists w2, e. split_and!.
  - unfold field, state_dict, dict_of. by rewrite Hst.
  - unfold state_dict, dict_of. by rewrite Hst1, Hst.
  - done.
  - by apply (Hscalar _ _ _ Hin).
  - specialize (Hscalar _ _ (VStr (enum_value e)) Hin eq_refl ltac:(done)).
    unfold field, state_dict in Hscalar.
    destruct (dict_of w2 (VRef (state (self w2)))) as [d2|] eqn:Hd2; [|done].
    apply dict_of_inv in Hd2 as (? & [= <-] & Hst2). cbn in Hscalar.
    enough (∃ w3, export_state fuel' w2 = (Raise (AttributeError "value"), w3))
      as [w3 ->] by done.
    eexists. unfold export_state. do 3 step. reflexivity.
Qed.

End export.

(** An outcome that is a document, with the world it was returned in. *)
Lemma returned_document (r : outcome json * world) :
  match r.1 with Ret _ => true | Raise _ => false end = true →
  r = (Ret (document_of r.1), r.2).
Proof. destruct r as [[j|e] w]; [done|discriminate]. Qed.

Lemma export_fails_after_import_of_an_export_witness :
  ∃ w2 e,
    field mission_ready "mission_phase" = Some (VEnum e) ∧
    state_dict exported_ready.2 = state_dict mission_ready ∧
    state_manager.import_state clock0 (document_of exported_ready.1) exported_ready.2
    = (Ret (), w2) ∧
    field w2 "mission_phase" = Some (VStr (enum_value e)) ∧
    (state_manager.export_state 10 w2).1 = Raise (AttributeError "value").
Proof.
  apply (export_fails_after_import_of_an_export clock0 mission_ready exported_ready.2
           10 10 (document_of exported_ready.1)).
  apply (returned_document (state_manager.export_state 10 mission_ready)).
  vm_compute. reflexivity.
Defined.

(** ** Exporting the state and importing the document *)

(** The members of a dict come in an order that its keys determine. *)
Lemma same_keys_same_order {A B} (m1 : gmap string A) (m2 : gmap string B) :
  (∀ k, is_Some (m1 !! k) ↔ is_Some (m2 !! k)) →
  (map_to_list m1).*1 = (map_to_list m2).*1.
Proof.
  intros Hdom.
  assert (Hunit : (λ _, ()) <$> m1 = (λ _, ()) <$> m2).
  { apply map_eq. intros k. rewrite !lookup_fmap.
    destruct (Hdom k) as [H12 H21].
    destruct (m1 !! k) as [a|] eqn:E1, (m2 !! k) as [b|] eqn:E2; cbn; try done.
    - by destruct H12 as [? [=]].
    - by destruct H21 as [? [=]]. }
  assert (Hkeys : ∀ C (m : gmap string C),
            (map_to_list m).*1 = (map_to_list ((λ _, ()) <$> m)).*1).
  { intros C m. rewrite map_to_list_fmap, <- list_fmap_compose.
    by apply list_fmap_ext. }
  by rewrite (Hkeys _ m1), (Hkeys _ m2), Hunit.
Qed.

Lemma same_keys_same_members {A} (l1 l2 : list (string * A)) :
  NoDup l1.*1 → l1 ≡ₚ l2 → l1.*1 = l2.*1 → l1 = l2.
Proof.
  intros Hnd Hperm Hkeys. apply list_eq. intros i.
  pose proof (Permutation_length Hperm) as Hlen.
  destruct (l1 !! i) as [[k a]|] eqn:E1, (l2 !! i) as [[k' b]|] eqn:E2; try done.
  - assert (k = k') as <-.
    { pose proof (f_equal (λ l, l !! i) Hkeys) as Hi. cbn in Hi.
      rewrite !list_lookup_fmap, E1, E2 in Hi. by injection Hi. }
    f_equal. f_equal.
    assert (Ha : (k, a) ∈ l1) by by eapply list_elem_of_lookup_2.
    assert (Hb : (k, b) ∈ l1).
    { rewrite Hperm. by eapply list_elem_of_lookup_2. }
    apply (elem_of_list_to_map_1 (M := gmap string)) in Ha; [|done].
    apply (elem_of_list_to_map_1 (M := gmap string)) in Hb; [|done].
    congruence.
  - apply lookup_lt_Some in E1. apply lookup_ge_None in E2. lia.
  - apply lookup_lt_Some in E2. apply lookup_ge_None in E1. lia.
Qed.

(** Members that come in the order of the keys of a dict are the members
    of the dict made of them. *)
Lemma canonical_members {A B} (d : gmap string A) (l : list (string * B)) :
  l.*1 = (map_to_list d).*1 →
  map_to_list (list_to_map (reverse l) : gmap string B) = l.
Proof.
  intros Hkeys.
  assert (Hnd : NoDup l.*1) by (rewrite Hkeys; apply NoDup_fst_map_to_list).
  assert (Hrev : (list_to_map (reverse l) : gmap string B) = list_to_map l).
  { symmetry. apply list_to_map_proper; [done|]. symmetry. apply reverse_Permutation. }
  rewrite Hrev. apply same_keys_same_members.
  - apply NoDup_fst_map_to_list.
  - by apply map_to_list_to_map.
  - rewrite Hkeys. apply same_keys_same_order. intros k. split.
    + intros [b Hb]. apply elem_of_list_to_map_2 in Hb.
      assert (Hk : k ∈ l.*1) by (apply list_elem_of_fmap; by exists (k, b)).
      rewrite Hkeys in Hk.
      apply list_elem_of_fmap in Hk as ([k' a] & -> & Hin%elem_of_map_to_list).
      by exists a.
    + intros [a Ha].
      assert (Hk : k ∈ (map_to_list d).*1).
      { apply list_elem_of_fmap. exists (k, a). split; [done|by apply elem_of_map_to_list]. }
      rewrite <- Hkeys in Hk. apply list_elem_of_fmap in Hk as ([k' b] & -> & Hin).
      exists b. by apply elem_of_list_to_map_1.
Qed.

Lemma keeps_new_objects_l (H h0 os1 os2 : heap) :
  keeps_new_objects H h0 (os1 ++ os2) → keeps_new_objects H h0 os1.
Proof.
  intros HH i o Hi Ho. apply HH; [done|].
  rewrite app_assoc. by apply lookup_app_l_Some.
Qed.

Lemma keeps_new_objects_r (H h0 os1 os2 : heap) :
  keeps_new_objects H h0 (os1 ++ os2) → keeps_new_objects H (h0 ++ os1) os2.
Proof.
  intros HH i o Hi Ho. apply HH; [rewrite length_app in Hi; lia|].
  by rewrite app_assoc.
Qed.

Lemma load_scalar (j : json) (v : pyval) (h : heap) :
  scalar j = Some v → load j h = (v, h).
Proof. destruct j; cbn; intros [= <-]; reflexivity || done. Qed.

Lemma loads_back_items n xs js h :
  loads_back n →
  Forall2 (λ x j, render n h x = Some j) xs js →
  ∀ h0, ∃ os, (load_items js h0).2 = h0 ++ os ∧
              ∀ H, keeps_new_objects H h0 os →
                   Forall2 (λ v' j, render n H v' = Some j) (load_items js h0).1 js.
Proof.
  intros IH Hall. induction Hall as [|x j xs js Hx _ IHl]; intros h0; cbn [load_items].
  - exists []. split; [by rewrite app_nil_r|]. intros. constructor.
  - destruct (IH _ _ _ Hx h0) as (os1 & H1 & Hr1).
    destruct (load j h0) as [v1 h1]. cbn [fst snd] in *. subst h1.
    destruct (IHl (h0 ++ os1)) as (os2 & H2 & Hr2).
    destruct (load_items js (h0 ++ os1)) as [vs h2]. cbn [fst snd] in *. subst h2.
    exists (os1 ++ os2). split; [by rewrite app_assoc|].
    intros H HH. constructor.
    + apply Hr1. by eapply keeps_new_objects_l.
    + apply Hr2. by apply keeps_new_objects_r.
Qed.

Lemma loads_back_members n (l : list (string * pyval)) kvs h :
  loads_back n →
  Forall2 (λ kv kj, pair kv.1 <$> render n h kv.2 = Some kj) l kvs →
  ∀ h0, ∃ os, (load_members kvs h0).2 = h0 ++ os ∧
              (load_members kvs h0).1.*1 = l.*1 ∧
              Forall2 (λ m kj, ∀ x, scalar kj.2 = Some x → m.2 = x)
                (load_members kvs h0).1 kvs ∧
              ∀ H, keeps_new_objects H h0 os →
                   Forall2 (λ m kj, pair m.1 <$> render n H m.2 = Some kj)
                     (load_members kvs h0).1 kvs.
Proof.
  intros IH Hall.
  induction Hall as [|[k x] [k' j] l kvs Hx _ IHl]; intros h0; cbn [load_members].
  - exists []. split_and!; [by rewrite app_nil_r|done|constructor|]. intros. constructor.
  - cbn [fst snd] in Hx.
    destruct (render n h x) as [jx|] eqn:Ex; [|done]. injection Hx as <- <-.
    destruct (IH _ _ _ Ex h0) as (os1 & H1 & Hr1).
    pose proof (λ v, load_scalar jx v h0) as Hsc.
    destruct (load jx h0) as [v1 h1]. cbn [fst snd] in *. subst h1.
    destruct (IHl (h0 ++ os1)) as (os2 & H2 & Hk2 & Hs2 & Hr2).
    destruct (load_members kvs (h0 ++ os1)) as [ms h2]. cbn [fst snd] in *. subst h2.
    exists (os1 ++ os2). split_and!.
    + by rewrite app_assoc.
    + rewrite !fmap_cons. cbn [fst]. by rewrite Hk2.
    + constructor; [|done]. cbn [snd]. intros v Hv. by injection (Hsc v Hv).
    + intros H HH. constructor.
      * cbn [fst snd]. rewrite Hr1; [done|]. by eapply keeps_new_objects_l.
      * apply Hr2. by apply keeps_new_objects_r.
Qed.

Lemma loads_back_all n : loads_back n.
Proof.
  induction n as [|n IH]; intros h v j Hv h0.
  - destruct v; cbn in Hv; try done; injection Hv as <-;
      (exists []; split; [cbn; by rewrite app_nil_r|done]).
  - destruct v as [|b|z|q|s|e|l];
      try (cbn in Hv; injection Hv as <-;
           exists []; split; [cbn; by rewrite app_nil_r|done]).
    cbn [render] in Hv.
    destruct (h !! l) as [[xs|d]|] eqn:Hl; [| |done].
    + destruct (mapM (render n h) xs) as [js|] eqn:Hm; [|done]. injection Hv as <-.
      apply mapM_Some_1 in Hm.
      destruct (loads_back_items n xs js h IH Hm h0) as (os & Hos & Hr).
      rewrite load_JArr.
      destruct (load_items js h0) as [vs h']. cbn [fst snd] in *. subst h'.
      exists (os ++ [OList vs]). split; [by rewrite app_assoc|].
      intros H HH. cbn [render].
      rewrite (HH (length (h0 ++ os)) (OList vs));
        [|rewrite length_app; lia|rewrite app_assoc; apply lookup_alloc_new].
      rewrite (mapM_Some_2 _ _ js); [done|].
      apply Hr. by eapply keeps_new_objects_l.
    + destruct (mapM _ (map_to_list d)) as [kvs|] eqn:Hm; [|done]. injection Hv as <-.
      apply mapM_Some_1 in Hm.
      destruct (loads_back_members n _ kvs h IH Hm h0) as (os & Hos & Hkeys & _ & Hr).
      rewrite load_JObj.
      destruct (load_members kvs h0) as [ms h']. cbn [fst snd] in *. subst h'.
      exists (os ++ [ODict (list_to_map (reverse ms))]). split; [by rewrite app_assoc|].
      intros H HH. cbn [render].
      rewrite (HH (length (h0 ++ os)) (ODict (list_to_map (reverse ms))));
        [|rewrite length_app; lia|rewrite app_assoc; apply lookup_alloc_new].
      rewrite (canonical_members d ms Hkeys).
      rewrite (mapM_Some_2 _ _ kvs); [done|].
      apply Hr. by eapply keeps_new_objects_l.
Qed.

Lemma render_plain n h v j :
  plain v = true → render n h v = Some j → scalar j = Some v.
Proof. destruct v, n; cbn; try done; by intros _ [= <-]. Qed.

(** The members loaded from the export of a dict, key by key. *)
Lemma loaded_members n (dc : gmap string pyval) kvs (h0 : heap) :
  mapM (λ kv, pair kv.1 <$> render n h0 kv.2) (map_to_list dc) = Some kvs →
  ∃ os, (load_members kvs h0).2 = h0 ++ os ∧
        (∀ k, dc !! k = None →
              (list_to_map (reverse (load_members kvs h0).1) : gmap string pyval) !! k
              = None) ∧
        (∀ k v, dc !! k = Some v →
           ∃ v' jv,
             (list_to_map (reverse (load_members kvs h0).1) : gmap string pyval) !! k
             = Some v' ∧
             render n h0 v = Some jv ∧
             (∀ H, keeps_new_objects H h0 os → render n H v' = Some jv) ∧
             (plain v = true → v' = v)).
Proof.
  intros Hm%mapM_Some_1.
  destruct (loads_back_members n _ kvs h0 (loads_back_all n) Hm h0)
    as (os & Hos & Hkeys & Hscal & Hrend).
  set (ms := (load_members kvs h0).1) in *.
  assert (Hnd : NoDup (reverse ms).*1).
  { rewrite fmap_reverse, reverse_Permutation, Hkeys. apply NoDup_fst_map_to_list. }
  exists os. split_and!; [done| |].
  - intros k Hk. apply not_elem_of_list_to_map_1.
    rewrite fmap_reverse, elem_of_reverse, Hkeys.
    intros ([k' a] & -> & Hin%elem_of_map_to_list)%list_elem_of_fmap. cbn in Hk. congruence.
  - intros k v Hk.
    apply elem_of_map_to_list, list_elem_of_lookup in Hk as [i Hi].
    destruct (Forall2_lookup_l _ _ _ _ _ Hm Hi) as ([k' jv] & Hkj & Hx).
    cbn [fst snd] in Hx.
    destruct (render n h0 v) as [jv'|] eqn:Ev; [|done]. injection Hx as <- <-.
    destruct (Forall2_lookup_r _ _ _ _ _ Hscal Hkj) as ([k' v'] & Hmi & Hsc).
    assert (k' = k) as ->.
    { pose proof (f_equal (λ l, l !! i) Hkeys) as Hki. cbn in Hki.
      rewrite !list_lookup_fmap, Hmi, Hi in Hki. by injection Hki. }
    exists v', jv'. split_and!.
    + apply elem_of_list_to_map_1; [done|].
      apply elem_of_reverse. by eapply list_elem_of_lookup_2.
    + done.
    + intros H HH. specialize (Hrend H HH).
      destruct (Forall2_lookup_l _ _ _ _ _ Hrend Hmi) as (kj & Hkj' & Hx).
      rewrite Hkj in Hkj'. injection Hkj' as <-. cbn [fst snd] in Hx.
      destruct (render n H v'); [|done]. by injection Hx as ->.
    + intros Hp. cbn [snd] in Hsc. apply Hsc. by eapply render_plain.
Qed.

Section export_import.

Variable clock : nat → string.

Import state_manager.


End export_import.



(** ** Adding a satellite, then looking it up *)

Lemma find_snoc {A} (p p' : A → bool) (xs : list A) (x dflt : A) :
  Forall (λ v, p' v = p v) xs →
  p' x = true →
  default dflt (List.find p' (xs ++ [x])) = default x (List.find p xs).
Proof.
  intros Hxs Hx. induction Hxs as [|v xs Hv _ IH]; cbn [app List.find].
  - by rewrite Hx.
  - rewrite Hv. by destruct (p v).
Qed.

Section round_trip.

Variable clock : nat → string.

Import state_manager.

(** The ["id"] of a record is not touched by [add_satellite]. *)
Lemma add_satellite_keeps_ids w d ls sats s v :
  objects w !! state (self w) = Some (ODict d) →
  d !! "satellites" = Some (VRef ls) →
  objects w !! ls = Some (OList sats) →
  has_key w "id" v = true →
  entry (add_satellite clock s w).2 v "id" = entry w v "id".
Proof.
  intros Hst Hd Hls (l & dl & x & -> & Hl & Hx)%has_key_inv.
  rewrite (add_satellite_eq clock w d ls sats s Hst Hd Hls).
  unfold entry, dict_of. cbn [snd objects]. rewrite Hl. cbn. rewrite Hx.
  destruct (decide (l = state (self w))) as [->|Hne].
  - assert (dl = d) as -> by congruence.
    erewrite lookup_store_eq
      by (rewrite lookup_store_ne by congruence; eauto using lookup_alloc_old).
    cbn. by rewrite !lookup_insert_ne by done.
  - rewrite lookup_store_ne by done.
    rewrite lookup_store_ne by congruence.
    rewrite (lookup_alloc_old _ _ _ _ Hl). cbn. done.
Qed.

(** X14: on a store whose satellite records all have an ["id"] entry, a
    satellite that has been added is found by its id unless an earlier
    record has that id.  After [add_satellite(s)],
    [get_satellite_by_id(s.id)] returns the first of the earlier records
    with the id of [s] when there is one, so that the new record is out
    of the reach of every lookup by id, and the new record otherwise. *)
Theorem add_satellite_then_get_satellite_by_id (w : world) (s : Satellite)
    (sats : list pyval) :
  satellites_of w = Some sats →
  forallb (has_key w "id") sats = true →
  ∃ w', add_satellite clock s w = (Ret (), w') ∧
        dict_of w' (VRef (length (objects w))) = Some (satellite_dict s) ∧
        get_satellite_by_id (Satellite_id s) w'
        = (Ret (default (VRef (length (objects w)))
                  (List.find (has_id w (Satellite_id s)) sats)), w').
Proof.
  intros (d & ls & Hst & Hd & Hls)%satellites_of_inv Hids.
  assert (Hne : ls ≠ state (self w)) by congruence.
  pose proof (λ v, add_satellite_keeps_ids w d ls sats s v Hst Hd Hls) as Hkeep.
  rewrite (add_satellite_eq clock w d ls sats s Hst Hd Hls) in Hkeep |- *.
  cbn [snd] in Hkeep.
  eexists. split; [reflexivity|].
  set (w' := {| objects := _ |}) in *.
  assert (Hnew : objects w' !! length (objects w) = Some (ODict (satellite_dict s))).
  { unfold w'. cbn [objects].
    rewrite lookup_store_ne by (heap_bounds; lia).
    rewrite lookup_store_ne by (heap_bounds; lia).
    apply lookup_alloc_new. }
  assert (Hst' : ∃ d', objects w' !! state (self w') = Some (ODict d') ∧
                       d' !! "satellites" = Some (VRef ls)).
  { eexists. unfold w'. cbn [objects self]. split.
    - erewrite lookup_store_eq; [reflexivity|].
      rewrite lookup_store_ne by done. eauto using lookup_alloc_old.
    - by rewrite !lookup_insert_ne by done. }
  destruct Hst' as (d' & Hst' & Hd').
  assert (Hls' : objects w' !! ls = Some (OList (sats ++ [VRef (length (objects w))]))).
  { unfold w'. cbn [objects]. rewrite lookup_store_ne by done.
    erewrite lookup_store_eq; [reflexivity|]. eauto using lookup_alloc_old. }
  split; [unfold dict_of; by rewrite Hnew|].
  assert (Hall : Forall (λ v, has_key w "id" v = true) sats) by by apply forallb_Forall.
  unfold get_satellite_by_id. do 3 step.
  rewrite get_satellite_by_id_loop_find.
  - f_equal. f_equal. apply find_snoc.
    + eapply Forall_impl; [exact Hall|]. intros v Hv. unfold has_id. by rewrite Hkeep.
    + unfold has_id, entry, dict_of. rewrite Hnew. cbn.
      unfold satellite_dict, Satellite_fields.
      rewrite lookup_insert_ne by done. cbn.
      unfold py_eq_str. apply String.eqb_refl.
  - rewrite forallb_app. apply andb_true_iff. split.
    + apply forallb_forall. intros v Hv. unfold has_key. rewrite Hkeep.
      * rewrite Forall_forall in Hall. apply Hall. by apply list_elem_of_In.
      * rewrite Forall_forall in Hall. apply Hall. by apply list_elem_of_In.
    + cbn. unfold has_key, entry, dict_of. rewrite Hnew. cbn.
      unfold satellite_dict, Satellite_fields.
      rewrite lookup_insert_ne by done. done.
Qed.

End round_trip.

Lemma add_satellite_then_get_satellite_by_id_witness :
  ∃ w', state_manager.add_satellite clock0 sat001 store_with_sat001 = (Ret (), w') ∧
        dict_of w' (VRef (length (objects store_with_sat001))) = Some (satellite_dict sat001) ∧
        state_manager.get_satellite_by_id (state_manager.Satellite_id sat001) w'
        = (Ret (default (VRef (length (objects store_with_sat001)))
                  (List.find (has_id store_with_sat001 (state_manager.Satellite_id sat001))
                     [VRef 23])), w').
Proof.
  apply (add_satellite_then_get_satellite_by_id clock0 store_with_sat001 sat001 [VRef 23]).
  - vm_compute. reflexivity.
  - vm_compute. reflexivity.
Defined.

(** ** The collision avoidance stage *)

(** A computation that returns, in the form in which loops are composed:
    [m] returns [a] from [w] in a world that satisfies [Q]. *)
Lemma bind_returns {A B} (m : M A) (k : A → M B) w a w1 b (Q : world → Prop) :
  m w = (Ret a, w1) →
  (∃ w', k a w1 = (Ret b, w') ∧ Q w') →
  ∃ w', bind m k w = (Ret b, w') ∧ Q w'.
Proof. intros Hm (w' & Hk & HQ). exists w'. by rewrite (bind_Ret _ _ _ _ _ Hm). Qed.

Lemma bind_returns_inv {A B} (m : M A) (k : A → M B) w a b (I Q : world → Prop) :
  (∃ w1, m w = (Ret a, w1) ∧ I w1) →
  (∀ w1, I w1 → ∃ w', k a w1 = (Ret b, w') ∧ Q w') →
  ∃ w', bind m k w = (Ret b, w') ∧ Q w'.
Proof.
  intros (w1 & Hm & HI) Hk. destruct (Hk w1 HI) as (w' & Hk' & HQ).
  exists w'. by rewrite (bind_Ret _ _ _ _ _ Hm).
Qed.

Lemma for_enumerate_inv {A} (I : world → Prop) (P : A → Prop)
    (body : nat → A → M ()) (xs : list A) :
  (∀ i x w1, P x → I w1 → ∃ w2, body i x w1 = (Ret (), w2) ∧ I w2) →
  Forall P xs →
  ∀ i0 w1, I w1 → ∃ w2, agent_graph.for_enumerate body i0 xs w1 = (Ret (), w2) ∧ I w2.
Proof.
  intros Hbody Hxs. induction Hxs as [|x xs Hx _ IH]; intros i0 w1 HI.
  - by exists w1.
  - cbn [agent_graph.for_enumerate]. eapply bind_returns_inv; [by apply Hbody|].
    intros w2 HI2. by apply IH.
Qed.

Ltac xstep_with lem :=
  eapply bind_returns;
  [ solve [ eapply lem; first [ heap_lookup | eassumption | reflexivity | done ] ] |];
  cbn [objects self ticks draws with_objects with_self].

Ltac xstep :=
  lazymatch goal with
  | |- ∃ w', bind ?m ?k ?w = _ ∧ _ =>
      lazymatch m with
      | read_clock _ => eapply bind_returns; [apply read_clock_eq|]
      | agent_graph.now _ => eapply bind_returns; [apply read_clock_eq|]
      | draw _ => eapply bind_returns; [apply draw_eq|]
      | ret _ => eapply bind_returns; [apply ret_eq|]
      | alloc _ => eapply bind_returns; [apply alloc_eq|]
      | new_list _ => eapply bind_returns; [apply alloc_eq|]
      | new_dict _ => eapply bind_returns; [apply alloc_eq|]
      | getitem _ _ => xstep_with getitem_dict
      | setitem _ _ _ => xstep_with setitem_dict
      | dict_get _ _ _ => xstep_with dict_get_dict
      | list_append _ _ => xstep_with list_append_list
      | py_len _ => xstep_with py_len_list
      | py_iter _ => xstep_with py_iter_list
      end
  end;
  cbn [objects self ticks draws with_objects with_self].

Section collision_avoidance.

Variable clock : nat → string.
Variable uniform : nat → Q → Q → Q.

Import agent_graph.

Lemma not_below_100 (q : Q) : (100 <= q)%Q → Qlt_bool q 100 = false.
Proof. intros H. unfold Qlt_bool. apply negb_false_iff. by apply Qle_bool_iff. Qed.

(** X15: the collision avoidance stage never reports a threat of high
    risk.  The distances it draws are uniform in [100, 1000), so that
    the test [distance < 100] for ["HIGH"] never holds: on a state with a
    list of satellite records that have an id, and lists of alerts and
    decisions, the stage returns the state, and every threat it has put
    in ["collision_threats"] is of the risk level ["MEDIUM"]. *)
Theorem collision_avoidance_agent_reports_no_high_risk (w : world) (l ls la ld : loc)
    (d : gmap string pyval) (sats alerts decisions : list pyval) :
  (∀ n, (100 <= uniform n 100 1000)%Q) →
  objects w !! l = Some (ODict d) →
  d !! "satellites" = Some (VRef ls) →
  objects w !! ls = Some (OList sats) →
  forallb (has_key w "id") sats = true →
  d !! "alerts" = Some (VRef la) →
  objects w !! la = Some (OList alerts) →
  d !! "decisions" = Some (VRef ld) →
  objects w !! ld = Some (OList decisions) →
  ∃ w', collision_avoidance_agent clock uniform (VRef l) w = (Ret (VRef l), w') ∧
        ∃ threats, entry_list w' (VRef l) "collision_threats" = Some threats ∧
                   forallb (medium_risk w') threats = true.
Proof.
  intros Hlow Hl Hsats Hls Hids%forallb_Forall Halerts Hla Hdecisions Hld.
  unfold collision_avoidance_agent.
  do 2 xstep. xstep. rewrite Hsats. cbn [default from_option Datatypes.id]. xstep.
  eapply bind_returns_inv with (I := threats_so_far w).
  { eapply for_enumerate_inv with (P := λ v, has_key w "id" v = true); [|done|].
    - (* the loop over the first satellite *)
      intros i sat1 w1 Hsat1 [Hold Hts].
      eapply bind_returns.
      { unfold slice_from. by rewrite (Hold _ _ Hls). }
      eapply for_enumerate_inv with (P := λ v, has_key w "id" v = true).
      + (* the loop over the second *)
        clear Hts Hold w1. intros j sat2 w1 Hsat2 [Hold (ts & Hts & Hmed)].
        apply has_key_inv in Hsat1 as (l1 & d1 & x1 & -> & Hl1 & Hx1).
        apply has_key_inv in Hsat2 as (l2 & d2 & x2 & -> & Hl2 & Hx2).
        pose proof (Hold _ _ Hl1) as Hl1'. pose proof (Hold _ _ Hl2) as Hl2'.
        unfold np_random_uniform. xstep.
        destruct (Qlt_bool (uniform (draws w1) 100 1000) 200).
        * do 5 xstep. rewrite (not_below_100 _ (Hlow _)).
          pose proof (lookup_lt_Some _ _ _ Hts) as Hn0.
          eexists. split.
          { eapply list_append_list. cbn [objects with_objects].
            do 2 apply lookup_alloc_old. exact Hts. }
          split.
          -- intros i0 o Hi0. cbn [objects with_objects].
             pose proof (lookup_lt_Some _ _ _ Hi0).
             rewrite lookup_store_ne by lia.
             do 2 apply lookup_alloc_old. by apply Hold.
          -- eexists. cbn [objects with_objects]. split.
             { eapply lookup_store_eq. do 2 apply lookup_alloc_old. exact Hts. }
             apply Forall_app. split.
             ++ eapply Forall_impl; [exact Hmed|].
                intros t (lt & dt & -> & Hlt & Hdt & Hrisk).
                exists lt, dt. split_and!; [done|done| |done].
                rewrite lookup_store_ne by lia. by do 2 apply lookup_alloc_old.
             ++ constructor; [|constructor].
                eexists _, _. split_and!; [reflexivity| | |].
                ** rewrite length_app. cbn. lia.
                ** rewrite lookup_store_ne by (rewrite length_app; cbn; lia).
                   rewrite length_app. cbn [length].
                   replace (length (objects w1) + 1) with
                     (length (objects w1 ++ [OList [x1; x2]]))
                     by (rewrite length_app; reflexivity).
                   apply lookup_alloc_new.
                ** reflexivity.
        * eexists. split; [reflexivity|]. split; [exact Hold|]. by exists ts.
      + apply Forall_forall. intros v Hv.
        rewrite Forall_forall in Hids. apply Hids. by eapply subseteq_drop.
      + done.
    - (* at the start *)
      split.
      + intros i o Hi. cbn [objects with_objects]. by do 2 apply lookup_alloc_old.
      + exists []. split; [|constructor].
        apply lookup_alloc_old, lookup_alloc_new. }
  intros w1 [Hold (ts & Hts & Hmed)].
  pose proof (Hold _ _ Hl) as Hl'. pose proof (Hold _ _ Hla) as Hla'.
  pose proof (Hold _ _ Hld) as Hld'.
  pose proof (lookup_lt_Some _ _ _ Hl) as Hlt_l.
  pose proof (lookup_lt_Some _ _ _ Hla) as Hlt_la.
  pose proof (lookup_lt_Some _ _ _ Hld) as Hlt_ld.
  assert (Hne_la : la ≠ l) by congruence.
  assert (Hne_ld : ld ≠ l) by congruence.
  xstep.
  eapply bind_returns.
  { eapply py_len_list. cbn [objects with_objects].
    rewrite lookup_store_ne by lia. exact Hts. }
  cbn [objects with_objects].
  assert (Hfinal : ∀ wf,
            objects wf !! l = Some (ODict (<["collision_threats" := VRef (length (objects w))]> d)) →
            (∀ i o, length (objects w) ≤ i → objects w1 !! i = Some o →
                    objects wf !! i = Some o) →
            ∃ threats, entry_list wf (VRef l) "collision_threats" = Some threats ∧
                       forallb (medium_risk wf) threats = true).
  { intros wf Hst Hkeep. exists ts. split.
    - unfold entry_list, entry, dict_of, list_of. rewrite Hst. cbn.
      rewrite lookup_insert_eq. cbn. by rewrite (Hkeep _ _ (le_n _) Hts).
    - apply forallb_forall. intros t Ht%list_elem_of_In.
      rewrite Forall_forall in Hmed.
      destruct (Hmed t Ht) as (lt & dt & -> & Hlt & Hdt & Hrisk).
      unfold medium_risk, entry, dict_of.
      rewrite (Hkeep lt _ ltac:(lia) Hdt). cbn. by rewrite Hrisk. }
  destruct (negb (length ts =? 0)).
  - (* an alert is added *)
    eapply bind_returns.
    { erewrite bind_Ret;
        [|eapply getitem_dict;
          [heap_lookup|rewrite lookup_insert_ne by done; exact Halerts]].
      do 2 step. eapply list_append_list. heap_lookup. }
    cbn [objects self ticks draws with_objects with_self].
    unfold add_decision.
    destruct (decide (ld = la)) as [->|Hne].
    + eapply bind_returns.
      { erewrite bind_Ret;
        [|eapply getitem_dict;
          [heap_lookup|rewrite lookup_insert_ne by done; exact Hdecisions]].
      do 2 step. eapply list_append_list. heap_lookup. }
      cbn [objects self ticks draws with_objects with_self].
      eexists. split; [reflexivity|]. apply Hfinal; cbn [objects self ticks draws with_objects with_self].
      * heap_lookup.
      * intros i o Hi Ho. pose proof (lookup_lt_Some _ _ _ Ho).
        rewrite lookup_store_ne by lia. apply lookup_alloc_old.
        rewrite lookup_store_ne by lia. apply lookup_alloc_old.
        rewrite lookup_store_ne by lia. done.
    + eapply bind_returns.
      { erewrite bind_Ret;
        [|eapply getitem_dict;
          [heap_lookup|rewrite lookup_insert_ne by done; exact Hdecisions]].
      do 2 step. eapply list_append_list. heap_lookup. }
      cbn [objects self ticks draws with_objects with_self].
      eexists. split; [reflexivity|]. apply Hfinal; cbn [objects self ticks draws with_objects with_self].
      * heap_lookup.
      * intros i o Hi Ho. pose proof (lookup_lt_Some _ _ _ Ho).
        rewrite lookup_store_ne by lia. apply lookup_alloc_old.
        rewrite lookup_store_ne by lia. apply lookup_alloc_old.
        rewrite lookup_store_ne by lia. done.
  - xstep. unfold add_decision.
    eapply bind_returns.
    { erewrite bind_Ret;
        [|eapply getitem_dict;
          [heap_lookup|rewrite lookup_insert_ne by done; exact Hdecisions]].
      do 2 step. eapply list_append_list. heap_lookup. }
    cbn [objects self ticks draws with_objects with_self].
    eexists. split; [reflexivity|]. apply Hfinal; cbn [objects self ticks draws with_objects with_self].
    + heap_lookup.
    + intros i o Hi Ho. pose proof (lookup_lt_Some _ _ _ Ho).
      rewrite lookup_store_ne by lia. apply lookup_alloc_old.
      rewrite lookup_store_ne by lia. done.
Qed.

End collision_avoidance.

Lemma collision_avoidance_agent_reports_no_high_risk_witness :
  ∃ w', agent_graph.collision_avoidance_agent clock0 uniform0 (VRef 0) state_of_two
        = (Ret (VRef 0), w') ∧
        ∃ threats, entry_list w' (VRef 0) "collision_threats" = Some threats ∧
                   forallb (medium_risk w') threats = true.
Proof.
  apply (collision_avoidance_agent_reports_no_high_risk clock0 uniform0 state_of_two
           0 1 2 3
           (list_to_map [("satellites", VRef 1); ("alerts", VRef 2); ("decisions", VRef 3)])
           [VRef 4; VRef 5] [] []).
  - intros n. apply Qle_refl.
  - reflexivity.
  - reflexivity.
  - reflexivity.
  - vm_compute. reflexivity.
  - reflexivity.
  - reflexivity.
  - reflexivity.
  - reflexivity.
Defined.

(** ** The satellite management stage *)

Lemma for_enumerate_each {A} (I : world → Prop) (R : A → world → Prop) (P : A → Prop)
    (body : nat → A → M ()) (xs : list A) :
  (∀ i x w1, P x → I w1 →
     ∃ w2, body i x w1 = (Ret (), w2) ∧ I w2 ∧ R x w2 ∧ ∀ y, R y w1 → R y w2) →
  Forall P xs →
  ∀ i0 w1, I w1 →
    ∃ w2, agent_graph.for_enumerate body i0 xs w1 = (Ret (), w2) ∧ I w2 ∧
          Forall (λ x, R x w2) xs ∧ ∀ y, R y w1 → R y w2.
Proof.
  intros Hbody Hxs. induction Hxs as [|x xs Hx _ IH]; intros i0 w1 HI.
  - exists w1. by split_and!.
  - cbn [agent_graph.for_enumerate].
    destruct (Hbody i0 x w1 Hx HI) as (w2 & Hrun & HI2 & HR & Hkeep).
    destruct (IH (S i0) w2 HI2) as (w3 & Hrun' & HI3 & HRs & Hkeep').
    exists w3. rewrite (bind_Ret _ _ _ _ _ Hrun). split_and!; auto.
Qed.

Section satellite_management.

Variable clock : nat → string.
Variable randint : nat → Z → Z → Z.

Import agent_graph.

(** X16: the satellite management stage overwrites the records it is
    given.  On a state with a list of satellite records and a list of
    decisions the stage returns the state, and the status of every record
    of the list is then ["Operational"], whatever it was: the records are
    changed in place, so that whoever shares them with the state sees the
    new status. *)
Theorem satellite_management_agent_marks_all_operational (w : world) (l ls ld : loc)
    (d : gmap string pyval) (sats decisions : list pyval) :
  objects w !! l = Some (ODict d) →
  d !! "satellites" = Some (VRef ls) →
  objects w !! ls = Some (OList sats) →
  forallb (is_dict w) sats = true →
  d !! "decisions" = Some (VRef ld) →
  objects w !! ld = Some (OList decisions) →
  ∃ w', satellite_management_agent clock randint (VRef l) w = (Ret (VRef l), w') ∧
        entry w' (VRef l) "satellites" = Some (VRef ls) ∧
        forallb (operational w') sats = true.
Proof.
  intros Hl Hsats Hls Hdicts%forallb_Forall Hdecisions Hld.
  unfold satellite_management_agent.
  xstep. xstep. rewrite Hsats. cbn [default from_option Datatypes.id].
  do 4 xstep. xstep.
  lazymatch goal with
  | |- ∃ w', bind (for_enumerate ?b 0 sats) _ ?w0 = _ ∧ _ =>
      destruct (for_enumerate_each (records_kept w) (λ v w1, operational w1 v = true)
                  (λ v, is_dict w v = true) b sats) with (i0 := 0) (w1 := w0)
        as (w1 & Hrun & [Hlists Hrecords] & Hop & _)
  end.
  - intros i x w1 (lx & dx & -> & Hlx)%is_dict_inv [Hlists Hrecords].
    destruct (Hrecords _ _ Hlx) as (dx' & Hlx' & Hdec).
    eexists. split.
    { step. unfold np_random_randint. do 5 step.
      eapply setitem_dict. heap_lookup. }
    cbn [objects self ticks draws with_objects with_self].
    rewrite !list_insert_insert_eq.
    pose proof (lookup_lt_Some _ _ _ Hlx') as Hlt.
    split_and!; cbn [objects self ticks draws with_objects with_self];
      rewrite ?list_insert_insert_eq.
    + split.
      * intros j xs Hj. cbn [objects self ticks draws with_objects with_self]. rewrite lookup_store_ne; [by apply Hlists|].
        intros ->. pose proof (Hlists _ _ Hj). congruence.
      * intros j dd Hj. cbn [objects self ticks draws with_objects with_self]. destruct (decide (j = lx)) as [->|Hne].
        -- eexists. split; [by apply list_lookup_insert_eq|].
           rewrite !lookup_insert_ne by done. congruence.
        -- rewrite lookup_store_ne by done. by apply Hrecords.
    + unfold operational, entry, dict_of. cbn [objects self ticks draws with_objects with_self].
      rewrite list_lookup_insert_eq by done. cbn.
      rewrite !lookup_insert_ne by done. by rewrite lookup_insert_eq.
    + intros y. unfold operational, entry, dict_of. cbn [objects self ticks draws with_objects with_self].
      destruct y as [| | | | | |ly]; try done.
      destruct (decide (ly = lx)) as [->|Hne].
      * intros _. rewrite list_lookup_insert_eq by done. cbn.
        rewrite !lookup_insert_ne by done. by rewrite lookup_insert_eq.
      * by rewrite lookup_store_ne by done.
  - done.
  - split.
    + intros j xs Hj. cbn [objects self ticks draws with_objects with_self]. by do 3 apply lookup_alloc_old.
    + intros j dd Hj. exists dd. split; [|done].
      cbn [objects self ticks draws with_objects with_self]. by do 3 apply lookup_alloc_old.
  - eapply bind_returns; [exact Hrun|].
    destruct (Hrecords _ _ Hl) as (d1 & Hl1 & Hdec1).
    pose proof (Hlists _ _ Hld) as Hld1.
    assert (Hne : ld ≠ l) by congruence.
    do 2 xstep. unfold add_decision.
    eapply bind_returns.
    { erewrite bind_Ret;
        [|eapply getitem_dict;
          [heap_lookup|rewrite !lookup_insert_ne by done; rewrite Hdec1; exact Hdecisions]].
      do 2 step. eapply list_append_list. heap_lookup. }
    cbn [objects self ticks draws with_objects with_self].
    eexists. split; [reflexivity|].
    rewrite list_insert_insert_eq.
    pose proof (lookup_lt_Some _ _ _ Hl1) as Hlt1.
    split.
    + unfold entry, dict_of. cbn [objects self ticks draws with_objects with_self].
      rewrite lookup_store_ne by done.
      erewrite lookup_alloc_old by (by apply list_lookup_insert_eq). cbn.
      rewrite lookup_insert_ne by done. by rewrite lookup_insert_eq.
    + apply forallb_forall. intros v Hv%list_elem_of_In.
      rewrite Forall_forall in Hop. specialize (Hop v Hv). cbn beta in Hop.
      rewrite Forall_forall in Hdicts.
      destruct (is_dict_inv _ _ (Hdicts v Hv)) as (lv & dv & -> & Hlv).
      destruct (Hrecords _ _ Hlv) as (dv' & Hlv' & _).
      revert Hop. unfold operational, entry, dict_of. cbn [objects self ticks draws with_objects with_self].
      rewrite Hlv'. cbn.
      assert (lv ≠ ld) by (intros ->; congruence).
      rewrite lookup_store_ne by done.
      destruct (decide (lv = l)) as [->|Hnel].
      * assert (dv' = d1) as -> by congruence.
        erewrite lookup_alloc_old by (by apply list_lookup_insert_eq). cbn.
        by rewrite !lookup_insert_ne by done.
      * erewrite lookup_alloc_old
          by (rewrite lookup_store_ne by done; exact Hlv'). done.
Qed.

End satellite_management.

Lemma satellite_management_agent_marks_all_operational_witness :
  ∃ w', agent_graph.satellite_management_agent clock0 randint0 (VRef 0) state_of_two
        = (Ret (VRef 0), w') ∧
        entry w' (VRef 0) "satellites" = Some (VRef 1) ∧
        forallb (operational w') [VRef 4; VRef 5] = true.
Proof.
  apply (satellite_management_agent_marks_all_operational clock0 randint0 state_of_two
           0 1 3
           (list_to_map [("satellites", VRef 1); ("alerts", VRef 2); ("decisions", VRef 3)])
           [VRef 4; VRef 5] []).
  - reflexivity.
  - reflexivity.
  - reflexivity.
  - vm_compute. reflexivity.
  - reflexivity.
  - reflexivity.
Defined.

(** ** The predictive maintenance stage *)

Section predictive_maintenance.

Variable clock : nat → string.
Variable later : nat → Z → string.
Variable uniform : nat → Q → Q → Q.
Variable randint : nat → Z → Z → Z.

Import agent_graph.

Lemma below_75_is_below_80 (q : Q) :
  Qlt_bool q 80 = false → Qlt_bool q 75 = false.
Proof.
  unfold Qlt_bool. rewrite !negb_false_iff, !Qle_bool_iff. intros H.
  eapply Qle_trans; [|exact H]. by vm_compute.
Qed.

Lemma issue_fits_priority (q : Q) :
  negb (String.eqb (if Qlt_bool q 80 then "Battery degradation" else "Thermal stress")
          "Thermal stress")
  || String.eqb (if Qlt_bool q 75 then "HIGH" else "MEDIUM") "MEDIUM" = true.
Proof.
  destruct (Qlt_bool q 80) eqn:H80; [done|].
  by rewrite (below_75_is_below_80 _ H80).
Qed.

(** X17: the maintenance stage never gives thermal stress a high
    priority.  On a state with a list of satellite records that have an
    id and a list of decisions the stage returns the state with a new
    maintenance schedule; every entry of its ["maintenance_required"]
    names an issue and a priority, and the priority of an entry whose
    issue is ["Thermal stress"] is ["MEDIUM"], since ["HIGH"] asks for a
    battery below 75, which is reported as ["Battery degradation"]. *)
Theorem predictive_maintenance_agent_thermal_stress_is_medium (w : world) (l ls ld : loc)
    (d : gmap string pyval) (sats decisions : list pyval) :
  objects w !! l = Some (ODict d) →
  d !! "satellites" = Some (VRef ls) →
  objects w !! ls = Some (OList sats) →
  forallb (has_key w "id") sats = true →
  d !! "decisions" = Some (VRef ld) →
  objects w !! ld = Some (OList decisions) →
  ∃ w', predictive_maintenance_agent clock later uniform randint (VRef l) w
        = (Ret (VRef l), w') ∧
        ∃ schedule tasks,
          entry w' (VRef l) "maintenance_schedule" = Some schedule ∧
          entry_list w' schedule "maintenance_required" = Some tasks ∧
          forallb (thermal_is_medium w') tasks = true.
Proof.
  intros Hl Hsats Hls Hids%forallb_Forall Hdecisions Hld.
  pose proof (lookup_lt_Some _ _ _ Hl) as Hlt_l.
  pose proof (lookup_lt_Some _ _ _ Hls) as Hlt_ls.
  pose proof (lookup_lt_Some _ _ _ Hld) as Hlt_ld.
  unfold predictive_maintenance_agent.
  do 2 xstep. xstep. rewrite Hsats. cbn [default from_option Datatypes.id].
  do 5 xstep. xstep. rewrite Hsats. cbn [default from_option Datatypes.id]. xstep.
  rewrite !length_app. cbn [length].
  replace (length (objects w) + 1 + 1 + 1) with (length (objects w) + 3) by lia.
  cbn [objects self ticks draws with_objects with_self].
  eapply bind_returns_inv with (I := tasks_so_far w).
  { eapply for_enumerate_inv with (P := λ v, has_key w "id" v = true); [|done|].
    - intros i sat w1 (l1 & d1 & x1 & -> & Hl1 & Hx1)%has_key_inv
        [Hold [(sched & Hsched & Hreq) (ts & Hts & Hfit)]].
      pose proof (Hold _ _ Hl1) as Hl1'.
      pose proof (lookup_lt_Some _ _ _ Hsched) as Hlt_s.
      unfold np_random_uniform. do 3 xstep.
      destruct (Qlt_bool (uniform (draws w1) 70 100) 80
                || Qlt_bool (uniform (S (draws w1)) 80 100) 85).
      + do 2 xstep. unfold np_random_randint. do 3 xstep.
        eexists. split.
        { eapply list_append_list. cbn [objects with_objects].
          apply lookup_alloc_old. exact Hts. }
        split_and!; cbn [objects self ticks draws with_objects with_self].
        * intros j o Hj. pose proof (lookup_lt_Some _ _ _ Hj).
          rewrite lookup_store_ne by lia. apply lookup_alloc_old. by apply Hold.
        * exists sched. split; [|done].
          rewrite lookup_store_ne by lia. by apply lookup_alloc_old.
        * eexists. split.
          { eapply lookup_store_eq. apply lookup_alloc_old. exact Hts. }
          apply Forall_app. split.
          -- eapply Forall_impl; [exact Hfit|].
             intros t (lt & dt & issue & priority & -> & Hlt & Hdt & Hissue & Hprio & Hok).
             exists lt, dt, issue, priority. split_and!; try done.
             rewrite lookup_store_ne by lia. by apply lookup_alloc_old.
          -- constructor; [|constructor].
             eexists _, _, _, _. split_and!; [reflexivity| | | | |].
             ++ lia.
             ++ rewrite lookup_store_ne by lia. apply lookup_alloc_new.
             ++ reflexivity.
             ++ reflexivity.
             ++ apply issue_fits_priority.
      + eexists. split; [reflexivity|]. split_and!; [exact Hold|by exists sched|by exists ts].
    - split_and!.
      + intros j o Hj. cbn [objects with_objects]. by do 5 apply lookup_alloc_old.
      + eexists. cbn [objects with_objects]. split.
        * apply lookup_alloc_old.
          replace (length (objects w) + 3)
            with (length (((objects w ++ [OList []]) ++ [OList []]) ++ [OList []]))
            by (rewrite !length_app; cbn; lia).
          apply lookup_alloc_new.
        * reflexivity.
      + exists []. cbn [objects with_objects]. split; [|constructor].
        do 3 apply lookup_alloc_old.
        replace (length (objects w) + 1) with (length (objects w ++ [OList []]))
          by (rewrite !length_app; cbn; lia).
        apply lookup_alloc_new. }
  intros w1 [Hold [(sched & Hsched & Hreq) (ts & Hts & Hfit)]].
  pose proof (Hold _ _ Hl) as Hl'. pose proof (Hold _ _ Hld) as Hld'.
  pose proof (Hold _ _ Hls) as Hls'.
  assert (Hne_ld : ld ≠ l) by congruence.
  pose proof (lookup_lt_Some _ _ _ Hsched) as Hlt_s.
  xstep. xstep. xstep.
  rewrite lookup_insert_ne by done. rewrite Hsats. cbn [default from_option Datatypes.id].
  xstep. xstep. xstep.
  unfold add_decision.
  eapply bind_returns.
  { erewrite bind_Ret;
      [|eapply getitem_dict;
        [heap_lookup|rewrite lookup_insert_ne by done; exact Hdecisions]].
    do 2 step. eapply list_append_list. heap_lookup. }
  cbn [objects self ticks draws with_objects with_self].
  eexists. split; [reflexivity|].
  assert (Hkeep : ∀ (xl : list pyval) (dd : gmap string pyval) (a b : pyobj) i o,
            length (objects w) < i → objects w1 !! i = Some o →
            (<[ld := OList xl]> ((<[l := ODict dd]> (objects w1) ++ [a]) ++ [b])) !! i
            = Some o).
  { intros xl dd a b i o Hi Ho. rewrite lookup_store_ne by lia.
    do 2 apply lookup_alloc_old. by rewrite lookup_store_ne by lia. }
  exists (VRef (length (objects w) + 3)), ts.
  cbn [objects self ticks draws with_objects with_self].
  split_and!.
  - unfold entry, dict_of. cbn [objects self ticks draws with_objects with_self].
    rewrite lookup_store_ne by done.
    erewrite lookup_alloc_old; [|apply lookup_alloc_old; eapply lookup_store_eq; exact Hl'].
    cbn. by rewrite lookup_insert_eq.
  - unfold entry_list, entry, dict_of, list_of. cbn [objects self ticks draws with_objects with_self].
    erewrite Hkeep by (first [lia|eassumption]). cbn. rewrite Hreq. cbn.
    by erewrite Hkeep by (first [lia|eassumption]).
  - apply forallb_forall. intros t Ht%list_elem_of_In.
    rewrite Forall_forall in Hfit.
    destruct (Hfit t Ht) as (lt & dt & issue & priority & -> & Hlt & Hdt & Hissue & Hprio & Hok).
    unfold thermal_is_medium, entry, dict_of. cbn [objects self ticks draws with_objects with_self].
    erewrite Hkeep by (first [lia|eassumption]). cbn. by rewrite Hissue, Hprio.
Qed.

End predictive_maintenance.

Lemma predictive_maintenance_agent_thermal_stress_is_medium_witness :
  ∃ w', agent_graph.predictive_maintenance_agent clock0 later0 uniform_mixed randint0 (VRef 0)
          state_of_two
        = (Ret (VRef 0), w') ∧
        ∃ schedule tasks,
          entry w' (VRef 0) "maintenance_schedule" = Some schedule ∧
          entry_list w' schedule "maintenance_required" = Some tasks ∧
          forallb (thermal_is_medium w') tasks = true.
Proof.
  apply (predictive_maintenance_agent_thermal_stress_is_medium clock0 later0 uniform_mixed randint0
           state_of_two 0 1 3
           (list_to_map [("satellites", VRef 1); ("alerts", VRef 2); ("decisions", VRef 3)])
           [VRef 4; VRef 5] []).
  - reflexivity.
  - reflexivity.
  - reflexivity.
  - vm_compute. reflexivity.
  - reflexivity.
  - reflexivity.
Defined.
